(** * Contest reminder bot: reminder store and delivery loop

    This development embeds the two source files of the bot,
    [database.py] (the SQLite-backed reminder table) and the reminder task
    of [main.py] ([check_reminders]), together with the part of Python's
    [datetime] module that [add_reminder] calls
    ([datetime.fromisoformat] and [datetime.timestamp]), and proves the
    properties of the specification about them.

    Layout: the definitions come first (modules [Py], [Datetime],
    [Isoformat], [Database], [Parsed], [Main], [Scenario]), the lemmas
    and theorems
    follow ([DatetimeFacts], [DatabaseFacts], [MainFacts]).

    The commands on the contest list of [main.py] ([format_time],
    [fetch_contests] from the response on, [ContestView] with its two
    callbacks, [upcoming]) are embedded in [View], with [Invariants],
    [Observed] and [Listing] beside it; what is proved of them and,
    further, of the table and the task is in [StoreFacts], [TaskFacts]
    and [ViewFacts]. *)

From Stdlib Require Import ZArith String Ascii List Lia Bool.
From Stdlib Require Import DecimalString DecimalZ.
From stdpp Require Import base option list strings gmap.

Local Open Scope Z_scope.

(* ===================================================================== *)
(** ** Python values: exceptions, [str], [int()]                          *)
(* ===================================================================== *)

Module Py.

(** The exceptions that the embedded code can raise. *)
Inductive exn : Type :=
  | ValueError
  | AssertionError
  | TypeError.

(** A Python call either returns a value or raises. *)
Inductive result (A : Type) : Type :=
  | Ok (a : A)
  | Raise (e : exn).
Arguments Ok {A} a.
Arguments Raise {A} e.

Definition bind {A B : Type} (r : result A) (k : A -> result B) : result B :=
  match r with
  | Ok a => k a
  | Raise e => Raise e
  end.

#[global] Instance result_ret : MRet result := fun A a => Ok a.
#[global] Instance result_bind : MBind result := fun A B k r => bind r k.

(** A [str] is a sequence of characters; one [ascii] stands for one
    character (code points U+0000 to U+00FF). *)
Definition str : Type := list ascii.

Definition of_string (s : string) : str := list_ascii_of_string s.

Definition chr_eqb (c d : ascii) : bool := Ascii.eqb c d.

(** [s[a:b]] for non-negative [a], [b]. *)
Definition slice (a b : nat) (s : str) : str := take (b - a)%nat (drop a s).

(** [s[a:]]. *)
Definition slice_from (a : nat) (s : str) : str := drop a s.

(** [s.find(c) + 1] for a one-character [c]: the 1-based position of the
    first occurrence, [0] when there is none. *)
Fixpoint find1 (c : ascii) (s : str) : nat :=
  match s with
  | [] => 0%nat
  | d :: s' =>
      if chr_eqb d c then 1%nat
      else match find1 c s' with
           | O => 0%nat
           | S k => S (S k)
           end
  end.

(** [s.replace("Z", "+00:00")]: every occurrence is replaced. *)
Fixpoint replace_Z (s : string) : string :=
  match s with
  | EmptyString => EmptyString
  | String c s' =>
      if chr_eqb c "Z" then String.append "+00:00" (replace_Z s')
      else String c (replace_Z s')
  end.

(** [c in "0123456789"] for a one-character [c]. *)
Definition _is_ascii_digit (c : ascii) : bool :=
  let n := nat_of_ascii c in ((48 <=? n) && (n <=? 57))%nat.

Definition digit_val (c : ascii) : Z := Z.of_nat (nat_of_ascii c) - 48.

(** The characters that [int()] skips at both ends: tab to carriage
    return, the space, U+0085 and U+00A0. *)
Definition is_space (c : ascii) : bool :=
  let n := nat_of_ascii c in
  (((9 <=? n) && (n <=? 13)) || (n =? 32) || (n =? 133) || (n =? 160))%nat.

Fixpoint lstrip (s : str) : str :=
  match s with
  | c :: s' => if is_space c then lstrip s' else s
  | [] => []
  end.

Definition strip (s : str) : str := rev (lstrip (rev (lstrip s))).

(** The digits of an [int()] literal: decimal digits, single underscores
    allowed between two digits. *)
Fixpoint digits_value (acc : Z) (after_underscore : bool) (s : str) : option Z :=
  match s with
  | [] => if after_underscore then None else Some acc
  | c :: s' =>
      if _is_ascii_digit c then digits_value (10 * acc + digit_val c) false s'
      else if chr_eqb c "_" then
        (if after_underscore then None else digits_value acc true s')
      else None
  end.

(** [int(s)] in base 10; [None] stands for the [ValueError]. *)
Definition int (s : str) : option Z :=
  let s := strip s in
  let '(sign, body) :=
    match s with
    | c :: r => if chr_eqb c "+" then (1, r)
                else if chr_eqb c "-" then (-1, r) else (1, s)
    | [] => (1, s)
    end in
  match body with
  | c :: _ =>
      if _is_ascii_digit c then Z.mul sign <$> digits_value 0 false body
      else None
  | [] => None
  end.

Definition int_or_raise (s : str) : result Z :=
  match int s with
  | Some v => Ok v
  | None => Raise ValueError
  end.

End Py.

(* ===================================================================== *)
(** ** The [datetime] module: calendar, ISO parser, POSIX timestamp       *)
(* ===================================================================== *)

(** The definitions follow the module's Python implementation
    ([Lib/datetime.py] of CPython 3.11 and 3.12; [main.py] needs 3.12),
    function by function and under the same names.  CPython also ships
    the module in C, and runs that one when it is there.  The two read
    alike every [YYYY-MM-DDTHH:MM:SS], with [Z], with [+HH:MM] or
    [-HH:MM], or with no zone.  Outside these forms they part: the C
    code rejects a field with a sign or a blank in it and a date with a
    separator and no time, which the code here reads; it reads an empty
    fraction of a second, which the code here rejects; and it reports
    [ValueError] for what fails an [assert] here.  What a timestamp
    means is stated below for the forms that both read alike; what
    [add_reminder] does with a timestamp that the parser rejects is
    stated over the parser, whichever it is ([Parsed]). *)

Module Datetime.
Import Py.

Definition MINYEAR : Z := 1.
Definition MAXYEAR : Z := 9999.

Definition _DAYS_IN_MONTH : list Z :=
  [-1; 31; 28; 31; 30; 31; 30; 31; 31; 30; 31; 30; 31].

Definition _DAYS_BEFORE_MONTH : list Z :=
  [-1; 0; 31; 59; 90; 120; 151; 181; 212; 243; 273; 304; 334].

(** [table[i]] for an index that the callers keep within the table. *)
Definition index (table : list Z) (i : Z) : Z := nth (Z.to_nat i) table (-1).

Definition b2z (b : bool) : Z := if b then 1 else 0.

Definition _is_leap (year : Z) : bool :=
  (year mod 4 =? 0) && (negb (year mod 100 =? 0) || (year mod 400 =? 0)).

Definition _days_before_year (year : Z) : Z :=
  let y := year - 1 in y * 365 + y / 4 - y / 100 + y / 400.

Definition _days_in_month (year month : Z) : Z :=
  if (month =? 2) && _is_leap year then 29 else index _DAYS_IN_MONTH month.

Definition _days_before_month (year month : Z) : Z :=
  index _DAYS_BEFORE_MONTH month + b2z ((2 <? month) && _is_leap year).

Definition _ymd2ord (year month day : Z) : Z :=
  _days_before_year year + _days_before_month year month + day.

Definition _DI400Y : Z := _days_before_year 401.
Definition _DI100Y : Z := _days_before_year 101.
Definition _DI4Y : Z := _days_before_year 5.

Definition _ord2ymd (n : Z) : Z * Z * Z :=
  let n := n - 1 in
  let n400 := n / _DI400Y in
  let n := n mod _DI400Y in
  let year := n400 * 400 + 1 in
  let n100 := n / _DI100Y in
  let n := n mod _DI100Y in
  let n4 := n / _DI4Y in
  let n := n mod _DI4Y in
  let n1 := n / 365 in
  let n := n mod 365 in
  let year := year + (n100 * 100 + n4 * 4 + n1) in
  if (n1 =? 4) || (n100 =? 4) then (year - 1, 12, 31)
  else
    let leapyear := (n1 =? 3) && (negb (n4 =? 24) || (n100 =? 3)) in
    let month := Z.shiftr (n + 50) 5 in
    let preceding :=
      index _DAYS_BEFORE_MONTH month + b2z ((2 <? month) && leapyear) in
    let '(month, preceding) :=
      if n <? preceding then
        (month - 1,
         preceding - (index _DAYS_IN_MONTH (month - 1)
                      + b2z ((month - 1 =? 2) && leapyear)))
      else (month, preceding) in
    (year, month, n - preceding + 1).

Definition _isoweek1monday (year : Z) : Z :=
  let THURSDAY := 3 in
  let firstday := _ymd2ord year 1 1 in
  let firstweekday := (firstday + 6) mod 7 in
  let week1monday := firstday - firstweekday in
  if THURSDAY <? firstweekday then week1monday + 7 else week1monday.

Definition _isoweek_to_gregorian (year week day : Z) : result (Z * Z * Z) :=
  if negb ((MINYEAR <=? year) && (year <=? MAXYEAR)) then Raise ValueError
  else
    let out_of_range :=
      if negb ((0 <? week) && (week <? 53)) then
        if week =? 53 then
          let first_weekday := _ymd2ord year 1 1 mod 7 in
          negb ((first_weekday =? 4)
                || ((first_weekday =? 3) && _is_leap year))
        else true
      else false in
    if out_of_range then Raise ValueError
    else if negb ((0 <? day) && (day <? 8)) then Raise ValueError
    else
      let day_offset := (week - 1) * 7 + (day - 1) in
      let day_1 := _isoweek1monday year in
      Ok (_ord2ymd (day_1 + day_offset)).

(** *** Parsing *)

Definition is_chr (c : ascii) (s : str) : bool :=
  match s with
  | [d] => chr_eqb d c
  | _ => false
  end.

(** [dtstr[i] == c]; the callers only index below the length. *)
Definition at_is (i : nat) (c : ascii) (s : str) : bool :=
  match s !! i with
  | Some d => chr_eqb d c
  | None => false
  end.

(** The [while] loop of [_find_isoformat_datetime_separator]: the first
    index from [idx] on that is past the end or holds no digit. *)
Fixpoint skip_digits (idx : nat) (rest : str) : nat :=
  match rest with
  | c :: rest' => if _is_ascii_digit c then skip_digits (S idx) rest' else idx
  | [] => idx
  end.

Definition _find_isoformat_datetime_separator (dtstr : str) : result nat :=
  let len_dtstr := length dtstr in
  if (len_dtstr =? 7)%nat then Ok 7%nat
  else if at_is 4 "-" dtstr then
    if at_is 5 "W" dtstr then
      if (len_dtstr <? 8)%nat then Raise ValueError
      else if (8 <? len_dtstr)%nat && at_is 8 "-" dtstr then
        if (len_dtstr =? 9)%nat then Raise ValueError
        else if (10 <? len_dtstr)%nat
                && match dtstr !! 10%nat with
                   | Some c => _is_ascii_digit c
                   | None => false
                   end
        then Ok 8%nat
        else Ok 10%nat
      else Ok 8%nat
    else Ok 10%nat
  else if at_is 4 "W" dtstr then
    let idx := skip_digits 7 (drop 7 dtstr) in
    if (idx <? 9)%nat then Ok idx
    else if (idx mod 2 =? 0)%nat then Ok 7%nat
    else Ok 8%nat
  else Ok 8%nat.

Definition _parse_isoformat_date (dtstr : str) : result (Z * Z * Z) :=
  let n := length dtstr in
  if negb ((n =? 7)%nat || (n =? 8)%nat || (n =? 10)%nat)
  then Raise AssertionError
  else
    year ← int_or_raise (slice 0 4 dtstr);
    let has_sep := at_is 4 "-" dtstr in
    let pos := (4 + (if has_sep then 1 else 0))%nat in
    if is_chr "W" (slice pos (pos + 1) dtstr) then
      let pos := (pos + 1)%nat in
      weekno ← int_or_raise (slice pos (pos + 2) dtstr);
      let pos := (pos + 2)%nat in
      if (pos <? n)%nat then
        if negb (Bool.eqb (is_chr "-" (slice pos (pos + 1) dtstr)) has_sep)
        then Raise ValueError
        else
          let pos := (pos + (if has_sep then 1 else 0))%nat in
          dayno ← int_or_raise (slice pos (pos + 1) dtstr);
          _isoweek_to_gregorian year weekno dayno
      else _isoweek_to_gregorian year weekno 1
    else
      month ← int_or_raise (slice pos (pos + 2) dtstr);
      let pos := (pos + 2)%nat in
      if negb (Bool.eqb (is_chr "-" (slice pos (pos + 1) dtstr)) has_sep)
      then Raise ValueError
      else
        let pos := (pos + (if has_sep then 1 else 0))%nat in
        day ← int_or_raise (slice pos (pos + 2) dtstr);
        Ok (year, month, day).

Definition _FRACTION_CORRECTION : list Z := [100000; 10000; 1000; 100; 10].

(** The [for comp in range(0, 3)] loop of [_parse_hh_mm_ss_ff]; [todo]
    counts the iterations left.  It returns the position reached and the
    components. *)
Fixpoint hh_mm_ss_loop (todo : nat) (comp : nat) (tstr : str) (pos : nat)
    (has_sep : bool) (time_comps : list Z) : result (nat * list Z) :=
  match todo with
  | O => Ok (pos, time_comps)
  | S todo' =>
      if (length tstr - pos <? 2)%nat then Raise ValueError
      else
        v ← int_or_raise (slice pos (pos + 2) tstr);
        let time_comps := <[comp := v]> time_comps in
        let pos := (pos + 2)%nat in
        let next_char := slice pos (pos + 1) tstr in
        let has_sep := if (comp =? 0)%nat then is_chr ":" next_char else has_sep in
        if match next_char with [] => true | _ => false end || (2 <=? comp)%nat
        then Ok (pos, time_comps)
        else if has_sep && negb (is_chr ":" next_char) then Raise ValueError
        else
          hh_mm_ss_loop todo' (S comp) tstr
            (pos + (if has_sep then 1 else 0))%nat has_sep time_comps
  end.

Definition _parse_hh_mm_ss_ff (tstr : str) : result (list Z) :=
  let len_str := length tstr in
  '(pos, time_comps) ← hh_mm_ss_loop 3 0 tstr 0 false [0; 0; 0; 0];
  if (pos <? len_str)%nat then
    if negb (at_is pos "." tstr || at_is pos "," tstr) then Raise ValueError
    else
      let pos := (pos + 1)%nat in
      let len_remainder := (len_str - pos)%nat in
      let to_parse := if (6 <=? len_remainder)%nat then 6%nat else len_remainder in
      us ← int_or_raise (slice pos (pos + to_parse) tstr);
      let us :=
        if (to_parse <? 6)%nat
        then us * index _FRACTION_CORRECTION (Z.of_nat to_parse - 1)
        else us in
      if (to_parse <? len_remainder)%nat
         && negb (forallb _is_ascii_digit (slice_from (pos + to_parse) tstr))
      then Raise ValueError
      else Ok (<[3%nat := us]> time_comps)
  else Ok time_comps.

(** A [timedelta] is held as its total number of microseconds; a [tzinfo]
    built by the parser is a fixed-offset [timezone], held as its UTC
    offset, and [None] is the naive case. *)
Definition timedelta : Type := Z.
Definition tzinfo : Type := option timedelta.

Definition mk_timedelta (hours minutes seconds microseconds : Z) : timedelta :=
  ((hours * 3600 + minutes * 60 + seconds) * 1000000) + microseconds.

Definition timezone_utc : timedelta := 0.

Definition _maxoffset : timedelta := mk_timedelta 24 0 0 (-1).
Definition _minoffset : timedelta := - _maxoffset.

(** [timezone(offset)] *)
Definition timezone (offset : timedelta) : result timedelta :=
  if negb ((_minoffset <=? offset) && (offset <=? _maxoffset))
  then Raise ValueError
  else Ok offset.

(** [l[i]] for a list of four components *)
Definition item (l : list Z) (i : nat) : Z := nth i l 0.

Definition _parse_isoformat_time (tstr : str) : result (list Z * tzinfo) :=
  let len_str := length tstr in
  if (len_str <? 2)%nat then Raise ValueError
  else
    let tz_pos :=
      match find1 "-" tstr with
      | S k => S k
      | O => match find1 "+" tstr with
             | S k => S k
             | O => find1 "Z" tstr
             end
      end in
    let timestr := if (0 <? tz_pos)%nat then slice 0 (tz_pos - 1) tstr else tstr in
    time_comps ← _parse_hh_mm_ss_ff timestr;
    if (tz_pos =? len_str)%nat && at_is (len_str - 1) "Z" tstr then
      Ok (time_comps, Some timezone_utc)
    else if (0 <? tz_pos)%nat then
      let tzstr := slice_from tz_pos tstr in
      let n := length tzstr in
      if (n =? 0)%nat || (n =? 1)%nat || (n =? 3)%nat then Raise ValueError
      else
        tz_comps ← _parse_hh_mm_ss_ff tzstr;
        if forallb (Z.eqb 0) tz_comps then Ok (time_comps, Some timezone_utc)
        else
          let tzsign := if at_is (tz_pos - 1) "-" tstr then -1 else 1 in
          let td := mk_timedelta (item tz_comps 0) (item tz_comps 1)
                      (item tz_comps 2) (item tz_comps 3) in
          tzi ← timezone (tzsign * td);
          Ok (time_comps, Some tzi)
    else Ok (time_comps, None).

(** *** The [datetime] class *)

Record datetime : Type := mk_datetime {
  year : Z;
  month : Z;
  day : Z;
  hour : Z;
  minute : Z;
  second : Z;
  microsecond : Z;
  tz : tzinfo;
  fold : bool
}.

Definition _check_date_fields (year month day : Z) : result unit :=
  if negb ((MINYEAR <=? year) && (year <=? MAXYEAR)) then Raise ValueError
  else if negb ((1 <=? month) && (month <=? 12)) then Raise ValueError
  else
    let dim := _days_in_month year month in
    if negb ((1 <=? day) && (day <=? dim)) then Raise ValueError
    else Ok tt.

Definition _check_time_fields (hour minute second microsecond : Z) : result unit :=
  if negb ((0 <=? hour) && (hour <=? 23)) then Raise ValueError
  else if negb ((0 <=? minute) && (minute <=? 59)) then Raise ValueError
  else if negb ((0 <=? second) && (second <=? 59)) then Raise ValueError
  else if negb ((0 <=? microsecond) && (microsecond <=? 999999)) then Raise ValueError
  else Ok tt.

(** [datetime(year, month, day, hour, minute, second, microsecond, tzinfo)],
    with [fold] left at its default. *)
Definition new (year month day hour minute second microsecond : Z)
    (tzi : tzinfo) : result datetime :=
  _ ← _check_date_fields year month day;
  _ ← _check_time_fields hour minute second microsecond;
  Ok (mk_datetime year month day hour minute second microsecond tzi false).

Definition fromisoformat (date_string : string) : result datetime :=
  let date_string := of_string date_string in
  if (length date_string <? 7)%nat then Raise ValueError
  else
    separator_location ← _find_isoformat_datetime_separator date_string;
    let dstr := slice 0 separator_location date_string in
    let tstr := slice_from (separator_location + 1) date_string in
    '(y, m, d) ← _parse_isoformat_date dstr;
    '(time_components, tzi) ←
      match tstr with
      | [] => Ok ([0; 0; 0; 0], None)
      | _ => _parse_isoformat_time tstr
      end;
    new y m d (item time_components 0) (item time_components 1)
      (item time_components 2) (item time_components 3) tzi.

(** *** Floats

    [timestamp()] returns a [float].  A binary64 value is held as
    [mant * 2 ^ expo]; every operation below is the exact result rounded
    to the nearest value with a 53-bit significand, ties to even, which
    is what IEEE 754 arithmetic and Python's [int / int] do.  (The
    magnitudes that occur here lie between 1e-6 and 2^40, far from
    overflow and from subnormal numbers.) *)

Record float : Type := mk_float { mant : Z; expo : Z }.

(** The exact quotient [num / den] ([den > 0]) rounded to binary64. *)
Definition round_nearest_even (num den : Z) : float :=
  if num =? 0 then mk_float 0 0
  else
    let a := Z.abs num in
    let k := Z.log2 a - Z.log2 den in
    let scaled (e : Z) : Z * Z :=
      if 0 <=? e then (a, den * 2 ^ e) else (a * 2 ^ (- e), den) in
    let e :=
      let '(n, d) := scaled (k - 52) in
      if 2 ^ 52 <=? n / d then k - 52 else k - 53 in
    let '(n, d) := scaled e in
    let q := n / d in
    let r := n mod d in
    let m :=
      if 2 * r <? d then q
      else if d <? 2 * r then q + 1
      else if Z.even q then q else q + 1 in
    mk_float (Z.sgn num * m) e.

(** The value of a float as a fraction with a positive denominator. *)
Definition float_num (f : float) : Z :=
  if 0 <=? expo f then mant f * 2 ^ expo f else mant f.
Definition float_den (f : float) : Z :=
  if 0 <=? expo f then 1 else 2 ^ (- expo f).

(** [float(n)] *)
Definition float_of_int (n : Z) : float := round_nearest_even n 1.

(** [a / b] for two [int]s, [b > 0] *)
Definition int_truediv (a b : Z) : float := round_nearest_even a b.

(** [f / g] for a positive [g] *)
Definition float_div (f g : float) : float :=
  round_nearest_even (float_num f * float_den g) (float_den f * float_num g).

(** [f + g] *)
Definition float_add (f g : float) : float :=
  round_nearest_even (float_num f * float_den g + float_num g * float_den f)
    (float_den f * float_den g).

(** [int(f)]: truncation towards zero. *)
Definition int_of_float (f : float) : Z := Z.quot (float_num f) (float_den f).

(** *** Differences and timestamps *)

Definition toordinal (self : datetime) : Z :=
  _ymd2ord (year self) (month self) (day self).

(** [timedelta(days, seconds, microseconds)] *)
Definition timedelta_dsu (days seconds microseconds : Z) : timedelta :=
  (days * 86400 + seconds) * 1000000 + microseconds.

(** [self - other] for two datetimes *)
Definition sub (self other : datetime) : result timedelta :=
  let days1 := toordinal self in
  let days2 := toordinal other in
  let secs1 := second self + minute self * 60 + hour self * 3600 in
  let secs2 := second other + minute other * 60 + hour other * 3600 in
  let base := timedelta_dsu (days1 - days2) (secs1 - secs2)
                (microsecond self - microsecond other) in
  match tz self, tz other with
  | None, None => Ok base
  | Some myoff, Some otoff =>
      if myoff =? otoff then Ok base else Ok (base + otoff - myoff)
  | _, _ => Raise TypeError
  end.

(** [td // timedelta(0, 1)] *)
Definition floordiv_second (td : timedelta) : Z := td / 1000000.

(** [td.total_seconds()] *)
Definition total_seconds (td : timedelta) : float := int_truediv td (10 ^ 6).

Definition _EPOCH : datetime :=
  mk_datetime 1970 1 1 0 0 0 0 (Some timezone_utc) false.

(** The process environment that [timestamp()] of a naive datetime
    consults: the platform's [time.localtime], which maps seconds since
    the epoch to the broken-down local time of the configured zone. *)
Record struct_time : Type := mk_struct_time {
  tm_year : Z; tm_mon : Z; tm_mday : Z;
  tm_hour : Z; tm_min : Z; tm_sec : Z
}.

Record environ : Type := mk_environ {
  localtime : Z -> struct_time
}.

Definition _mktime (env : environ) (self : datetime) : result Z :=
  let epoch := mk_datetime 1970 1 1 0 0 0 0 None false in
  let max_fold_seconds := 24 * 3600 in
  d ← sub self epoch;
  let t := floordiv_second d in
  let local (u : Z) : result Z :=
    let st := localtime env u in
    dt ← new (tm_year st) (tm_mon st) (tm_mday st)
             (tm_hour st) (tm_min st) (tm_sec st) 0 None;
    d ← sub dt epoch;
    Ok (floordiv_second d) in
  lt ← local t;
  let a := lt - t in
  let u1 := t - a in
  t1 ← local u1;
  let finish (b : Z) : result Z :=
    let u2 := t - b in
    t2 ← local u2;
    if t2 =? t then Ok u2
    else if t1 =? t then Ok u1
    else Ok (if fold self then Z.min u1 u2 else Z.max u1 u2) in
  if t1 =? t then
    let u2 := u1 + (if fold self then max_fold_seconds else - max_fold_seconds) in
    l2 ← local u2;
    let b := l2 - u2 in
    if a =? b then Ok u1 else finish b
  else
    let b := t1 - u1 in
    finish b.

Definition timestamp (env : environ) (self : datetime) : result float :=
  match tz self with
  | None =>
      s ← _mktime env self;
      Ok (float_add (float_of_int s)
            (float_div (float_of_int (microsecond self)) (float_of_int 1000000)))
  | Some _ =>
      d ← sub self _EPOCH;
      Ok (total_seconds d)
  end.

End Datetime.

(* ===================================================================== *)
(** ** Timestamps in writing, and time zones                              *)
(* ===================================================================== *)

(** The extended ISO 8601 forms that the properties below speak about,
    and the process environments in which they evaluate the code.  None
    of this is code of the bot. *)

Module Isoformat.
Import Py Datetime.

(** The last decimal digit of [n], as a character. *)
Definition digit (n : Z) : ascii := ascii_of_nat (48 + Z.to_nat (n mod 10)).

Definition two_digits (n : Z) : string :=
  String (digit (n / 10)) (String (digit n) EmptyString).

Definition four_digits (n : Z) : string :=
  String (digit (n / 1000)) (String (digit (n / 100)) (two_digits n)).

(** [YYYY-MM-DDTHH:MM:SS] *)
Definition date_time (y mo d h mi s : Z) : string :=
  (four_digits y +:+ "-" +:+ two_digits mo +:+ "-" +:+ two_digits d +:+ "T"
   +:+ two_digits h +:+ ":" +:+ two_digits mi +:+ ":" +:+ two_digits s)%string.

(** [YYYY-MM-DDTHH:MM:SSZ] *)
Definition with_Z (y mo d h mi s : Z) : string :=
  (date_time y mo d h mi s +:+ "Z")%string.

(** [YYYY-MM-DDTHH:MM:SS+HH:MM], or with [-] when [west]. *)
Definition with_offset (y mo d h mi s : Z) (west : bool) (oh om : Z) : string :=
  (date_time y mo d h mi s +:+ (if west then "-" else "+")
   +:+ two_digits oh +:+ ":" +:+ two_digits om)%string.

(** The sign of an offset, as written. *)
Definition sign_char (west : bool) : ascii := if west then "-"%char else "+"%char.

(** Decimal digits, and the number that a string of them denotes. *)
Definition isdig (c : ascii) : Prop := _is_ascii_digit c = true.

Definition decimal (l : str) : Z :=
  fold_left (λ acc c, 10 * acc + digit_val c) l 0.

(** The fields of a date and time of day of the calendar. *)
Definition valid_fields (y mo d h mi s : Z) : Prop :=
  1 ≤ y ≤ 9999 ∧ 1 ≤ mo ≤ 12 ∧ 1 ≤ d ≤ _days_in_month y mo
  ∧ 0 ≤ h ≤ 23 ∧ 0 ≤ mi ≤ 59 ∧ 0 ≤ s ≤ 59.

Definition valid_offset (oh om : Z) : Prop := 0 ≤ oh ≤ 23 ∧ 0 ≤ om ≤ 59.

(** Seconds from 1970-01-01T00:00:00 to the given date and time of day,
    both read in one and the same zone. *)
Definition seconds_since_1970 (y mo d h mi s : Z) : Z :=
  (_ymd2ord y mo d - _ymd2ord 1970 1 1) * 86400 + h * 3600 + mi * 60 + s.

(** The offset [+HH:MM] or [-HH:MM] in seconds, east positive. *)
Definition offset_seconds (west : bool) (oh om : Z) : Z :=
  (if west then -1 else 1) * (oh * 3600 + om * 60).

(** [time.localtime] of a zone that is always [offset] seconds east of
    UTC. *)
Definition fixed_offset_localtime (offset : Z) (u : Z) : struct_time :=
  let t := u + offset in
  let '(y, m, d) := _ord2ymd (t / 86400 + _ymd2ord 1970 1 1) in
  let r := t mod 86400 in
  mk_struct_time y m d (r / 3600) (r mod 3600 / 60) (r mod 60).

(** A process that runs with [TZ=UTC], and one in a zone that is five and
    a half hours east of UTC all year, as [TZ=Asia/Kolkata] is today. *)
Definition utc_environ : environ := mk_environ (fixed_offset_localtime 0).
Definition kolkata_environ : environ := mk_environ (fixed_offset_localtime 19800).

End Isoformat.

(* ===================================================================== *)
(** ** database.py                                                        *)
(* ===================================================================== *)

Module Database.
Import Py.

(** One row of the [reminders] table, without its [id] column. *)
Record row : Type := mk_row {
  user_id : Z;
  contest_name : string;
  contest_url : string;
  reminder_time : Z
}.

(** The database file: the [reminders] table, keyed by its
    [INTEGER PRIMARY KEY] column [id], and the counter that SQLite keeps
    for an [AUTOINCREMENT] key (the largest [id] ever assigned).  The
    storage layer itself is taken to work: no I/O error, no lock
    time-out, and integers within SQLite's 64 bits. *)
Record db : Type := mk_db {
  reminders : gmap Z row;
  sqlite_sequence : Z
}.

Definition empty_db : db := mk_db ∅ 0.

(** What [AUTOINCREMENT] maintains: no row has an [id] above the
    counter. *)
Definition well_formed (d : db) : Prop :=
  ∀ id r, reminders d !! id = Some r → id ≤ sqlite_sequence d.

(** A reminder is absent for good: its [id] is not in the table and is
    not above the counter, so that no later row gets it. *)
Definition absent (id : Z) (d : db) : Prop :=
  id ≤ sqlite_sequence d ∧ reminders d !! id = None.

(** [initialize_db()]: [CREATE TABLE IF NOT EXISTS] makes the table on a
    new file and leaves an existing one as it is. *)
Definition initialize_db (file : option db) : db :=
  match file with
  | Some d => d
  | None => empty_db
  end.

(** [SELECT id FROM reminders WHERE user_id = ? AND contest_url = ?] *)
Definition select_id_by_user_and_url (uid : Z) (url : string) (d : db) : list Z :=
  (map_to_list
     (filter (λ kv : Z * row, user_id kv.2 = uid ∧ contest_url kv.2 = url)
        (reminders d))).*1.

(** [cursor.fetchone()] *)
Definition fetchone {A : Type} (rows : list A) : option A := head rows.

(** The [id] that [INSERT] assigns under [AUTOINCREMENT]: one more than
    the largest [id] that the table holds or has ever held. *)
Definition next_id (d : db) : Z :=
  foldr Z.max (sqlite_sequence d) (map_to_list (reminders d)).*1 + 1.

(** [INSERT INTO reminders (user_id, contest_name, contest_url,
    reminder_time) VALUES (?, ?, ?, ?)] *)
Definition insert_reminder (r : row) (d : db) : db :=
  let id := next_id d in
  mk_db (<[id := r]> (reminders d)) id.

(** Lines 34 and 35 of [add_reminder]: the start of the contest, in
    seconds since the epoch. *)
Definition start_time_unix (env : Datetime.environ) (start_time_str : string)
    : result Z :=
  dt_object ← Datetime.fromisoformat (replace_Z start_time_str);
  ts ← Datetime.timestamp env dt_object;
  Ok (Datetime.int_of_float ts).

(** Line 36: the instant at which the reminder is to be delivered. *)
Definition reminder_time_unix (env : Datetime.environ) (start_time_str : string)
    (remind_before_minutes : Z) : result Z :=
  start ← start_time_unix env start_time_str;
  Ok (start - remind_before_minutes * 60).

(** [add_reminder]: the outcome of the call ([True], [False] or an
    exception) and the database after it. *)
Definition add_reminder (env : Datetime.environ) (uid : Z) (name url : string)
    (start_time_str : string) (remind_before_minutes : Z) (d : db)
    : result bool * db :=
  match reminder_time_unix env start_time_str remind_before_minutes with
  | Raise e => (Raise e, d)
  | Ok t =>
      match fetchone (select_id_by_user_and_url uid url d) with
      | Some _ => (Ok false, d)
      | None => (Ok true, insert_reminder (mk_row uid name url t) d)
      end
  end.

(** A row as [get_due_reminders] returns it:
    [(id, user_id, contest_name, contest_url)]. *)
Definition due_row : Type := Z * Z * string * string.

Definition due_id (r : due_row) : Z := r.1.1.1.
Definition due_user (r : due_row) : Z := r.1.1.2.
Definition due_name (r : due_row) : string := r.1.2.
Definition due_url (r : due_row) : string := r.2.

Definition due_of (kv : Z * row) : due_row :=
  (kv.1, user_id kv.2, contest_name kv.2, contest_url kv.2).

(** [get_due_reminders()], where [current_time_unix] is the clock reading
    [int(time.time())] of the call:
    [SELECT id, user_id, contest_name, contest_url FROM reminders
     WHERE reminder_time <= ?].
    The query has no [ORDER BY]: the rows come in the order in which the
    map lists them, which stands for an order that nothing fixes. *)
Definition get_due_reminders (current_time_unix : Z) (d : db) : list due_row :=
  due_of <$>
    map_to_list
      (filter (λ kv : Z * row, reminder_time kv.2 ≤ current_time_unix)
         (reminders d)).

(** [delete_reminder]: [DELETE FROM reminders WHERE id = ?] *)
Definition delete_reminder (reminder_id : Z) (d : db) : db :=
  mk_db (delete reminder_id (reminders d)) (sqlite_sequence d).

End Database.

(* ===================================================================== *)
(** ** database.py: [add_reminder] over the parser                        *)
(* ===================================================================== *)

(** Lines 34 to 55 of [add_reminder] once more, with
    [datetime.fromisoformat] as a parameter: the parser is the
    interpreter's, and nothing in these lines depends on which strings
    it reads.  With [Datetime.fromisoformat] for it, this is
    [Database.add_reminder] ([DatabaseFacts.add_reminder_over_parser]). *)
Module Parsed.
Import Py Database.

Section Parser.

Variable fromisoformat : string -> result Datetime.datetime.

(** Lines 34 and 35. *)
Definition start_time_unix (env : Datetime.environ) (start_time_str : string)
    : result Z :=
  dt_object ← fromisoformat (replace_Z start_time_str);
  ts ← Datetime.timestamp env dt_object;
  Ok (Datetime.int_of_float ts).

(** Line 36. *)
Definition reminder_time_unix (env : Datetime.environ) (start_time_str : string)
    (remind_before_minutes : Z) : result Z :=
  start ← start_time_unix env start_time_str;
  Ok (start - remind_before_minutes * 60).

(** Lines 38 to 55: the existence check and the [INSERT], reached only
    when lines 34 to 36 have raised nothing. *)
Definition add_reminder (env : Datetime.environ) (uid : Z) (name url : string)
    (start_time_str : string) (remind_before_minutes : Z) (d : db)
    : result bool * db :=
  match reminder_time_unix env start_time_str remind_before_minutes with
  | Raise e => (Raise e, d)
  | Ok t =>
      match fetchone (select_id_by_user_and_url uid url d) with
      | Some _ => (Ok false, d)
      | None => (Ok true, insert_reminder (mk_row uid name url t) d)
      end
  end.

End Parser.

End Parsed.

(* ===================================================================== *)
(** ** main.py: the reminder task                                         *)
(* ===================================================================== *)

Module Main.
Import Database.

(** What awaiting a Discord call yields: a value, or one of the
    exceptions that the two [except] clauses of [check_reminders] tell
    apart ([discord.errors.NotFound], any other [Exception]). *)
Inductive discord_exn : Type :=
  | NotFound
  | OtherException.

Inductive awaited (A : Type) : Type :=
  | Returned (a : A)
  | Raised (e : discord_exn).
Arguments Returned {A} a.
Arguments Raised {A} e.

(** The object that [bot.fetch_user] returns, as far as the task looks at
    it: its truth value, tested by [if user:]. *)
Record user : Type := mk_user { truthy : bool }.

(** The two lines that the task prints. *)
Inductive printed : Type :=
  | CouldNotFindUser (uid : Z)
  | ErrorWhileSending.

(** What one run of the task does, in order. *)
Inductive event : Type :=
  | FetchUser (uid : Z) (r : awaited user)
  | Send (uid : Z) (content : string) (r : awaited unit)
  | DeleteReminder (rem_id : Z)
  | Print (line : printed).

Definition newline : string := String "010"%char EmptyString.

(** The alarm-clock sign U+23F0 that opens the message, as its three
    UTF-8 bytes. *)
Definition alarm_clock : string :=
  String "226"%char (String "143"%char (String "176"%char EmptyString)).

(** The text of the direct message. *)
Definition reminder_message (name url : string) : string :=
  (alarm_clock +:+ " **Reminder!** The contest **'" +:+ name
   +:+ "'** is starting in about 15 minutes!" +:+ newline
   +:+ "Get ready here: " +:+ url)%string.

(** A press of the "Remind Me" button with a contest selected: the
    user who pressed and the fields of the contest that [remind_button]
    hands to [add_reminder]. *)
Record press : Type := mk_press {
  press_user : Z;
  press_event : string;
  press_href : string;
  press_start : string
}.

(** [remind_button] for such a press: the call of [add_reminder] at
    line 120, with its lead of 15 minutes.  (The reply to the user does
    not touch the database.) *)
Definition remind_button (env : Datetime.environ) (p : press) (d : db)
    : Py.result bool * db :=
  add_reminder env (press_user p) (press_event p) (press_href p)
    (press_start p) 15 d.

(** The ways in which the program changes the database once it runs: a
    call of [add_reminder] and a run of [check_reminders] (the second
    constructor of [system_step] below). *)
Inductive registration : db -> db -> Prop :=
  | registration_call env uid name url start lead d :
      registration d (add_reminder env uid name url start lead d).2.

Section Task.

(** The process environment, and Discord as the task sees it: a state of
    the outside world that the two awaited calls read and change.  While
    the task is suspended in an [await] the event loop runs the handlers
    of the presses that arrive; [pressed w] are the presses handled
    during the [await] that led to the world [w]. *)
Context {World : Type}.
Variable env : Datetime.environ.
Variable fetch_user : World -> Z -> World * awaited user.
Variable user_send : World -> Z -> string -> World * awaited unit.
Variable pressed : World -> list press.

(** The state that one run threads: the outside world, the database and
    the events so far. *)
Record state : Type := mk_state {
  world : World;
  store : db;
  trace : list event
}.

Definition handle_presses (w : World) (d : db) : db :=
  foldl (λ d p, (remind_button env p d).2) d (pressed w).

(** [await call]: the call is made, the presses that arrive meanwhile
    are handled, the task resumes with the outcome of the call. *)
Definition await {A : Type} (call : World -> World * awaited A) (s : state)
    : state * awaited A :=
  let '(w1, outcome) := call (world s) in
  (mk_state w1 (handle_presses w1 (store s)) (trace s), outcome).

Definition emit (e : event) (s : state) : state :=
  mk_state (world s) (store s) (trace s ++ [e]).

Definition do_delete (rem_id : Z) (s : state) : state :=
  emit (DeleteReminder rem_id)
    (mk_state (world s) (delete_reminder rem_id (store s)) (trace s)).

(** A send attempt for the due reminder [r] is on record in the events
    [t1]: the fetch of its user and, when a user was fetched and is true,
    the sending of its message. *)
Definition attempted_before (r : due_row) (t1 : list event) : Prop :=
  ∃ res, FetchUser (due_user r) res ∈ t1
         ∧ ∀ u, res = Returned u → truthy u = true →
             ∃ sres, Send (due_user r)
                       (reminder_message (due_name r) (due_url r)) sres ∈ t1.

(** The events [evs] of one iteration are well ordered: a deletion
    removes the reminder of the iteration and comes after the send
    attempt. *)
Definition ordered (r : due_row) (evs : list event) : Prop :=
  ∀ t1 id t2, evs = t1 ++ DeleteReminder id :: t2 →
    id = due_id r ∧ attempted_before r t1.

(** The body of the [try]: it ends normally or with an exception. *)
Definition try_body (r : due_row) (s : state) : state * option discord_exn :=
  let '(rem_id, uid, name, url) := r in
  let '(s, fetched) := await (λ w, fetch_user w uid) s in
  let s := emit (FetchUser uid fetched) s in
  match fetched with
  | Raised e => (s, Some e)
  | Returned u =>
      if truthy u then
        let content := reminder_message name url in
        let '(s, sent) := await (λ w, user_send w uid content) s in
        let s := emit (Send uid content sent) s in
        match sent with
        | Raised e => (s, Some e)
        | Returned _ => (do_delete rem_id s, None)
        end
      else (do_delete rem_id s, None)
  end.

(** One iteration of the [for] loop: the [try] with its two handlers. *)
Definition iteration (r : due_row) (s : state) : state :=
  let '(rem_id, uid, _, _) := r in
  match try_body r s with
  | (s, None) => s
  | (s, Some NotFound) => do_delete rem_id (emit (Print (CouldNotFindUser uid)) s)
  | (s, Some OtherException) => emit (Print ErrorWhileSending) s
  end.

(** [check_reminders], run when the clock reads [current_time_unix]. *)
Definition check_reminders (current_time_unix : Z) (w : World) (d : db) : state :=
  let due_reminders := get_due_reminders current_time_unix d in
  foldl (λ s r, iteration r s) (mk_state w d []) due_reminders.

(** The state in which the loop reaches the reminder that follows the
    due reminders [before]. *)
Definition reached (w : World) (d : db) (before : list due_row) : state :=
  foldl (λ s r, iteration r s) (mk_state w d []) before.

(** The specification's [NotificationSink.send] is, in this program, the
    pair of awaited calls of the [try] body.  Its result for a due
    reminder, when the loop reaches it in world [w]: [Sent] when the user
    was fetched and the message sent, [RecipientNotFound] when either
    call raised [NotFound], [TransientFailure] when either raised another
    exception; [NothingSent] is the remaining case of the code, a fetched
    user that is false. *)
Inductive sink_result : Type :=
  | Sent
  | RecipientNotFound
  | TransientFailure
  | NothingSent.

Definition of_exn (e : discord_exn) : sink_result :=
  match e with
  | NotFound => RecipientNotFound
  | OtherException => TransientFailure
  end.

Definition sink_send (r : due_row) (w : World) : sink_result :=
  let '(_, uid, name, url) := r in
  match fetch_user w uid with
  | (_, Raised e) => of_exn e
  | (w1, Returned u) =>
      if truthy u then
        match user_send w1 uid (reminder_message name url) with
        | (_, Raised e) => of_exn e
        | (_, Returned _) => Sent
        end
      else NothingSent
  end.

Inductive system_step : db -> db -> Prop :=
  | step_registration d d' : registration d d' -> system_step d d'
  | step_check_reminders now w d :
      system_step d (store (check_reminders now w d)).

End Task.

End Main.

(* ===================================================================== *)
(** ** main.py: the contest list, its view and the "Remind Me" button     *)
(* ===================================================================== *)

Module View.
Import Py Database.

(** The classes of discord.py ([SelectOption], [Select], [Embed],
    [View]) are taken to hold what they are given, and the replies to be
    sent; a view is the object of one [/upcoming] command, and its
    callbacks run one at a time on the event loop. *)

(** [str(n)] for an [int]. *)
Definition str_of_int (n : Z) : string := NilZero.string_of_int (Z.to_int n).

(** [format_time], lines 31-35. *)
Definition format_time (env : Datetime.environ) (time_str : string)
    : result string :=
  dt_object ← Datetime.fromisoformat (replace_Z time_str);
  ts ← Datetime.timestamp env dt_object;
  let unix_timestamp := Datetime.int_of_float ts in
  Ok ("<t:" +:+ str_of_int unix_timestamp +:+ ":R>")%string.

(** A contest as the CLIST API gives it: the five keys that the code
    reads, each with the type that the API gives it. *)
Record contest : Type := mk_contest {
  resource : string;
  event : string;
  href : string;
  start : string;
  duration : Z
}.

(** What [response.json()] holds under ["objects"]: nothing, [null], or
    the list of contests. *)
Inductive objects : Type :=
  | Missing
  | Null
  | Objects (l : list contest).

Record response : Type := mk_response {
  status : Z;
  body_objects : objects
}.

(** [fetch_contests], from the response on: lines 52-57.  [None] is
    Python's [None]. *)
Definition fetch_contests (r : response) : option (list contest) :=
  if status r =? 200 then
    match body_objects r with
    | Missing => Some []
    | Null => None
    | Objects l => Some l
    end
  else None.

(** One [discord.SelectOption] of the dropdown. *)
Record select_option : Type := mk_select_option {
  label : string;
  value : string;
  description : string
}.

(** A [ContestView]: its dict [contests_data] as the list of its items
    in insertion order (the keys are pairwise different), the selected
    key ([None] at first) and the options of its dropdown. *)
Record contest_view : Type := mk_contest_view {
  contests_data : list (string * contest);
  selected_contest_key : option string;
  dropdown : list select_option
}.

(** [{str(i): contest for i, contest in enumerate(contests[:25])}] *)
Definition enumerate_contests (contests : list contest)
    : list (string * contest) :=
  imap (λ i c, (str_of_int (Z.of_nat i), c)) (take 25 contests).

(** [d[key]]; [None] stands for the [KeyError]. *)
Fixpoint dict_get (key : string) (d : list (string * contest)) : option contest :=
  match d with
  | [] => None
  | (k, c) :: d' => if String.eqb k key then Some c else dict_get key d'
  end.

(** [create_dropdown], lines 72-85: one option for each item, in order;
    the first start time that [format_time] rejects ends it. *)
Fixpoint create_dropdown (env : Datetime.environ)
    (items : list (string * contest)) : result (list select_option) :=
  match items with
  | [] => Ok []
  | (key, c) :: items' =>
      shown ← format_time env (start c);
      options ← create_dropdown env items';
      Ok (mk_select_option (resource c +:+ ": " +:+ event c) key
            ("Starts " +:+ shown) :: options)
  end.

(** [ContestView(contests)], lines 64-70. *)
Definition new_view (env : Datetime.environ) (contests : list contest)
    : result contest_view :=
  let contests_data := enumerate_contests contests in
  options ← create_dropdown env contests_data;
  Ok (mk_contest_view contests_data None options).

(** The exceptions of the two callbacks: a [KeyError] of the dict, or an
    exception of the code that they call. *)
Inductive callback_exn : Type :=
  | KeyError (key : string)
  | Escaped (e : exn).

Inductive outcome (A : Type) : Type :=
  | Done (a : A)
  | Failed (e : callback_exn).
Arguments Done {A} a.
Arguments Failed {A} e.

(** The [discord.Embed] of a selected contest. *)
Record embed : Type := mk_embed {
  title : string;
  url : string;
  embed_description : string;
  fields : list (string * string);
  footer : string
}.

(** [dropdown_callback], lines 87-107, for the value that the
    interaction carries: the view afterwards and the embed that the
    message is edited to. *)
Definition dropdown_callback (env : Datetime.environ) (chosen : string)
    (self : contest_view) : contest_view * outcome embed :=
  let self :=
    mk_contest_view (contests_data self) (Some chosen) (dropdown self) in
  match dict_get chosen (contests_data self) with
  | None => (self, Failed (KeyError chosen))
  | Some c =>
      match format_time env (start c) with
      | Raise e => (self, Failed (Escaped e))
      | Ok shown =>
          (self,
           Done
             (mk_embed (resource c +:+ ": " +:+ event c) (href c)
                ("This contest is scheduled to start " +:+ shown +:+ ".")
                [("Duration", str_of_int (duration c / 3600) +:+ " hours");
                 ("Platform", resource c)]
                "Click the button below to be reminded 15 minutes before it starts."))%string
      end
  end.

(** What [remind_button] answers. *)
Inductive reply : Type :=
  | PleaseSelect
  | WillRemind (event : string)
  | AlreadySubscribed.

(** The white check mark U+2705, as its three UTF-8 bytes. *)
Definition check_mark : string :=
  String "226"%char (String "156"%char (String "133"%char EmptyString)).

Definition reply_text (r : reply) : string :=
  match r with
  | PleaseSelect => "Please select a contest from the dropdown first!"
  | WillRemind ev =>
      check_mark +:+ " Okay! I will DM you 15 mins before '" +:+ ev +:+ "' begins."
  | AlreadySubscribed =>
      "You are already subscribed to a reminder for this contest."
  end%string.

(** [not s] for a key that is a [str] or [None]. *)
Definition not_key (key : option string) : bool :=
  match key with
  | None => true
  | Some EmptyString => true
  | Some _ => false
  end.

(** The press that [remind_button] hands on, for the user who pressed
    and the contest selected. *)
Definition press_of (uid : Z) (c : contest) : Main.press :=
  Main.mk_press uid (event c) (href c) (start c).

(** [remind_button], lines 110-133, for the user of the interaction: the
    answer and the database afterwards. *)
Definition remind_button (env : Datetime.environ) (uid : Z)
    (self : contest_view) (d : db) : outcome reply * db :=
  if not_key (selected_contest_key self) then (Done PleaseSelect, d)
  else
    let key := default EmptyString (selected_contest_key self) in
    match dict_get key (contests_data self) with
    | None => (Failed (KeyError key), d)
    | Some c =>
        match Main.remind_button env (press_of uid c) d with
        | (Raise e, d') => (Failed (Escaped e), d')
        | (Ok true, d') => (Done (WillRemind (event c)), d')
        | (Ok false, d') => (Done AlreadySubscribed, d')
        end
    end.

(** What [upcoming] sends. *)
Inductive upcoming_reply : Type :=
  | CouldNotFetch
  | NoneUpcoming
  | Offered (view : contest_view).

(** [upcoming], lines 185-206, from the response of the API on. *)
Definition upcoming (env : Datetime.environ) (r : response)
    : result upcoming_reply :=
  match fetch_contests r with
  | None => Ok CouldNotFetch
  | Some [] => Ok NoneUpcoming
  | Some contests_list =>
      view ← new_view env contests_list;
      Ok (Offered view)
  end.

(** How Discord reads the text of [format_time]: the seconds between
    ["<t:"] and [":R>"].  (No code of the bot.) *)
Definition shown_seconds (text : string) : option Z :=
  match of_string text with
  | "<"%char :: "t"%char :: ":"%char :: rest =>
      match rev rest with
      | ">"%char :: "R"%char :: ":"%char :: digits => int (rev digits)
      | _ => None
      end
  | _ => None
  end.

End View.

(** What the existence check of [add_reminder] is there for. *)
Module Invariants.
Import Database.

(** No two rows of the table are for the same user and contest. *)
Definition unique_keys (d : db) : Prop :=
  ∀ id1 id2 r1 r2,
    reminders d !! id1 = Some r1 → reminders d !! id2 = Some r2 →
    user_id r1 = user_id r2 → contest_url r1 = contest_url r2 →
    id1 = id2.

(** The [id] still has the row [x], or is gone for good. *)
Definition same_or_gone (id : Z) (x : row) (d : db) : Prop :=
  reminders d !! id = Some x ∨ absent id d.

End Invariants.

(** What a run of the task shows to an observer: the users it fetched,
    the messages it sent or tried to send, the reminders it deleted, in
    order. *)
Module Observed.
Import Main.

Definition fetched (e : event) : option Z :=
  match e with
  | FetchUser uid _ => Some uid
  | _ => None
  end.

Definition sent (e : event) : option (Z * string) :=
  match e with
  | Send uid content _ => Some (uid, content)
  | _ => None
  end.

Definition deleted (e : event) : option Z :=
  match e with
  | DeleteReminder id => Some id
  | _ => None
  end.

(** The direct message that a due reminder calls for. *)
Definition message_of (r : Database.due_row) : Z * string :=
  (Database.due_user r,
   reminder_message (Database.due_name r) (Database.due_url r)).

End Observed.

(* ===================================================================== *)
(** ** A worked scenario                                                  *)
(* ===================================================================== *)

(** Three users ask to be reminded of three contests that all start at
    2030-01-01T00:00:00Z; when the reminders fall due, Discord does not
    know user 11, fails for user 9 and delivers to user 7, and a fourth
    user presses the button while the task runs. *)

Module Scenario.
Import Py Datetime Isoformat Database Main.

Definition remind_me (uid : Z) (name url start : string) (d : db) : db :=
  (add_reminder utc_environ uid name url start 15 d).2.

Definition three_reminders : db :=
  remind_me 11 "Round C" "https://x/3" "2030-01-01T00:00:00Z"
    (remind_me 9 "Round B" "https://x/2" "2030-01-01T00:00:00Z"
       (remind_me 7 "Round A" "https://x/1" "2030-01-01T00:00:00Z"
          (initialize_db None))).

(** 2029-12-31T23:45:00Z *)
Definition due_time : Z := 1893455100.

Definition reminder_A : due_row := (1, 7, "Round A", "https://x/1")%string.
Definition reminder_B : due_row := (2, 9, "Round B", "https://x/2")%string.
Definition reminder_C : due_row := (3, 11, "Round C", "https://x/3")%string.

Definition fetch_user (w : unit) (uid : Z) : unit * awaited user :=
  (w, if uid =? 9 then Raised OtherException
      else if uid =? 11 then Raised NotFound
      else Returned (mk_user true)).

Definition user_send (w : unit) (uid : Z) (content : string)
    : unit * awaited unit :=
  (w, Returned ()).

(** During every [await] of the run, user 8 presses the button for a
    contest that starts a month later. *)
Definition pressed (w : unit) : list press :=
  [mk_press 8 "Round D" "https://x/42" "2030-02-01T00:00:00Z"].

End Scenario.

(** A list as the API gives it, with start times without zone, and a
    response that carries it. *)
Module Listing.
Import View.

Definition round_A : contest :=
  mk_contest "codeforces.com" "Round A" "https://x/1" "2030-01-01T00:00:00" 7200.

Definition round_B : contest :=
  mk_contest "atcoder.jp" "Round B" "https://x/2" "2030-01-02T12:30:00" 6000.

Definition two_contests : list contest := [round_A; round_B].

Definition two_contests_view : contest_view :=
  mk_contest_view [("0", round_A); ("1", round_B)]%string None
    [mk_select_option "codeforces.com: Round A" "0" "Starts <t:1893456000:R>";
     mk_select_option "atcoder.jp: Round B" "1" "Starts <t:1893587400:R>"].

End Listing.

(* ===================================================================== *)
(** * Properties                                                          *)
(* ===================================================================== *)

(** ** Reading timestamps *)

Module DatetimeFacts.
Import Py Datetime Isoformat Database.

(** The parser and the timestamp on a few inputs. *)
Example fromisoformat_utc :
  fromisoformat (replace_Z "2025-06-01T10:00:00Z")
  = Ok (mk_datetime 2025 6 1 10 0 0 0 (Some 0) false).
Proof. vm_compute; reflexivity. Qed.

Example fromisoformat_naive :
  fromisoformat (replace_Z "2025-06-01T10:00:00")
  = Ok (mk_datetime 2025 6 1 10 0 0 0 None false).
Proof. vm_compute; reflexivity. Qed.

Example fromisoformat_week_date :
  fromisoformat (replace_Z "2025-W22-7T10:00:00Z")
  = Ok (mk_datetime 2025 6 1 10 0 0 0 (Some 0) false).
Proof. vm_compute; reflexivity. Qed.

Example fromisoformat_no_such_day :
  fromisoformat (replace_Z "2025-02-29T10:00:00Z") = Raise ValueError.
Proof. vm_compute; reflexivity. Qed.

Example start_time_truncates_towards_zero :
  start_time_unix utc_environ "1969-12-31T23:59:59.5Z" = Ok 0.
Proof. vm_compute; reflexivity. Qed.

Example start_time_rounds_as_a_float :
  start_time_unix utc_environ "9999-12-31T23:59:59.999999Z" = Ok 253402300800.
Proof. vm_compute; reflexivity. Qed.

Example with_offset_written :
  with_offset 2025 6 1 15 30 0 false 5 30 = "2025-06-01T15:30:00+05:30"%string.
Proof. reflexivity. Qed.

(** *** Digits and [int()] *)

Lemma isdig_inv (c : ascii) :
  isdig c ->
  c = "0"%char \/ c = "1"%char \/ c = "2"%char \/ c = "3"%char \/ c = "4"%char \/
  c = "5"%char \/ c = "6"%char \/ c = "7"%char \/ c = "8"%char \/ c = "9"%char.
Proof.
  unfold isdig.
  destruct c as [[] [] [] [] [] [] [] []]; vm_compute; intros H;
    try discriminate H; tauto.
Qed.

Lemma digit_isdig (n : Z) : isdig (digit n).
Proof.
  unfold digit. pose proof (Z.mod_pos_bound n 10 ltac:(lia)) as Hb.
  assert (exists k, (k < 10)%nat /\ Z.to_nat (n mod 10) = k) as (k & Hk & ->)
    by (exists (Z.to_nat (n mod 10)); lia).
  do 10 (destruct k as [|k]; [reflexivity|]). lia.
Qed.

Lemma digit_val_digit (n : Z) : digit_val (digit n) = n mod 10.
Proof.
  unfold digit, digit_val. pose proof (Z.mod_pos_bound n 10 ltac:(lia)) as Hb.
  rewrite nat_ascii_embedding by lia. lia.
Qed.

Ltac digit_cases H :=
  destruct (isdig_inv _ H) as [->|[->|[->|[->|[->|[->|[->|[->|[->| ->]]]]]]]]].

Lemma isdig_not_space c : isdig c -> is_space c = false.
Proof. intros H. digit_cases H; reflexivity. Qed.

Lemma isdig_chr_eqb c d : isdig c -> _is_ascii_digit d = false -> chr_eqb c d = false.
Proof.
  intros Hc Hd. unfold chr_eqb. apply Ascii.eqb_neq. intros ->.
  unfold isdig in Hc. congruence.
Qed.

Lemma lstrip_isdig c l : isdig c -> lstrip (c :: l) = c :: l.
Proof. intros H. simpl. by rewrite isdig_not_space. Qed.

Lemma strip_digits (l : str) : l <> [] -> Forall isdig l -> strip l = l.
Proof.
  intros Hne Hall. unfold strip.
  destruct l as [|c l]; [done|].
  rewrite lstrip_isdig by (by inversion Hall).
  destruct (rev (c :: l)) as [|c' l'] eqn:E.
  - apply (f_equal (@length _)) in E. rewrite length_rev in E. done.
  - assert (isdig c') as Hc'.
    { eapply Forall_forall; [exact Hall|]. apply list_elem_of_In, in_rev.
      rewrite E. by left. }
    rewrite lstrip_isdig by done. rewrite <- E. apply rev_involutive.
Qed.

Lemma digits_value_digits (l : str) (acc : Z) :
  Forall isdig l ->
  digits_value acc false l
  = Some (fold_left (fun acc c => 10 * acc + digit_val c) l acc).
Proof.
  intros Hall. revert acc. induction Hall as [|c l Hc _ IH]; intros acc; simpl; [done|].
  unfold isdig in Hc. by rewrite Hc, IH.
Qed.

Lemma int_digits (l : str) : l <> [] -> Forall isdig l -> int l = Some (decimal l).
Proof.
  intros Hne Hall. unfold int. rewrite strip_digits by done.
  destruct l as [|c l]; [done|].
  assert (isdig c) as Hc by (by inversion Hall).
  rewrite !(isdig_chr_eqb c) by done.
  unfold isdig in Hc. rewrite Hc.
  rewrite digits_value_digits by done. simpl. f_equal.
  unfold decimal. destruct (fold_left _ _ _); done.
Qed.

Lemma int_or_raise_digits (l : str) :
  l <> [] -> Forall isdig l -> int_or_raise l = Ok (decimal l).
Proof. intros. unfold int_or_raise. by rewrite int_digits. Qed.

(** *** The parser on [YYYY-MM-DDTHH:MM:SS+HH:MM], piece by piece *)

Local Opaque int decimal int_or_raise.

Lemma find_separator_extended (c1 c2 c3 c4 m1 m2 d1 d2 : ascii) (rest : str) :
  isdig m1 ->
  _find_isoformat_datetime_separator
    (c1 :: c2 :: c3 :: c4 :: "-"%char :: m1 :: m2 :: "-"%char :: d1 :: d2 :: rest)
  = Ok 10%nat.
Proof.
  intros H. unfold _find_isoformat_datetime_separator, at_is. simpl.
  by rewrite (isdig_chr_eqb m1).
Qed.

Lemma parse_date_extended (c1 c2 c3 c4 m1 m2 d1 d2 : ascii) :
  Forall isdig [c1; c2; c3; c4; m1; m2; d1; d2] ->
  _parse_isoformat_date
    [c1; c2; c3; c4; "-"%char; m1; m2; "-"%char; d1; d2]
  = Ok (decimal [c1; c2; c3; c4], decimal [m1; m2], decimal [d1; d2]).
Proof.
  intros H. repeat (apply Forall_cons in H as [? H]).
  unfold _parse_isoformat_date, at_is, is_chr, slice. simpl.
  rewrite (isdig_chr_eqb m1) by done.
  rewrite !int_or_raise_digits by (done || by repeat constructor). done.
Qed.

Lemma parse_hh_mm_ss (h1 h2 i1 i2 s1 s2 : ascii) :
  Forall isdig [h1; h2; i1; i2; s1; s2] ->
  _parse_hh_mm_ss_ff [h1; h2; ":"%char; i1; i2; ":"%char; s1; s2]
  = Ok [decimal [h1; h2]; decimal [i1; i2]; decimal [s1; s2]; 0].
Proof.
  intros H. repeat (apply Forall_cons in H as [? H]).
  unfold _parse_hh_mm_ss_ff, hh_mm_ss_loop, at_is, is_chr, slice. simpl.
  rewrite !int_or_raise_digits by (done || by repeat constructor). done.
Qed.

Lemma parse_hh_mm (o1 o2 p1 p2 : ascii) :
  Forall isdig [o1; o2; p1; p2] ->
  _parse_hh_mm_ss_ff [o1; o2; ":"%char; p1; p2]
  = Ok [decimal [o1; o2]; decimal [p1; p2]; 0; 0].
Proof.
  intros H. repeat (apply Forall_cons in H as [? H]).
  unfold _parse_hh_mm_ss_ff, hh_mm_ss_loop, at_is, is_chr, slice. simpl.
  rewrite !int_or_raise_digits by (done || by repeat constructor). done.
Qed.

Local Opaque _parse_hh_mm_ss_ff.

Lemma parse_time_offset (h1 h2 i1 i2 s1 s2 o1 o2 p1 p2 : ascii) (west : bool) :
  Forall isdig [h1; h2; i1; i2; s1; s2; o1; o2; p1; p2] ->
  _parse_isoformat_time
    [h1; h2; ":"%char; i1; i2; ":"%char; s1; s2; sign_char west;
     o1; o2; ":"%char; p1; p2]
  = let time_comps := [decimal [h1; h2]; decimal [i1; i2]; decimal [s1; s2]; 0] in
    let tz_comps := [decimal [o1; o2]; decimal [p1; p2]; 0; 0] in
    if forallb (Z.eqb 0) tz_comps then Ok (time_comps, Some timezone_utc)
    else
      tzi ← timezone ((if west then -1 else 1)
                      * mk_timedelta (decimal [o1; o2]) (decimal [p1; p2]) 0 0);
      Ok (time_comps, Some tzi).
Proof.
  intros H. repeat (apply Forall_cons in H as [? H]).
  unfold _parse_isoformat_time, at_is, slice, slice_from.
  destruct west; simpl;
    rewrite ?isdig_chr_eqb by done; simpl;
    rewrite parse_hh_mm_ss by (by repeat constructor); simpl;
    rewrite parse_hh_mm by (by repeat constructor); simpl; done.
Qed.

(** *** From the characters to the fields *)

Local Transparent decimal.

Lemma decimal_two_digits (n : Z) :
  0 <= n < 100 -> decimal [digit (n / 10); digit n] = n.
Proof.
  intros Hn. unfold decimal. cbn [fold_left]. rewrite !digit_val_digit.
  Z.div_mod_to_equations. lia.
Qed.

Lemma decimal_four_digits (n : Z) :
  0 <= n < 10000 ->
  decimal [digit (n / 1000); digit (n / 100); digit (n / 10); digit n] = n.
Proof.
  intros Hn. unfold decimal. cbn [fold_left]. rewrite !digit_val_digit.
  Z.div_mod_to_equations. lia.
Qed.

Lemma digit_0 : digit 0 = "0"%char.
Proof. reflexivity. Qed.

Local Opaque decimal digit.

Lemma replace_Z_with_offset y mo d h mi s west oh om :
  replace_Z (with_offset y mo d h mi s west oh om)
  = with_offset y mo d h mi s west oh om.
Proof.
  unfold with_offset, date_time, four_digits, two_digits.
  destruct west; simpl;
    rewrite !isdig_chr_eqb by (apply digit_isdig || reflexivity); done.
Qed.

Lemma replace_Z_with_Z y mo d h mi s :
  replace_Z (with_Z y mo d h mi s) = with_offset y mo d h mi s false 0 0.
Proof.
  unfold with_Z, with_offset, date_time, four_digits, two_digits.
  change (0 / 10) with 0. rewrite digit_0. simpl.
  rewrite !isdig_chr_eqb by (apply digit_isdig || reflexivity). done.
Qed.

Lemma new_valid y mo d h mi s tzi :
  valid_fields y mo d h mi s ->
  new y mo d h mi s 0 tzi = Ok (mk_datetime y mo d h mi s 0 tzi false).
Proof.
  intros (Hy & Hmo & Hd & Hh & Hmi & Hs).
  unfold new, _check_date_fields, _check_time_fields, MINYEAR, MAXYEAR.
  repeat match goal with
         | |- context [Z.leb ?a ?b] =>
             replace (Z.leb a b) with true by (symmetry; apply Z.leb_le; lia)
         end.
  done.
Qed.

Lemma timezone_valid (west : bool) (oh om : Z) :
  valid_offset oh om ->
  (if forallb (Z.eqb 0) [oh; om; 0; 0] then Ok timezone_utc
   else timezone ((if west then -1 else 1) * mk_timedelta oh om 0 0))
  = Ok (offset_seconds west oh om * 1000000).
Proof.
  intros [Hoh Hom]. unfold offset_seconds, timezone_utc, timezone,
    _minoffset, _maxoffset, mk_timedelta. cbn [forallb].
  destruct (Z.eqb_spec 0 oh) as [<-|Hne1]; [destruct (Z.eqb_spec 0 om) as [<-|Hne2]|];
    cbn [andb].
  - f_equal. destruct west; lia.
  - repeat match goal with
         | |- context [Z.leb ?a ?b] =>
             replace (Z.leb a b) with true by (symmetry; apply Z.leb_le; destruct west; lia)
         end. cbn [andb negb]. f_equal. destruct west; lia.
  - repeat match goal with
         | |- context [Z.leb ?a ?b] =>
             replace (Z.leb a b) with true by (symmetry; apply Z.leb_le; destruct west; lia)
         end. cbn [andb negb]. f_equal. destruct west; lia.
Qed.

Lemma days_in_month_bound (y mo : Z) : 1 <= mo <= 12 -> _days_in_month y mo <= 31.
Proof.
  intros Hmo. unfold _days_in_month, index.
  destruct (_ && _); [lia|].
  assert (exists k, (1 <= k <= 12)%nat /\ mo = Z.of_nat k) as (k & Hk & ->)
    by (exists (Z.to_nat mo); lia).
  rewrite Nat2Z.id.
  do 13 (destruct k as [|k]; [simpl; lia|]); lia.
Qed.

Local Opaque _parse_isoformat_time _parse_isoformat_date
  _find_isoformat_datetime_separator.

Lemma fromisoformat_with_offset y mo d h mi s west oh om :
  valid_fields y mo d h mi s -> valid_offset oh om ->
  fromisoformat (with_offset y mo d h mi s west oh om)
  = Ok (mk_datetime y mo d h mi s 0
          (Some (offset_seconds west oh om * 1000000)) false).
Proof.
  intros Hv Ho.
  pose proof Hv as (Hy & Hmo & Hd & Hh & Hmi & Hs).
  pose proof Ho as [Hoh Hom].
  pose proof (days_in_month_bound y mo Hmo) as Hdim.
  unfold fromisoformat, with_offset, date_time, four_digits, two_digits, of_string.
  change (String.append ?a ?b) with (String.append a b).
  replace (if west then "-"%string else "+"%string)
    with (String (sign_char west) EmptyString) by (by destruct west).
  simpl.
  rewrite find_separator_extended by apply digit_isdig.
  unfold slice, slice_from. simpl.
  rewrite parse_date_extended by (repeat constructor; apply digit_isdig).
  simpl.
  rewrite parse_time_offset by (repeat constructor; apply digit_isdig).
  rewrite decimal_four_digits, !decimal_two_digits by lia.
  cbv zeta.
  pose proof (timezone_valid west oh om Ho) as Htz.
  destruct (forallb (Z.eqb 0) [oh; om; 0; 0]).
  - simpl. injection Htz as <-. by apply new_valid.
  - rewrite Htz. simpl. by apply new_valid.
Qed.

(** *** A whole number of seconds is exact as a float *)

Lemma int_of_float_whole_seconds (n : Z) :
  - 2 ^ 40 < n < 2 ^ 40 ->
  int_of_float (total_seconds (n * 1000000)) = n.
Proof.
  intros Hn. unfold total_seconds, int_truediv, round_nearest_even.
  change (10 ^ 6) with 1000000.
  destruct (Z.eqb_spec (n * 1000000) 0) as [H0|H0].
  - unfold int_of_float, float_num, float_den; simpl. 
    assert (n = 0) as -> by lia. reflexivity.
  - assert (n <> 0) as Hn0 by lia.
    change (Z.log2 1000000) with 19.
    set (a := Z.abs (n * 1000000)).
    assert (a = Z.abs n * 1000000) as Ha by (unfold a; lia).
    assert (0 < Z.abs n < 2 ^ 40) as Habs by lia.
    assert (Z.log2 a < 60) as Hlog.
    { apply Z.log2_lt_pow2; [lia|]. rewrite Ha.
      change (2 ^ 60) with (2 ^ 40 * 2 ^ 20). 
      assert (1000000 < 2 ^ 20) by (vm_compute; reflexivity). nia. }
    set (k := Z.log2 a - 19).
    assert (k - 52 < 0) as Hk by (unfold k; lia).
    replace (0 <=? k - 52) with false by (symmetry; apply Z.leb_gt; lia).
    set (e := if 2 ^ 52 <=? a * 2 ^ (- (k - 52)) / 1000000 then k - 52 else k - 53).
    assert (e < 0) as He by (unfold e; destruct (_ <=? _); lia).
    replace (0 <=? e) with false by (symmetry; apply Z.leb_gt; lia).
    assert (0 < 2 ^ (- e)) as Hpow by (apply Z.pow_pos_nonneg; lia).
    rewrite Ha.
    replace (Z.abs n * 1000000 * 2 ^ (- e)) with (Z.abs n * 2 ^ (- e) * 1000000) by ring.
    rewrite Z.div_mul, Z.mod_mul by lia.
    change (2 * 0 <? 1000000) with true. cbv iota.
    unfold int_of_float, float_num, float_den. cbn [mant expo].
    replace (0 <=? e) with false by (symmetry; apply Z.leb_gt; lia).
    replace (Z.sgn (n * 1000000) * (Z.abs n * 2 ^ (- e)))
      with (Z.sgn (n * 1000000) * Z.abs n * 2 ^ (- e)) by ring.
    replace (Z.sgn (n * 1000000) * Z.abs n) with n by lia.
    apply Z.quot_mul. lia.
Qed.

(** *** The range of the calendar *)

Lemma days_before_month_bounds (y mo : Z) :
  1 <= mo <= 12 -> 0 <= _days_before_month y mo <= 335.
Proof.
  intros Hmo. unfold _days_before_month, index, b2z.
  assert (exists k, (1 <= k <= 12)%nat /\ mo = Z.of_nat k) as (k & Hk & ->)
    by (exists (Z.to_nat mo); lia).
  rewrite Nat2Z.id.
  destruct (_ && _);
    do 13 (destruct k as [|k]; [simpl; lia|]); lia.
Qed.

Lemma seconds_since_1970_bounds (y mo d h mi s : Z) :
  valid_fields y mo d h mi s ->
  - 2 ^ 39 < seconds_since_1970 y mo d h mi s < 2 ^ 39.
Proof.
  intros (Hy & Hmo & Hd & Hh & Hmi & Hs).
  pose proof (days_in_month_bound y mo Hmo).
  pose proof (days_before_month_bounds y mo Hmo).
  unfold seconds_since_1970, _ymd2ord.
  change (_days_before_year 1970 + _days_before_month 1970 1 + 1) with 719163.
  assert (0 <= _days_before_year y <= 3652059)
    by (unfold _days_before_year; Z.div_mod_to_equations; lia).
  change (2 ^ 39) with 549755813888. lia.
Qed.

(** *** The start time of a timestamp with its zone *)

Lemma timestamp_aware (env : environ) (y mo d h mi s o : Z) :
  timestamp env (mk_datetime y mo d h mi s 0 (Some (o * 1000000)) false)
  = Ok (total_seconds ((seconds_since_1970 y mo d h mi s - o) * 1000000)).
Proof.
  unfold timestamp, sub, toordinal, timedelta_dsu, seconds_since_1970.
  cbn [tz year month day hour minute second microsecond _EPOCH].
  unfold timezone_utc.
  destruct (Z.eqb_spec (o * 1000000) 0) as [Ho|Ho]; cbn [mbind result_bind bind];
    do 2 f_equal; lia.
Qed.

Lemma with_offset_start (env : environ) (y mo d h mi s : Z) (west : bool)
    (oh om : Z) :
  valid_fields y mo d h mi s -> valid_offset oh om ->
  start_time_unix env (with_offset y mo d h mi s west oh om)
  = Ok (seconds_since_1970 y mo d h mi s - offset_seconds west oh om).
Proof.
  intros Hv Ho. unfold start_time_unix.
  rewrite replace_Z_with_offset, fromisoformat_with_offset by done.
  cbn [mbind result_bind bind]. rewrite timestamp_aware.
  cbn [mbind result_bind bind].
  rewrite int_of_float_whole_seconds; [done|].
  pose proof (seconds_since_1970_bounds _ _ _ _ _ _ Hv).
  destruct Ho. unfold offset_seconds.
  change (2 ^ 40) with 1099511627776. change (2 ^ 39) with 549755813888 in *.
  destruct west; lia.
Qed.

Lemma with_Z_start (env : environ) (y mo d h mi s : Z) :
  valid_fields y mo d h mi s ->
  start_time_unix env (with_Z y mo d h mi s)
  = Ok (seconds_since_1970 y mo d h mi s).
Proof.
  intros Hv.
  pose proof (with_offset_start env y mo d h mi s false 0 0 Hv) as H.
  unfold start_time_unix in *. rewrite replace_Z_with_Z.
  rewrite replace_Z_with_offset in H. rewrite H by (unfold valid_offset; lia).
  f_equal. unfold offset_seconds. lia.
Qed.

Lemma with_offset_resolves (env : environ) (y mo d h mi s : Z) (west : bool)
    (oh om lead : Z) :
  valid_fields y mo d h mi s -> valid_offset oh om ->
  reminder_time_unix env (with_offset y mo d h mi s west oh om) lead
  = Ok (seconds_since_1970 y mo d h mi s - offset_seconds west oh om - lead * 60).
Proof.
  intros Hv Ho. unfold reminder_time_unix. by rewrite with_offset_start.
Qed.

Lemma with_Z_resolves (env : environ) (y mo d h mi s lead : Z) :
  valid_fields y mo d h mi s ->
  reminder_time_unix env (with_Z y mo d h mi s) lead
  = Ok (seconds_since_1970 y mo d h mi s - lead * 60).
Proof.
  intros Hv. unfold reminder_time_unix. by rewrite with_Z_start.
Qed.

(** A start time that names its zone resolves, and to the same instant
    in every environment. *)
Lemma zone_written_resolves (env : environ) (s : string) (dt : datetime) :
  fromisoformat (replace_Z s) = Ok dt → is_Some (tz dt) →
  ∃ t0, start_time_unix env s = Ok t0
        ∧ ∀ env', start_time_unix env' s = Ok t0.
Proof.
  intros Hparse [off Hoff]. unfold start_time_unix. rewrite Hparse.
  cbn [mbind result_bind bind]. unfold timestamp, sub. rewrite Hoff.
  cbn [tz _EPOCH]. destruct (off =? timezone_utc); eexists; split; done.
Qed.

(** C5. The delivery instant is the start of the contest minus
    [remind_before_minutes * 60] seconds: for every start time and lead
    whenever the start resolves, which it does for every start time that
    parses and names its zone; for [YYYY-MM-DDTHH:MM:SSZ] the start is
    the calendar's count of seconds since 1970; ["2025-06-01T10:00:00Z"]
    with a lead of 15 gives the instant of ["2025-06-01T09:45:00Z"],
    fifteen minutes before the start. *)
Theorem delivery_instant_is_start_minus_lead
    (env : environ) (s : string) (lead : Z) (dt : datetime) :
  fromisoformat (replace_Z s) = Ok dt →
  (∀ t0, start_time_unix env s = Ok t0 →
         reminder_time_unix env s lead = Ok (t0 - lead * 60))
  ∧ (is_Some (tz dt) →
     ∃ t0, start_time_unix env s = Ok t0
           ∧ reminder_time_unix env s lead = Ok (t0 - lead * 60))
  ∧ (∀ y mo d h mi sec, valid_fields y mo d h mi sec →
       start_time_unix env (with_Z y mo d h mi sec)
       = Ok (seconds_since_1970 y mo d h mi sec)
       ∧ reminder_time_unix env (with_Z y mo d h mi sec) lead
         = Ok (seconds_since_1970 y mo d h mi sec - lead * 60))
  ∧ start_time_unix env "2025-06-01T10:00:00Z" = Ok 1748772000
  ∧ reminder_time_unix env "2025-06-01T10:00:00Z" 15 = Ok (1748772000 - 15 * 60)
  ∧ start_time_unix env "2025-06-01T09:45:00Z" = Ok (1748772000 - 15 * 60).
Proof.
  intros Hparse.
  assert (∀ t0, start_time_unix env s = Ok t0 →
                reminder_time_unix env s lead = Ok (t0 - lead * 60)) as Hsub.
  { intros t0 Ht0. unfold reminder_time_unix. by rewrite Ht0. }
  assert (∀ h mi, 0 ≤ h ≤ 23 → 0 ≤ mi ≤ 59 →
            start_time_unix env (with_Z 2025 6 1 h mi 0)
            = Ok (seconds_since_1970 2025 6 1 h mi 0)) as Hex.
  { intros h mi Hh Hmi. apply with_Z_start.
    unfold valid_fields. change (_days_in_month 2025 6) with 30. lia. }
  split_and!.
  - done.
  - intros Hzone.
    destruct (zone_written_resolves env s dt Hparse Hzone) as (t0 & Ht0 & _).
    exists t0. split; [done|]. by apply Hsub.
  - intros y mo d h mi sec Hv. split; [by apply with_Z_start|].
    by apply with_Z_resolves.
  - apply (Hex 10 0); lia.
  - unfold reminder_time_unix.
    change "2025-06-01T10:00:00Z"%string with (with_Z 2025 6 1 10 0 0).
    by rewrite (Hex 10 0) by lia.
  - apply (Hex 9 45); lia.
Qed.

Lemma delivery_instant_is_start_minus_lead_witness :
  fromisoformat (replace_Z "2025-06-01T10:00:00Z")
  = Ok (mk_datetime 2025 6 1 10 0 0 0 (Some 0) false)
  ∧ (∀ t0, start_time_unix kolkata_environ "2025-06-01T10:00:00Z" = Ok t0 →
           reminder_time_unix kolkata_environ "2025-06-01T10:00:00Z" 15
           = Ok (t0 - 15 * 60))
  ∧ (is_Some (Some 0) →
     ∃ t0, start_time_unix kolkata_environ "2025-06-01T10:00:00Z" = Ok t0
           ∧ reminder_time_unix kolkata_environ "2025-06-01T10:00:00Z" 15
             = Ok (t0 - 15 * 60))
  ∧ (∀ y mo d h mi sec, valid_fields y mo d h mi sec →
       start_time_unix kolkata_environ (with_Z y mo d h mi sec)
       = Ok (seconds_since_1970 y mo d h mi sec)
       ∧ reminder_time_unix kolkata_environ (with_Z y mo d h mi sec) 15
         = Ok (seconds_since_1970 y mo d h mi sec - 15 * 60))
  ∧ start_time_unix kolkata_environ "2025-06-01T10:00:00Z" = Ok 1748772000
  ∧ reminder_time_unix kolkata_environ "2025-06-01T10:00:00Z" 15
    = Ok (1748772000 - 15 * 60)
  ∧ start_time_unix kolkata_environ "2025-06-01T09:45:00Z"
    = Ok (1748772000 - 15 * 60).
Proof.
  split; [vm_compute; reflexivity|].
  apply (delivery_instant_is_start_minus_lead kolkata_environ
           "2025-06-01T10:00:00Z" 15
           (mk_datetime 2025 6 1 10 0 0 0 (Some 0) false)).
  vm_compute; reflexivity.
Defined.

(** C9, at the input where the code departs from it.  A start time
    written without [Z] and without an offset is read in the zone of the
    process: the same call gives delivery instants five and a half hours
    apart under [TZ=UTC] and under [TZ=Asia/Kolkata]. *)
Theorem naive_start_time_depends_on_local_zone :
  reminder_time_unix utc_environ "2025-06-01T10:00:00" 15 = Ok 1748771100
  ∧ reminder_time_unix kolkata_environ "2025-06-01T10:00:00" 15 = Ok 1748751300.
Proof. split; vm_compute; reflexivity. Qed.

(** C10. A start time written with a numeric offset is accepted, and
    its delivery instant is the one of the UTC instant that it denotes:
    two such spellings of one instant, or such a spelling and the one
    with [Z], give the same delivery instant, and [add_reminder] does not
    raise. *)
Theorem numeric_offset_accepted
    (env : environ) (y mo d h mi s : Z) (west : bool) (oh om lead : Z) :
  valid_fields y mo d h mi s → valid_offset oh om →
  let start := with_offset y mo d h mi s west oh om in
  let instant := seconds_since_1970 y mo d h mi s - offset_seconds west oh om in
  reminder_time_unix env start lead = Ok (instant - lead * 60)
  ∧ (∀ y' mo' d' h' mi' s' west' oh' om',
       valid_fields y' mo' d' h' mi' s' → valid_offset oh' om' →
       seconds_since_1970 y' mo' d' h' mi' s' - offset_seconds west' oh' om'
       = instant →
       reminder_time_unix env (with_offset y' mo' d' h' mi' s' west' oh' om') lead
       = reminder_time_unix env start lead)
  ∧ (∀ y' mo' d' h' mi' s',
       valid_fields y' mo' d' h' mi' s' →
       seconds_since_1970 y' mo' d' h' mi' s' = instant →
       reminder_time_unix env (with_Z y' mo' d' h' mi' s') lead
       = reminder_time_unix env start lead)
  ∧ (∀ uid name url db,
       ∃ added, (add_reminder env uid name url start lead db).1 = Ok added).
Proof.
  intros Hv Ho start instant.
  pose proof (with_offset_resolves env y mo d h mi s west oh om lead Hv Ho)
    as Hres.
  fold start instant in Hres. split_and!.
  - done.
  - intros y' mo' d' h' mi' s' west' oh' om' Hv' Ho' Heq.
    rewrite Hres, with_offset_resolves by done. by rewrite Heq.
  - intros y' mo' d' h' mi' s' Hv' Heq.
    rewrite Hres, with_Z_resolves by done. by rewrite Heq.
  - intros uid name url db. unfold add_reminder. rewrite Hres.
    destruct (fetchone _); eexists; done.
Qed.

Lemma numeric_offset_accepted_witness :
  valid_fields 2025 6 1 15 30 0 ∧ valid_offset 5 30
  ∧ reminder_time_unix utc_environ "2025-06-01T15:30:00+05:30" 15
    = Ok 1748771100
  ∧ reminder_time_unix utc_environ "2025-06-01T10:00:00+00:00" 15
    = reminder_time_unix utc_environ "2025-06-01T15:30:00+05:30" 15
  ∧ reminder_time_unix utc_environ "2025-06-01T10:00:00Z" 15
    = reminder_time_unix utc_environ "2025-06-01T15:30:00+05:30" 15
  ∧ ∃ added,
      (add_reminder utc_environ 8 "Round D" "https://x/42"
         "2025-06-01T15:30:00+05:30" 15 Scenario.three_reminders).1 = Ok added.
Proof.
  assert (valid_fields 2025 6 1 15 30 0) as Hv
    by (unfold valid_fields; change (_days_in_month 2025 6) with 30; lia).
  assert (valid_fields 2025 6 1 10 0 0) as Hv'
    by (unfold valid_fields; change (_days_in_month 2025 6) with 30; lia).
  assert (valid_offset 5 30) as Ho by (unfold valid_offset; lia).
  assert (valid_offset 0 0) as Ho' by (unfold valid_offset; lia).
  destruct (numeric_offset_accepted utc_environ 2025 6 1 15 30 0 false 5 30 15
              Hv Ho) as (Hres & Hsame & HsameZ & Hadd).
  split_and!.
  - exact Hv.
  - exact Ho.
  - exact Hres.
  - apply (Hsame 2025 6 1 10 0 0 false 0 0 Hv' Ho'). vm_compute; reflexivity.
  - apply (HsameZ 2025 6 1 10 0 0 Hv'). vm_compute; reflexivity.
  - apply Hadd.
Defined.

End DatetimeFacts.

(** ** The reminder table *)

Module DatabaseFacts.
Import Py Database Isoformat Scenario.

Lemma select_id_spec (uid : Z) (url : string) (d : db) (id : Z) :
  id ∈ select_id_by_user_and_url uid url d ↔
  ∃ r, reminders d !! id = Some r ∧ user_id r = uid ∧ contest_url r = url.
Proof.
  unfold select_id_by_user_and_url. rewrite list_elem_of_fmap. split.
  - intros [[k r] [-> Hin]]. apply elem_of_map_to_list in Hin.
    apply map_lookup_filter_Some in Hin as [Hk [H1 H2]]. eauto.
  - intros (r & Hk & H1 & H2). exists (id, r). split; [done|].
    apply elem_of_map_to_list, map_lookup_filter_Some. done.
Qed.

Lemma fetchone_None {A : Type} (l : list A) : fetchone l = None ↔ l = [].
Proof. destruct l; simpl; split; congruence. Qed.

Lemma foldr_max_ge_init (a : Z) (l : list Z) : a ≤ foldr Z.max a l.
Proof. induction l as [|x l IH]; simpl; lia. Qed.

Lemma foldr_max_ge_elem (a x : Z) (l : list Z) : x ∈ l → x ≤ foldr Z.max a l.
Proof.
  induction l as [|y l IH]; simpl; [by intros ?%elem_of_nil|].
  intros [->|Hx]%elem_of_cons; [lia|]. specialize (IH Hx). lia.
Qed.

Lemma next_id_above_sequence (d : db) : sqlite_sequence d < next_id d.
Proof. unfold next_id. pose proof (foldr_max_ge_init (sqlite_sequence d)
  (map_to_list (reminders d)).*1). lia. Qed.

Lemma next_id_above_rows (d : db) (id : Z) (r : row) :
  reminders d !! id = Some r → id < next_id d.
Proof.
  intros Hid. unfold next_id.
  assert (id ∈ (map_to_list (reminders d)).*1) as Hin.
  { apply list_elem_of_fmap. exists (id, r). split; [done|].
    by apply elem_of_map_to_list. }
  pose proof (foldr_max_ge_elem (sqlite_sequence d) _ _ Hin). lia.
Qed.

Lemma next_id_fresh (d : db) : reminders d !! next_id d = None.
Proof.
  destruct (reminders d !! next_id d) as [r|] eqn:E; [|done].
  apply next_id_above_rows in E. lia.
Qed.

Lemma select_id_empty (uid : Z) (url : string) (d : db) :
  (∀ id r, reminders d !! id = Some r →
           ¬ (user_id r = uid ∧ contest_url r = url)) →
  select_id_by_user_and_url uid url d = [].
Proof.
  intros Hno.
  destruct (select_id_by_user_and_url uid url d) as [|id l] eqn:E; [done|].
  assert (id ∈ select_id_by_user_and_url uid url d) as Hin
    by (rewrite E; left).
  apply select_id_spec in Hin as (r & Hr & H1 & H2).
  by destruct (Hno id r Hr).
Qed.

(** The existence check decides how [add_reminder] ends. *)
Lemma add_reminder_exists env uid name url start lead d t id :
  reminder_time_unix env start lead = Ok t →
  id ∈ select_id_by_user_and_url uid url d →
  add_reminder env uid name url start lead d = (Ok false, d).
Proof.
  intros Ht Hin. unfold add_reminder. rewrite Ht.
  destruct (fetchone _) eqn:E; [done|].
  apply fetchone_None in E. rewrite E in Hin. by apply elem_of_nil in Hin.
Qed.

Lemma add_reminder_new env uid name url start lead d t :
  reminder_time_unix env start lead = Ok t →
  select_id_by_user_and_url uid url d = [] →
  add_reminder env uid name url start lead d
  = (Ok true, insert_reminder (mk_row uid name url t) d).
Proof. intros Ht Hsel. unfold add_reminder. by rewrite Ht, Hsel. Qed.

Lemma add_reminder_raises env uid name url start lead d e :
  reminder_time_unix env start lead = Raise e →
  add_reminder env uid name url start lead d = (Raise e, d).
Proof. intros Ht. unfold add_reminder. by rewrite Ht. Qed.

(** The invariant of [AUTOINCREMENT] holds of the new database and is
    kept by every operation. *)
Lemma well_formed_initialize_db : well_formed (initialize_db None).
Proof. intros id r H. simpl in H. by rewrite lookup_empty in H. Qed.

Lemma well_formed_add_reminder env uid name url start lead d :
  well_formed d → well_formed (add_reminder env uid name url start lead d).2.
Proof.
  intros Hwf. unfold add_reminder.
  destruct (reminder_time_unix _ _ _); simpl; [|done].
  destruct (fetchone _); simpl; [done|].
  intros id r. simpl. destruct (decide (id = next_id d)) as [->|Hne].
  - lia.
  - rewrite lookup_insert_ne by done. intros Hr.
    pose proof (Hwf id r Hr). pose proof (next_id_above_sequence d). lia.
Qed.

Lemma well_formed_delete_reminder id d :
  well_formed d → well_formed (delete_reminder id d).
Proof.
  intros Hwf id' r. simpl. intros Hr.
  apply lookup_delete_Some in Hr as [_ Hr]. by apply (Hwf id' r).
Qed.

Lemma well_formed_three_reminders : well_formed three_reminders.
Proof.
  unfold three_reminders, remind_me.
  repeat apply well_formed_add_reminder. apply well_formed_initialize_db.
Qed.

(** No reminder of the scenario is for user 8. *)
Lemma three_reminders_without_user_8 (url : string) :
  ∀ id r, reminders three_reminders !! id = Some r →
          ¬ (user_id r = 8 ∧ contest_url r = url).
Proof.
  intros id r Hr [Hu _].
  assert ((id, r) ∈ map_to_list (reminders three_reminders)) as Hin
    by (by apply elem_of_map_to_list).
  replace (map_to_list (reminders three_reminders))
    with [(3, mk_row 11 "Round C" "https://x/3" 1893455100);
          (2, mk_row 9 "Round B" "https://x/2" 1893455100);
          (1, mk_row 7 "Round A" "https://x/1" 1893455100)] in Hin
    by (vm_compute; reflexivity).
  rewrite !elem_of_cons, elem_of_nil in Hin.
  destruct Hin as [H|[H|[H|[]]]]; injection H as _ ->; discriminate Hu.
Qed.

(** C1. Registering twice under one [(user_id, contest_url)] key, from a
    table that has no reminder under that key and with a start time that
    resolves: the first call returns [True] and inserts one row under a
    new [id]; a second call, whatever its name, start time and lead, and
    in whatever environment, leaves the database as it is, and returns
    [False] when its start time resolves; the table then holds exactly
    one reminder under the key, the one of the first call. *)
Theorem add_reminder_twice_one_record
    (env1 : Datetime.environ) (d : db) (uid : Z) (url : string)
    (name1 start1 : string) (lead1 : Z) (t1 : Z) :
  (∀ id r, reminders d !! id = Some r →
           ¬ (user_id r = uid ∧ contest_url r = url)) →
  reminder_time_unix env1 start1 lead1 = Ok t1 →
  ∃ (d1 : db) (id : Z),
    add_reminder env1 uid name1 url start1 lead1 d = (Ok true, d1)
    ∧ (∀ env2 name2 start2 lead2,
         (add_reminder env2 uid name2 url start2 lead2 d1).2 = d1
         ∧ ∀ t2, reminder_time_unix env2 start2 lead2 = Ok t2 →
             add_reminder env2 uid name2 url start2 lead2 d1 = (Ok false, d1))
    ∧ reminders d !! id = None
    ∧ reminders d1 = <[id := mk_row uid name1 url t1]> (reminders d)
    ∧ size (reminders d1) = S (size (reminders d))
    ∧ select_id_by_user_and_url uid url d1 = [id]
    ∧ (∀ id' r, reminders d1 !! id' = Some r →
                user_id r = uid → contest_url r = url →
                id' = id ∧ r = mk_row uid name1 url t1).
Proof.
  intros Hno Ht1.
  pose proof (select_id_empty uid url d Hno) as Hsel.
  exists (insert_reminder (mk_row uid name1 url t1) d), (next_id d).
  pose proof (next_id_fresh d) as Hfresh.
  assert (select_id_by_user_and_url uid url
            (insert_reminder (mk_row uid name1 url t1) d) = [next_id d])
    as Hone.
  { unfold select_id_by_user_and_url, insert_reminder; simpl.
    rewrite map_filter_insert_True by done.
    assert (filter (λ kv : Z * row, user_id kv.2 = uid ∧ contest_url kv.2 = url)
              (reminders d) = ∅) as ->.
    { apply map_empty. intros i. apply map_lookup_filter_None. right.
      intros r Hr HP. by apply (Hno i r Hr). }
    by rewrite insert_empty, map_to_list_singleton. }
  split_and!.
  - by apply add_reminder_new.
  - intros env2 name2 start2 lead2.
    assert (∀ t2, reminder_time_unix env2 start2 lead2 = Ok t2 →
              add_reminder env2 uid name2 url start2 lead2
                (insert_reminder (mk_row uid name1 url t1) d)
              = (Ok false, insert_reminder (mk_row uid name1 url t1) d))
      as Hsecond.
    { intros t2 Ht2. eapply add_reminder_exists; [done|].
      rewrite Hone. by left. }
    split; [|done].
    destruct (reminder_time_unix env2 start2 lead2) as [t2|e] eqn:Ht2.
    + by rewrite (Hsecond t2).
    + by rewrite (add_reminder_raises _ _ _ _ _ _ _ e Ht2).
  - done.
  - done.
  - simpl. by apply map_size_insert_None.
  - done.
  - intros id' r Hr Hu Hc.
    assert (id' ∈ select_id_by_user_and_url uid url
              (insert_reminder (mk_row uid name1 url t1) d)) as Hin
      by (apply select_id_spec; eauto).
    rewrite Hone in Hin. apply list_elem_of_singleton in Hin as ->.
    split; [done|]. simpl in Hr. rewrite lookup_insert_eq in Hr. congruence.
Qed.

Lemma add_reminder_twice_one_record_witness :
  (∀ id r, reminders three_reminders !! id = Some r →
           ¬ (user_id r = 8 ∧ contest_url r = "https://x/42"%string))
  ∧ reminder_time_unix utc_environ "2030-01-01T00:00:00Z" 15 = Ok 1893455100
  ∧ reminder_time_unix kolkata_environ "2030-06-01T12:00:00+05:30" 30
    = Ok 1906524000
  ∧ ∃ (d1 : db) (id : Z),
      add_reminder utc_environ 8 "Round D" "https://x/42"
        "2030-01-01T00:00:00Z" 15 three_reminders = (Ok true, d1)
      ∧ add_reminder kolkata_environ 8 "Round D, again" "https://x/42"
          "2030-06-01T12:00:00+05:30" 30 d1 = (Ok false, d1)
      ∧ (add_reminder utc_environ 8 "Round D" "https://x/42"
           "next Sunday" 15 d1).2 = d1
      ∧ reminders three_reminders !! id = None
      ∧ reminders d1
        = <[id := mk_row 8 "Round D" "https://x/42" 1893455100]>
            (reminders three_reminders)
      ∧ size (reminders d1) = S (size (reminders three_reminders))
      ∧ select_id_by_user_and_url 8 "https://x/42" d1 = [id]
      ∧ (∀ id' r, reminders d1 !! id' = Some r →
                  user_id r = 8 → contest_url r = "https://x/42"%string →
                  id' = id ∧ r = mk_row 8 "Round D" "https://x/42" 1893455100).
Proof.
  split; [apply three_reminders_without_user_8|].
  split; [vm_compute; reflexivity|].
  split; [vm_compute; reflexivity|].
  destruct (add_reminder_twice_one_record utc_environ
              three_reminders 8 "https://x/42" "Round D"
              "2030-01-01T00:00:00Z" 15 1893455100)
    as (d1 & id & Hfirst & Hsecond & Hrest).
  - apply three_reminders_without_user_8.
  - vm_compute; reflexivity.
  - exists d1, id. split; [exact Hfirst|]. split; [|split; [|exact Hrest]].
    + destruct (Hsecond kolkata_environ "Round D, again"%string
                  "2030-06-01T12:00:00+05:30"%string 30) as [_ Hfalse].
      apply (Hfalse 1906524000). vm_compute; reflexivity.
    + destruct (Hsecond utc_environ "Round D"%string "next Sunday"%string 15)
        as [Hsame _].
      exact Hsame.
Defined.

(** What the query of [get_due_reminders] selects. *)
Lemma get_due_reminders_spec (now : Z) (d : db) (x : due_row) :
  x ∈ get_due_reminders now d ↔
  ∃ id r, reminders d !! id = Some r ∧ reminder_time r ≤ now
          ∧ x = due_of (id, r).
Proof.
  unfold get_due_reminders. rewrite list_elem_of_fmap. split.
  - intros [[k r] [-> Hin]]. apply elem_of_map_to_list in Hin.
    apply map_lookup_filter_Some in Hin as [Hk Hle]. eauto.
  - intros (id & r & Hk & Hle & ->). exists (id, r). split; [done|].
    by apply elem_of_map_to_list, map_lookup_filter_Some.
Qed.

(** C2. [get_due_reminders] returns the rows whose [reminder_time] is at
    most the clock reading, each once, and no other: a row due one second
    ago is returned, a row due in one second is not.  (Nothing is said
    about the order of the list.) *)
Theorem get_due_reminders_threshold (now : Z) (d : db) :
  (∀ x : due_row,
     x ∈ get_due_reminders now d ↔
     ∃ id r, reminders d !! id = Some r ∧ reminder_time r ≤ now
             ∧ x = due_of (id, r))
  ∧ NoDup (get_due_reminders now d)
  ∧ (∀ id r, reminders d !! id = Some r → reminder_time r = now - 1 →
             due_of (id, r) ∈ get_due_reminders now d)
  ∧ (∀ id r, reminders d !! id = Some r → reminder_time r = now + 1 →
             due_of (id, r) ∉ get_due_reminders now d).
Proof.
  split_and!.
  - apply get_due_reminders_spec.
  - unfold get_due_reminders. apply NoDup_fmap_2_strong.
    + intros [k1 r1] [k2 r2] H1 H2 Heq.
      apply elem_of_map_to_list, map_lookup_filter_Some in H1 as [H1 _].
      apply elem_of_map_to_list, map_lookup_filter_Some in H2 as [H2 _].
      unfold due_of in Heq; simpl in Heq.
      assert (k1 = k2) as -> by congruence. congruence.
    + apply NoDup_map_to_list.
  - intros id r Hk Ht. apply get_due_reminders_spec. exists id, r.
    split_and!; [done|lia|done].
  - intros id r Hk Ht Hin.
    apply get_due_reminders_spec in Hin as (id' & r' & Hk' & Hle & Heq).
    unfold due_of in Heq; simpl in Heq.
    assert (id = id') as <- by congruence.
    assert (r = r') as <- by congruence. lia.
Qed.

Lemma add_reminder_over_parser :
  Parsed.add_reminder Datetime.fromisoformat = add_reminder.
Proof. reflexivity. Qed.

(** C6. When the start time cannot be parsed, [add_reminder] ends with
    the exception that the parser raised, handed to its caller, and the
    database is as before the call.  This holds of the parser that the
    interpreter runs, whichever strings it rejects: the parser is a
    parameter of the statement. *)
Theorem add_reminder_invalid_timestamp
    (fromisoformat : string → result Datetime.datetime)
    (env : Datetime.environ) (d : db) (uid : Z) (name url start : string)
    (lead : Z) (e : exn) :
  fromisoformat (replace_Z start) = Raise e →
  Parsed.add_reminder fromisoformat env uid name url start lead d
  = (Raise e, d).
Proof.
  intros Hparse.
  unfold Parsed.add_reminder, Parsed.reminder_time_unix,
    Parsed.start_time_unix.
  by rewrite Hparse.
Qed.

Lemma add_reminder_invalid_timestamp_witness :
  Datetime.fromisoformat (replace_Z "next Sunday") = Raise ValueError
  ∧ Parsed.add_reminder Datetime.fromisoformat utc_environ 8 "Round D"
      "https://x/42" "next Sunday" 15 three_reminders
    = (Raise ValueError, three_reminders).
Proof.
  split; [vm_compute; reflexivity|].
  apply (add_reminder_invalid_timestamp Datetime.fromisoformat utc_environ
           three_reminders 8 "Round D" "https://x/42" "next Sunday" 15
           ValueError).
  vm_compute; reflexivity.
Defined.

(** C8. [delete_reminder] is total (it has no failing outcome): it
    removes the row with the given [id] and no other, it changes nothing
    when no row has that [id], and a second call changes nothing more. *)
Theorem delete_reminder_idempotent (id : Z) (d : db) :
  reminders (delete_reminder id d) !! id = None
  ∧ (∀ id', id' ≠ id →
       reminders (delete_reminder id d) !! id' = reminders d !! id')
  ∧ sqlite_sequence (delete_reminder id d) = sqlite_sequence d
  ∧ (reminders d !! id = None → delete_reminder id d = d)
  ∧ delete_reminder id (delete_reminder id d) = delete_reminder id d.
Proof.
  unfold delete_reminder; simpl. split_and!.
  - apply lookup_delete_eq.
  - intros id' Hne. by apply lookup_delete_ne.
  - done.
  - intros Hnone. destruct d as [m q]; simpl in *. f_equal.
    by apply delete_id.
  - f_equal. apply delete_id, lookup_delete_eq.
Qed.

End DatabaseFacts.

(** ** The reminder task *)

Module MainFacts.
Import Database DatabaseFacts Main.

(** Registrations add rows under new [id]s and touch no other row. *)
Lemma registration_lookup (d d' : db) (id : Z) (x : row) :
  registration d d' → reminders d !! id = Some x →
  reminders d' !! id = Some x.
Proof.
  intros Hreg Hx. destruct Hreg as [env uid name url start lead d].
  unfold add_reminder.
  destruct (reminder_time_unix _ _ _); simpl; [|done].
  destruct (fetchone _); simpl; [done|].
  rewrite lookup_insert_ne; [done|].
  apply next_id_above_rows in Hx. lia.
Qed.

Lemma registration_sequence (d d' : db) :
  registration d d' → sqlite_sequence d ≤ sqlite_sequence d'.
Proof.
  intros Hreg. destruct Hreg as [env uid name url start lead d].
  unfold add_reminder.
  destruct (reminder_time_unix _ _ _); simpl; [|done].
  destruct (fetchone _); simpl; [done|].
  pose proof (next_id_above_sequence d). lia.
Qed.

Lemma registration_absent (d d' : db) (id : Z) :
  registration d d' → absent id d → absent id d'.
Proof.
  intros Hreg [Hle Hx]. pose proof (registration_sequence d d' Hreg) as Hseq.
  split; [lia|]. destruct Hreg as [env uid name url start lead d].
  unfold add_reminder.
  destruct (reminder_time_unix _ _ _); simpl; [|done].
  destruct (fetchone _); simpl; [done|].
  pose proof (next_id_above_sequence d).
  rewrite lookup_insert_ne; [done|lia].
Qed.

Lemma registrations_lookup (d d' : db) (id : Z) (x : row) :
  rtc registration d d' → reminders d !! id = Some x →
  reminders d' !! id = Some x.
Proof.
  induction 1 as [|d1 d2 d3 Hstep _ IH]; [done|].
  intros Hx. apply IH. by eapply registration_lookup.
Qed.

Lemma registrations_sequence (d d' : db) :
  rtc registration d d' → sqlite_sequence d ≤ sqlite_sequence d'.
Proof.
  induction 1 as [|d1 d2 d3 Hstep _ IH]; [done|].
  pose proof (registration_sequence _ _ Hstep). lia.
Qed.

Lemma registrations_absent (d d' : db) (id : Z) :
  rtc registration d d' → absent id d → absent id d'.
Proof.
  induction 1 as [|d1 d2 d3 Hstep _ IH]; [done|].
  intros Habs. apply IH. by eapply registration_absent.
Qed.

Lemma registration_well_formed (d d' : db) :
  registration d d' → well_formed d → well_formed d'.
Proof.
  intros [env uid name url start lead d0] Hwf.
  by apply well_formed_add_reminder.
Qed.

Lemma registrations_well_formed (d d' : db) :
  rtc registration d d' → well_formed d → well_formed d'.
Proof.
  induction 1 as [|d1 d2 d3 Hstep _ IH]; [done|].
  intros Hwf. apply IH. by eapply registration_well_formed.
Qed.

Lemma delete_absent (d : db) (id id' : Z) :
  absent id d → absent id (delete_reminder id' d).
Proof.
  intros [Hle Hx]. split; [done|]. simpl. apply lookup_delete_None. by right.
Qed.

Section Task.

Context {World : Type}.
Variable env : Datetime.environ.
Variable fetch_user : World -> Z -> World * awaited user.
Variable user_send : World -> Z -> string -> World * awaited unit.
Variable pressed : World -> list press.

Local Abbreviation handle_presses := (handle_presses env pressed).
Local Abbreviation iteration := (iteration env fetch_user user_send pressed).
Local Abbreviation check_reminders :=
  (check_reminders env fetch_user user_send pressed).
Local Abbreviation reached := (reached env fetch_user user_send pressed).
Local Abbreviation sink_send := (sink_send fetch_user user_send).
Local Abbreviation system_step :=
  (system_step env fetch_user user_send pressed).
Local Abbreviation loop := (foldl (λ s r, iteration r s)).

Ltac in_list :=
  repeat first [ apply list_elem_of_here | apply list_elem_of_further ].

Ltac not_in_list :=
  rewrite ?not_elem_of_cons; repeat split; try discriminate;
  apply not_elem_of_nil.

(** What is handled during an [await] is a series of registrations. *)
Lemma handle_presses_registrations (w : World) (d : db) :
  rtc registration d (handle_presses w d).
Proof.
  unfold Main.handle_presses. generalize (pressed w) as l. intros l.
  revert d. induction l as [|p l IH]; intros d; simpl; [done|].
  eapply rtc_l; [|apply IH]. unfold remind_button. constructor.
Qed.

(** The database after one iteration: what was registered meanwhile,
    and the reminder of the iteration deleted unless the failure was
    transient. *)
Lemma iteration_store (r : due_row) (s : state) :
  ∃ d1, rtc registration (store s) d1
        ∧ store (iteration r s)
          = match sink_send r (world s) with
            | TransientFailure => d1
            | _ => delete_reminder (due_id r) d1
            end.
Proof.
  destruct r as [[[id uid] name] url].
  unfold Main.iteration, try_body, await, Main.sink_send, do_delete, emit,
    due_id; simpl.
  destruct (fetch_user (world s) uid) as [w1 [u|[|]]]; simpl.
  - destruct (truthy u) eqn:Hu; simpl.
    + destruct (user_send w1 uid (reminder_message name url))
        as [w2 [[]|[|]]]; simpl;
        (exists (handle_presses w2 (handle_presses w1 (store s)));
         split; [|done];
         etrans; apply handle_presses_registrations).
    + exists (handle_presses w1 (store s)).
      split; [apply handle_presses_registrations|done].
  - exists (handle_presses w1 (store s)).
    split; [apply handle_presses_registrations|done].
  - exists (handle_presses w1 (store s)).
    split; [apply handle_presses_registrations|done].
Qed.

(** The events of one iteration. *)
Lemma iteration_trace (r : due_row) (s : state) :
  ∃ evs, trace (iteration r s) = trace s ++ evs
           ∧ ordered r evs
           ∧ (sink_send r (world s) = TransientFailure →
                ∀ id, DeleteReminder id ∉ evs)
           ∧ (sink_send r (world s) ≠ TransientFailure →
                DeleteReminder (due_id r) ∈ evs)
           ∧ (sink_send r (world s) ≠ Sent →
                ∀ uid content, Send uid content (Returned ()) ∉ evs).
Proof.
  destruct r as [[[id uid] name] url].
  unfold Main.iteration, try_body, await, Main.sink_send, do_delete, emit,
    ordered, attempted_before, due_id, due_user, due_name, due_url; simpl.
  destruct (fetch_user (world s) uid) as [w1 [u|[|]]]; simpl.
  - destruct (truthy u) eqn:Hu; simpl.
    + destruct (user_send w1 uid (reminder_message name url))
        as [w2 [[]|[|]]]; simpl.
      * eexists [FetchUser uid (Returned u); Send uid _ (Returned ());
                 DeleteReminder id].
        split_and!.
        -- by rewrite <- !app_assoc.
        -- intros t1 id' t2 H.
           destruct t1 as [|? [|? [|? [|? ?]]]]; simplify_eq/=.
           split; [done|]. exists (Returned u). split; [in_list|].
           intros ? _ _. exists (Returned ()). in_list.
        -- done.
        -- intros _. in_list.
        -- done.
      * eexists [FetchUser uid (Returned u); Send uid _ (Raised NotFound);
                 Print (CouldNotFindUser uid); DeleteReminder id].
        split_and!.
        -- by rewrite <- !app_assoc.
        -- intros t1 id' t2 H.
           destruct t1 as [|? [|? [|? [|? [|? ?]]]]]; simplify_eq/=.
           split; [done|]. exists (Returned u). split; [in_list|].
           intros ? _ _. exists (Raised NotFound). in_list.
        -- done.
        -- intros _. in_list.
        -- intros _ ? ?. not_in_list.
      * eexists [FetchUser uid (Returned u); Send uid _ (Raised OtherException);
                 Print ErrorWhileSending].
        split_and!.
        -- by rewrite <- !app_assoc.
        -- intros t1 id' t2 H.
           destruct t1 as [|? [|? [|? [|? ?]]]]; simplify_eq/=.
        -- intros _ ?. not_in_list.
        -- done.
        -- intros _ ? ?. not_in_list.
    + eexists [FetchUser uid (Returned u); DeleteReminder id].
      split_and!.
      * by rewrite <- !app_assoc.
      * intros t1 id' t2 H.
        destruct t1 as [|? [|? [|? ?]]]; simplify_eq/=.
        split; [done|]. exists (Returned u). split; [in_list|].
        intros ? [= <-] ?. congruence.
      * done.
      * intros _. in_list.
      * intros _ ? ?. not_in_list.
  - eexists [FetchUser uid (Raised NotFound); Print (CouldNotFindUser uid);
             DeleteReminder id].
    split_and!.
    + by rewrite <- !app_assoc.
    + intros t1 id' t2 H.
      destruct t1 as [|? [|? [|? [|? ?]]]]; simplify_eq/=.
      split; [done|]. exists (Raised NotFound). split; [in_list|]. done.
    + done.
    + intros _. in_list.
    + intros _ ? ?. not_in_list.
  - eexists [FetchUser uid (Raised OtherException); Print ErrorWhileSending].
    split_and!.
    + by rewrite <- !app_assoc.
    + intros t1 id' t2 H.
      destruct t1 as [|? [|? [|? ?]]]; simplify_eq/=.
    + intros _ ?. not_in_list.
    + done.
    + intros _ ? ?. not_in_list.
Qed.

Lemma iteration_absent (r : due_row) (s : state) (id : Z) :
  absent id (store s) → absent id (store (iteration r s)).
Proof.
  intros Habs. destruct (iteration_store r s) as (d1 & Hreg & ->).
  pose proof (registrations_absent _ _ id Hreg Habs).
  destruct (sink_send r (world s)); try apply delete_absent; done.
Qed.

Lemma loop_absent (l : list due_row) (s : state) (id : Z) :
  absent id (store s) → absent id (store (loop s l)).
Proof.
  revert s. induction l as [|r l IH]; intros s Hs; simpl; [done|].
  by apply IH, iteration_absent.
Qed.

Lemma loop_well_formed (l : list due_row) (s : state) :
  well_formed (store s) → well_formed (store (loop s l)).
Proof.
  revert s. induction l as [|r l IH]; intros s Hs; simpl; [done|].
  apply IH. destruct (iteration_store r s) as (d1 & Hreg & ->).
  pose proof (registrations_well_formed _ _ Hreg Hs).
  destruct (sink_send r (world s));
    try apply well_formed_delete_reminder; done.
Qed.

Lemma loop_sequence (l : list due_row) (s : state) :
  sqlite_sequence (store s) ≤ sqlite_sequence (store (loop s l)).
Proof.
  revert s. induction l as [|r l IH]; intros s; simpl; [done|].
  etrans; [|apply IH]. destruct (iteration_store r s) as (d1 & Hreg & ->).
  pose proof (registrations_sequence _ _ Hreg).
  by destruct (sink_send r (world s)).
Qed.

Lemma loop_lookup_other (l : list due_row) (s : state) (id : Z) (x : row) :
  (∀ r, r ∈ l → due_id r ≠ id) →
  reminders (store s) !! id = Some x →
  reminders (store (loop s l)) !! id = Some x.
Proof.
  revert s. induction l as [|r l IH]; intros s Hl Hx; simpl; [done|].
  apply IH; [intros r' Hr'; apply Hl; by right|].
  destruct (iteration_store r s) as (d1 & Hreg & ->).
  pose proof (registrations_lookup _ _ id x Hreg Hx) as Hx1.
  assert (due_id r ≠ id) by (apply Hl; by left).
  destruct (sink_send r (world s)); simpl; try done;
    by rewrite lookup_delete_ne.
Qed.

Lemma loop_trace (l : list due_row) (s : state) :
  ∃ evs, trace (loop s l) = trace s ++ evs
         ∧ ∀ t1 id t2, evs = t1 ++ DeleteReminder id :: t2 →
             ∃ r, r ∈ l ∧ due_id r = id ∧ attempted_before r t1.
Proof.
  revert s. induction l as [|r l IH]; intros s; simpl.
  - exists []. split; [by rewrite app_nil_r|].
    intros [|? ?] ? ? ?; simplify_eq.
  - destruct (IH (iteration r s)) as (evs' & Htr' & Hord').
    destruct (iteration_trace r s) as (evs & Htr & Hord & _).
    exists (evs ++ evs'). split; [by rewrite Htr', Htr, app_assoc|].
    intros t1 id t2 Hsplit.
    apply app_eq_inv in Hsplit as [(k & -> & Hk)|(k & -> & Hk)].
    + destruct k as [|e k]; simpl in Hk.
      * destruct (Hord' [] id t2) as (r' & _ & _ & res & Hin & _); [done|].
        by apply elem_of_nil in Hin.
      * simplify_eq. destruct (Hord t1 id k eq_refl) as [-> Hatt].
        exists r. split_and!; [by left|done|done].
    + destruct (Hord' k id t2 Hk) as (r' & Hr' & Hid & res & Hin & Hsend).
      exists r'. split_and!; [by right|done|].
      exists res. split; [apply elem_of_app; by right|].
      intros u Hu Htruthy. destruct (Hsend u Hu Htruthy) as [sres Hs].
      exists sres. apply elem_of_app; by right.
Qed.

Lemma due_ids_NoDup (now : Z) (d : db) :
  NoDup (due_id <$> get_due_reminders now d).
Proof.
  unfold get_due_reminders. rewrite <- list_fmap_compose.
  apply (NoDup_fst_map_to_list
           (filter (λ kv : Z * row, reminder_time kv.2 ≤ now) (reminders d))).
Qed.

Lemma due_lookup (now : Z) (d : db) (r : due_row) :
  r ∈ get_due_reminders now d →
  ∃ x, reminders d !! due_id r = Some x ∧ reminder_time x ≤ now
       ∧ r = due_of (due_id r, x).
Proof.
  intros Hr. apply get_due_reminders_spec in Hr
    as (id & x & Hx & Hle & ->). by exists x.
Qed.

(** Where the loop stands when it has gone through [before]. *)
Lemma check_reminders_split now w d before r after :
  get_due_reminders now d = before ++ r :: after →
  check_reminders now w d = loop (iteration r (reached w d before)) after.
Proof.
  intros Hdue. unfold Main.check_reminders, Main.reached.
  by rewrite Hdue, foldl_app.
Qed.

Lemma due_split_ids now d before r after :
  get_due_reminders now d = before ++ r :: after →
  (∀ r', r' ∈ before → due_id r' ≠ due_id r)
  ∧ (∀ r', r' ∈ after → due_id r' ≠ due_id r).
Proof.
  intros Hdue. pose proof (due_ids_NoDup now d) as Hnd.
  rewrite Hdue, fmap_app, fmap_cons in Hnd.
  apply NoDup_app in Hnd as (_ & Hdisj & Hnd).
  apply NoDup_cons in Hnd as [Hnotin _]. split.
  - intros r' Hr' Heq. apply (Hdisj (due_id r')).
    + apply list_elem_of_fmap. eauto.
    + rewrite Heq. by left.
  - intros r' Hr' Heq. apply Hnotin. rewrite <- Heq.
    apply list_elem_of_fmap. eauto.
Qed.

(** The fate of a due reminder is the one its own iteration decides. *)
Lemma check_reminders_fate now w d before r after x :
  get_due_reminders now d = before ++ r :: after →
  reminders d !! due_id r = Some x →
  match sink_send r (world (reached w d before)) with
  | TransientFailure =>
      reminders (store (check_reminders now w d)) !! due_id r = Some x
  | _ => well_formed d → absent (due_id r) (store (check_reminders now w d))
  end.
Proof.
  intros Hdue Hx. destruct (due_split_ids _ _ _ _ _ Hdue) as [Hb Ha].
  rewrite (check_reminders_split _ w _ _ _ _ Hdue).
  assert (reminders (store (reached w d before)) !! due_id r = Some x) as Hpre.
  { unfold Main.reached. by apply loop_lookup_other. }
  assert (well_formed d →
          due_id r ≤ sqlite_sequence (store (reached w d before))) as Hseq.
  { intros Hwf. pose proof (Hwf _ _ Hx).
    pose proof (loop_sequence before (mk_state w d [])) as Hmono.
    simpl in Hmono. unfold Main.reached. lia. }
  destruct (iteration_store r (reached w d before)) as (d1 & Hreg & Hst).
  pose proof (registrations_sequence _ _ Hreg) as Hseq1.
  assert (well_formed d → absent (due_id r) (delete_reminder (due_id r) d1))
    as Hdel.
  { intros Hwf. specialize (Hseq Hwf). split; [simpl; lia|].
    simpl. apply lookup_delete_eq. }
  destruct (sink_send r (world (reached w d before)));
    try (intros Hwf; apply loop_absent; rewrite Hst; by apply Hdel).
  apply loop_lookup_other; [done|]. rewrite Hst.
  by eapply registrations_lookup.
Qed.

Lemma system_step_absent (d d' : db) (id : Z) :
  system_step d d' → absent id d → absent id d'.
Proof.
  intros [? ? Hreg|now w ?] Habs.
  - by eapply registration_absent.
  - unfold Main.check_reminders. by apply loop_absent.
Qed.

(** The counter is in order in every database that the program makes. *)
Lemma reachable_well_formed (d : db) :
  rtc system_step (initialize_db None) d → well_formed d.
Proof.
  intros Hreach. pose proof well_formed_initialize_db as Hinit.
  revert Hinit Hreach. generalize (initialize_db None) as d0.
  intros d0 Hinit Hreach.
  induction Hreach as [|d1 d2 d3 Hstep _ IH]; [done|].
  apply IH. destruct Hstep as [? ? Hreg|now w ?].
  - by eapply registration_well_formed.
  - unfold Main.check_reminders. by apply loop_well_formed.
Qed.

Lemma later_absent (d d' : db) (id : Z) :
  rtc system_step d d' → absent id d → absent id d'.
Proof.
  induction 1 as [|d1 d2 d3 Hstep _ IH]; [done|].
  intros Habs. apply IH. by eapply system_step_absent.
Qed.

(** C3. A due reminder whose send ends in a transient failure stays in
    the table, unchanged, and is due again at every later clock reading,
    whatever is registered in between; a due reminder whose message was
    sent is removed by the run and, in a database whose counter is in
    order, its [id] is in the table at no later time. *)
Theorem transient_failure_retried_sent_removed
    (now : Z) (w : World) (d : db)
    (before : list due_row) (r : due_row) (after : list due_row) :
  get_due_reminders now d = before ++ r :: after →
  let outcome := sink_send r (world (reached w d before)) in
  let d' := store (check_reminders now w d) in
  (outcome = TransientFailure →
     reminders d' !! due_id r = reminders d !! due_id r
     ∧ ∀ d'' now', rtc registration d' d'' → now ≤ now' →
         r ∈ get_due_reminders now' d'')
  ∧ (outcome = Sent → well_formed d →
     reminders d' !! due_id r = None
     ∧ ∀ d'', rtc system_step d' d'' → reminders d'' !! due_id r = None).
Proof.
  intros Hdue outcome d'.
  assert (r ∈ get_due_reminders now d) as Hr.
  { rewrite Hdue. apply elem_of_app. right. by left. }
  apply due_lookup in Hr as (x & Hx & Hle & Hrx).
  pose proof (check_reminders_fate now w d before r after x Hdue Hx) as Hfate.
  fold outcome d' in Hfate.
  split.
  - intros Hout. rewrite Hout in Hfate. split; [congruence|].
    intros d'' now' Hreg Hnow.
    pose proof (registrations_lookup _ _ _ _ Hreg Hfate) as Hx''.
    apply get_due_reminders_spec. exists (due_id r), x.
    split_and!; [done|lia|done].
  - intros Hout Hwf. rewrite Hout in Hfate. specialize (Hfate Hwf).
    split; [apply Hfate|].
    intros d'' Hlater. by apply (later_absent d' d'').
Qed.

(** C4. A due reminder whose recipient is not found is removed by the
    run, although no message was sent for it. *)
Theorem recipient_not_found_removed
    (now : Z) (w : World) (d : db)
    (before : list due_row) (r : due_row) (after : list due_row) :
  get_due_reminders now d = before ++ r :: after →
  sink_send r (world (reached w d before)) = RecipientNotFound →
  well_formed d →
  is_Some (reminders d !! due_id r)
  ∧ reminders (store (check_reminders now w d)) !! due_id r = None
  ∧ ∃ evs,
      trace (iteration r (reached w d before))
      = trace (reached w d before) ++ evs
      ∧ DeleteReminder (due_id r) ∈ evs
      ∧ ∀ uid content, Send uid content (Returned ()) ∉ evs.
Proof.
  intros Hdue Hout Hwf.
  assert (r ∈ get_due_reminders now d) as Hr.
  { rewrite Hdue. apply elem_of_app. right. by left. }
  apply due_lookup in Hr as (x & Hx & _).
  pose proof (check_reminders_fate now w d before r after x Hdue Hx) as Hfate.
  rewrite Hout in Hfate.
  split_and!; [by exists x|by apply Hfate|].
  destruct (iteration_trace r (reached w d before))
    as (evs & Htr & _ & _ & Hdel & Hsend).
  exists evs. split_and!; [done| |].
  - apply Hdel. by rewrite Hout.
  - apply Hsend. by rewrite Hout.
Qed.

(** C7. In a run of the task, every deletion of a reminder comes after
    the send attempt for that reminder in the same run: the fetch of its
    user and, when a user was fetched and is true, the sending of its
    message. *)
Theorem delete_preceded_by_send_attempt
    (now : Z) (w : World) (d : db) (t1 : list event) (id : Z) (t2 : list event) :
  trace (check_reminders now w d) = t1 ++ DeleteReminder id :: t2 →
  ∃ r, r ∈ get_due_reminders now d ∧ due_id r = id ∧ attempted_before r t1.
Proof.
  intros Htrace. unfold Main.check_reminders in Htrace.
  destruct (loop_trace (get_due_reminders now d) (mk_state w d []))
    as (evs & Hevs & Hord).
  simpl in Hevs. rewrite Hevs in Htrace. by apply (Hord t1 id t2).
Qed.

End Task.

Import Isoformat Scenario.

(** The scenario, run: the reminder of user 11 is dropped, that of user
    9 kept, that of user 7 sent and dropped, and user 8 is registered
    under the next [id]; a minute later the reminder of user 9 alone is
    due, and user 7 can register again. *)
Example scenario_trace :
  trace (check_reminders utc_environ fetch_user user_send pressed due_time ()
           three_reminders)
  = [FetchUser 11 (Raised NotFound); Print (CouldNotFindUser 11);
     DeleteReminder 3;
     FetchUser 9 (Raised OtherException); Print ErrorWhileSending;
     FetchUser 7 (Returned (mk_user true));
     Send 7 (reminder_message "Round A" "https://x/1") (Returned ());
     DeleteReminder 1].
Proof. vm_compute; reflexivity. Qed.

Example scenario_store :
  let d' := store (check_reminders utc_environ fetch_user user_send pressed
                     due_time () three_reminders) in
  map_to_list (reminders d')
  = [(4, mk_row 8 "Round D" "https://x/42" 1896133500);
     (2, mk_row 9 "Round B" "https://x/2" 1893455100)]
  ∧ sqlite_sequence d' = 4
  ∧ get_due_reminders (due_time + 60) d' = [reminder_B]
  ∧ (add_reminder utc_environ 7 "Round A" "https://x/1"
       "2030-01-01T00:00:00Z" 15 d').1 = Py.Ok true.
Proof. vm_compute; repeat split; reflexivity. Qed.

Lemma transient_failure_retried_sent_removed_witness :
  let d' := store (check_reminders utc_environ fetch_user user_send pressed due_time ()
                     three_reminders) in
  get_due_reminders due_time three_reminders
  = [reminder_C] ++ reminder_B :: [reminder_A]
  ∧ sink_send fetch_user user_send reminder_B
      (world (reached utc_environ fetch_user user_send pressed () three_reminders [reminder_C]))
    = TransientFailure
  ∧ reminders d' !! 2 = reminders three_reminders !! 2
  ∧ (∀ d'' now', rtc registration d' d'' → due_time ≤ now' →
       reminder_B ∈ get_due_reminders now' d'')
  ∧ sink_send fetch_user user_send reminder_A
      (world (reached utc_environ fetch_user user_send pressed () three_reminders
                [reminder_C; reminder_B]))
    = Sent
  ∧ well_formed three_reminders
  ∧ reminders d' !! 1 = None
  ∧ (∀ d'', rtc (system_step utc_environ fetch_user user_send pressed) d' d'' →
       reminders d'' !! 1 = None).
Proof.
  intros d'.
  assert (get_due_reminders due_time three_reminders
          = [reminder_C] ++ reminder_B :: [reminder_A]) as HB
    by (vm_compute; reflexivity).
  assert (get_due_reminders due_time three_reminders
          = [reminder_C; reminder_B] ++ reminder_A :: []) as HA
    by (vm_compute; reflexivity).
  destruct (transient_failure_retried_sent_removed utc_environ fetch_user user_send pressed
              due_time () three_reminders [reminder_C] reminder_B [reminder_A]
              HB) as [Htransient _].
  destruct (transient_failure_retried_sent_removed utc_environ fetch_user user_send pressed
              due_time () three_reminders [reminder_C; reminder_B] reminder_A []
              HA) as [_ Hsent].
  destruct (Htransient ltac:(vm_compute; reflexivity)) as [Hkept Hdue].
  destruct (Hsent ltac:(vm_compute; reflexivity) well_formed_three_reminders)
    as [Hgone Hnever].
  split_and!.
  - exact HB.
  - vm_compute; reflexivity.
  - exact Hkept.
  - exact Hdue.
  - vm_compute; reflexivity.
  - exact well_formed_three_reminders.
  - exact Hgone.
  - exact Hnever.
Defined.

Lemma recipient_not_found_removed_witness :
  get_due_reminders due_time three_reminders
  = [] ++ reminder_C :: [reminder_B; reminder_A]
  ∧ sink_send fetch_user user_send reminder_C
      (world (reached utc_environ fetch_user user_send pressed () three_reminders []))
    = RecipientNotFound
  ∧ well_formed three_reminders
  ∧ is_Some (reminders three_reminders !! 3)
  ∧ reminders (store (check_reminders utc_environ fetch_user user_send pressed due_time ()
                        three_reminders)) !! 3 = None
  ∧ ∃ evs,
      trace (iteration utc_environ fetch_user user_send pressed reminder_C
               (reached utc_environ fetch_user user_send pressed () three_reminders []))
      = trace (reached utc_environ fetch_user user_send pressed () three_reminders []) ++ evs
      ∧ DeleteReminder 3 ∈ evs
      ∧ ∀ uid content, Send uid content (Returned ()) ∉ evs.
Proof.
  split; [vm_compute; reflexivity|].
  split; [vm_compute; reflexivity|].
  split; [exact well_formed_three_reminders|].
  apply (recipient_not_found_removed utc_environ fetch_user user_send pressed
           due_time () three_reminders [] reminder_C [reminder_B; reminder_A]).
  - vm_compute; reflexivity.
  - vm_compute; reflexivity.
  - exact well_formed_three_reminders.
Defined.

Lemma delete_preceded_by_send_attempt_witness :
  trace (check_reminders utc_environ fetch_user user_send pressed due_time () three_reminders)
  = [FetchUser 11 (Raised NotFound); Print (CouldNotFindUser 11)]
    ++ DeleteReminder 3
    :: [FetchUser 9 (Raised OtherException); Print ErrorWhileSending;
        FetchUser 7 (Returned (mk_user true));
        Send 7 (reminder_message "Round A" "https://x/1") (Returned ());
        DeleteReminder 1]
  ∧ ∃ r, r ∈ get_due_reminders due_time three_reminders ∧ due_id r = 3
         ∧ attempted_before r
             [FetchUser 11 (Raised NotFound); Print (CouldNotFindUser 11)].
Proof.
  split; [vm_compute; reflexivity|].
  apply (delete_preceded_by_send_attempt utc_environ fetch_user user_send pressed due_time ()
           three_reminders
           [FetchUser 11 (Raised NotFound); Print (CouldNotFindUser 11)] 3
           [FetchUser 9 (Raised OtherException); Print ErrorWhileSending;
            FetchUser 7 (Returned (mk_user true));
            Send 7 (reminder_message "Round A" "https://x/1") (Returned ());
            DeleteReminder 1]).
  vm_compute; reflexivity.
Defined.

End MainFacts.

(* ===================================================================== *)
(** ** More on database.py                                                *)
(* ===================================================================== *)

Module StoreFacts.
Import Py Database Invariants Main Isoformat Scenario DatabaseFacts.

Lemma lookup_insert_reminder (r : row) (d : db) (id : Z) :
  reminders (insert_reminder r d) !! id
  = if decide (id = next_id d) then Some r else reminders d !! id.
Proof.
  unfold insert_reminder. simpl. destruct (decide (id = next_id d)) as [->|Hne].
  - apply lookup_insert_eq.
  - by apply lookup_insert_ne.
Qed.

Lemma select_id_nonempty (uid : Z) (url : string) (d : db) :
  select_id_by_user_and_url uid url d ≠ [] ↔
  ∃ id r, reminders d !! id = Some r ∧ user_id r = uid ∧ contest_url r = url.
Proof.
  split.
  - destruct (select_id_by_user_and_url uid url d) as [|id l] eqn:E; [done|].
    intros _. exists id. apply select_id_spec. rewrite E. apply list_elem_of_here.
  - intros (id & r & H) E.
    assert (id ∈ select_id_by_user_and_url uid url d) as Hin
      by (apply select_id_spec; eauto).
    rewrite E in Hin. by apply not_elem_of_nil in Hin.
Qed.

(** X1: what [add_reminder] answers and writes, for a start time that
    resolves: [False] and nothing when the table has a row of the user
    for the URL, whatever the name and the time of that row; otherwise
    [True] and one new row, under an [id] above every [id] in use, all
    other rows as they were. *)
Theorem add_reminder_outcome
    (env : Datetime.environ) (uid : Z) (name url start : string) (lead t : Z)
    (d : db) :
  reminder_time_unix env start lead = Ok t →
  let present :=
    ∃ id r, reminders d !! id = Some r ∧ user_id r = uid ∧ contest_url r = url in
  let after := add_reminder env uid name url start lead d in
  (present → after = (Ok false, d))
  ∧ (¬ present →
       after.1 = Ok true
       ∧ sqlite_sequence after.2 = next_id d
       ∧ (∀ id r, reminders d !! id = Some r → id < next_id d)
       ∧ ∀ id, reminders after.2 !! id
               = if decide (id = next_id d) then Some (mk_row uid name url t)
                 else reminders d !! id).
Proof.
  intros Ht present after. subst present after. split.
  - intros (id & r & H). eapply add_reminder_exists; [done|].
    apply select_id_spec. eauto.
  - intros Hno.
    assert (select_id_by_user_and_url uid url d = []) as Hsel.
    { apply select_id_empty. intros id r Hl [Hu Hc]. apply Hno. eauto. }
    rewrite (add_reminder_new _ _ _ _ _ _ _ _ Ht Hsel).
    split_and!; [done|done|apply next_id_above_rows|].
    intros id. apply lookup_insert_reminder.
Qed.

Lemma add_reminder_outcome_witness :
  reminder_time_unix utc_environ "2030-01-01T00:00:00Z" 15 = Ok 1893455100
  ∧ add_reminder utc_environ 7 "Round A again" "https://x/1"
      "2030-01-01T00:00:00Z" 15 three_reminders = (Ok false, three_reminders)
  ∧ reminders
      (add_reminder utc_environ 8 "Round A" "https://x/1"
         "2030-01-01T00:00:00Z" 15 three_reminders).2 !! 4
    = Some (mk_row 8 "Round A" "https://x/1" 1893455100).
Proof.
  assert (reminder_time_unix utc_environ "2030-01-01T00:00:00Z" 15
          = Ok 1893455100) as Ht by (vm_compute; reflexivity).
  split; [exact Ht|]. split.
  - apply (add_reminder_outcome utc_environ 7 "Round A again" "https://x/1"
             "2030-01-01T00:00:00Z" 15 1893455100 three_reminders Ht).
    exists 1, (mk_row 7 "Round A" "https://x/1" 1893455100).
    split; [vm_compute; reflexivity|done].
  - destruct (add_reminder_outcome utc_environ 8 "Round A" "https://x/1"
             "2030-01-01T00:00:00Z" 15 1893455100 three_reminders Ht)
      as [_ Hnew].
    destruct Hnew as (_ & _ & _ & Hl).
    + intros (id & r & Hl & Hu & Hc).
      eapply three_reminders_without_user_8; [exact Hl|]. split; [exact Hu|exact Hc].
    + rewrite Hl. vm_compute. reflexivity.
Defined.

Lemma foldr_max_bounded (a : Z) (l : list Z) :
  (∀ x, x ∈ l → x ≤ a) → foldr Z.max a l = a.
Proof.
  induction l as [|y l IH]; intros H; simpl; [done|].
  rewrite IH by (intros x Hx; apply H; by apply list_elem_of_further).
  assert (y ≤ a) by (apply H; apply list_elem_of_here). lia.
Qed.

Lemma next_id_after_delete_last (r : row) (d : db) :
  next_id (delete_reminder (next_id d) (insert_reminder r d)) = next_id d + 1.
Proof.
  unfold next_id at 1. unfold delete_reminder, insert_reminder. simpl.
  rewrite foldr_max_bounded; [done|].
  intros x Hx. apply list_elem_of_fmap in Hx as ([k v] & -> & Hkv).
  apply elem_of_map_to_list in Hkv. simpl.
  destruct (decide (k = next_id d)) as [->|Hne].
  - by rewrite lookup_delete_eq in Hkv.
  - rewrite lookup_delete_ne, lookup_insert_ne in Hkv by done.
    apply next_id_above_rows in Hkv. lia.
Qed.

(** X2: an [id] is not given out twice.  After a registration and the
    deletion of the row it made, the table has the rows it had before;
    the next registration, of the same user for the same contest or of
    any other, gets the [id] after the one deleted, which stays empty. *)
Theorem deleted_id_not_reused
    (env : Datetime.environ) (uid : Z) (name url start : string) (lead t : Z)
    (env' : Datetime.environ) (uid' : Z) (name' url' start' : string)
    (lead' t' : Z) (d : db) :
  reminder_time_unix env start lead = Ok t →
  reminder_time_unix env' start' lead' = Ok t' →
  (∀ id r, reminders d !! id = Some r →
           ¬ (user_id r = uid ∧ contest_url r = url)
           ∧ ¬ (user_id r = uid' ∧ contest_url r = url')) →
  let d1 := (add_reminder env uid name url start lead d).2 in
  let d2 := delete_reminder (next_id d) d1 in
  let d3 := (add_reminder env' uid' name' url' start' lead' d2).2 in
  reminders d1 !! next_id d = Some (mk_row uid name url t)
  ∧ reminders d2 = reminders d
  ∧ reminders d3 !! next_id d = None
  ∧ reminders d3 !! (next_id d + 1) = Some (mk_row uid' name' url' t').
Proof.
  intros Ht Ht' Hno d1 d2 d3.
  assert (d1 = insert_reminder (mk_row uid name url t) d) as Hd1.
  { unfold d1. erewrite add_reminder_new; [done|done|].
    apply select_id_empty. intros id r Hl. by apply Hno in Hl as [? _]. }
  assert (reminders d2 = reminders d) as Hd2.
  { unfold d2. rewrite Hd1. unfold delete_reminder, insert_reminder. simpl.
    rewrite delete_insert_eq. apply delete_id, next_id_fresh. }
  assert (d3 = insert_reminder (mk_row uid' name' url' t') d2) as Hd3.
  { unfold d3. erewrite add_reminder_new; [done|done|].
    apply select_id_empty. intros id r Hl. rewrite Hd2 in Hl.
    by apply Hno in Hl as [_ ?]. }
  assert (next_id d2 = next_id d + 1) as Hnext.
  { unfold d2. rewrite Hd1. apply next_id_after_delete_last. }
  split_and!.
  - rewrite Hd1, lookup_insert_reminder. by rewrite decide_True.
  - done.
  - rewrite Hd3, lookup_insert_reminder, Hnext.
    rewrite decide_False by lia. rewrite Hd2. apply next_id_fresh.
  - rewrite Hd3, lookup_insert_reminder, Hnext. by rewrite decide_True.
Qed.

Lemma deleted_id_not_reused_witness :
  let d1 := (add_reminder utc_environ 8 "Round D" "https://x/42"
               "2030-01-01T00:00:00Z" 15 three_reminders).2 in
  let d2 := delete_reminder 4 d1 in
  let d3 := (add_reminder utc_environ 8 "Round D" "https://x/42"
               "2030-01-01T00:00:00Z" 15 d2).2 in
  reminder_time_unix utc_environ "2030-01-01T00:00:00Z" 15 = Ok 1893455100
  ∧ next_id three_reminders = 4
  ∧ reminders d1 !! 4 = Some (mk_row 8 "Round D" "https://x/42" 1893455100)
  ∧ reminders d2 = reminders three_reminders
  ∧ reminders d3 !! 4 = None
  ∧ reminders d3 !! 5 = Some (mk_row 8 "Round D" "https://x/42" 1893455100).
Proof.
  assert (reminder_time_unix utc_environ "2030-01-01T00:00:00Z" 15
          = Ok 1893455100) as Ht by (vm_compute; reflexivity).
  assert (next_id three_reminders = 4) as Hn by (vm_compute; reflexivity).
  split; [exact Ht|]. split; [exact Hn|].
  change 5 with (4 + 1). rewrite <- Hn.
  apply (deleted_id_not_reused utc_environ 8 "Round D" "https://x/42"
           "2030-01-01T00:00:00Z" 15 1893455100
           utc_environ 8 "Round D" "https://x/42"
           "2030-01-01T00:00:00Z" 15 1893455100 three_reminders Ht Ht).
  intros id r Hl.
  split; apply (three_reminders_without_user_8 "https://x/42" id r Hl).
Defined.

Lemma due_id_due_of (id : Z) (r : row) : due_id (due_of (id, r)) = id.
Proof. done. Qed.

(** X3: a registration shows in [get_due_reminders] from its
    [reminder_time] on and not before, as the row
    [(id, user_id, contest_name, contest_url)] of what was registered;
    the rows that were due before are due as before. *)
Theorem get_due_reminders_after_add
    (env : Datetime.environ) (uid : Z) (name url start : string) (lead t : Z)
    (d : db) (now : Z) (x : due_row) :
  reminder_time_unix env start lead = Ok t →
  (∀ id r, reminders d !! id = Some r →
           ¬ (user_id r = uid ∧ contest_url r = url)) →
  x ∈ get_due_reminders now (add_reminder env uid name url start lead d).2
  ↔ x ∈ get_due_reminders now d
    ∨ (t ≤ now ∧ x = (next_id d, uid, name, url)).
Proof.
  intros Ht Hno.
  erewrite add_reminder_new; [|done|by apply select_id_empty]. simpl.
  rewrite !get_due_reminders_spec. split.
  - intros (id & r & Hl & Hle & ->).
    rewrite lookup_insert_reminder in Hl.
    destruct (decide (id = next_id d)) as [->|Hne].
    + injection Hl as <-. right. done.
    + left. eauto.
  - intros [(id & r & Hl & Hle & ->)|[Hle ->]].
    + exists id, r. split_and!; [|done|done].
      rewrite lookup_insert_reminder, decide_False; [done|].
      apply next_id_above_rows in Hl. lia.
    + exists (next_id d), (mk_row uid name url t). split_and!; [|done|done].
      rewrite lookup_insert_reminder. by rewrite decide_True.
Qed.

Lemma get_due_reminders_after_add_witness :
  reminder_time_unix utc_environ "2030-02-01T00:00:00Z" 15 = Ok 1896133500
  ∧ ((4, 8, "Round D", "https://x/42")%string
       ∈ get_due_reminders 1896133500
           (add_reminder utc_environ 8 "Round D" "https://x/42"
              "2030-02-01T00:00:00Z" 15 three_reminders).2
     ↔ (4, 8, "Round D", "https://x/42")%string
         ∈ get_due_reminders 1896133500 three_reminders
       ∨ (1896133500 ≤ 1896133500
          ∧ (4, 8, "Round D", "https://x/42")%string
            = (next_id three_reminders, 8, "Round D", "https://x/42")%string)).
Proof.
  assert (reminder_time_unix utc_environ "2030-02-01T00:00:00Z" 15
          = Ok 1896133500) as Ht by (vm_compute; reflexivity).
  split; [exact Ht|].
  apply (get_due_reminders_after_add utc_environ 8 "Round D" "https://x/42"
           "2030-02-01T00:00:00Z" 15 1896133500 three_reminders
           1896133500 (4, 8, "Round D", "https://x/42")%string Ht).
  apply three_reminders_without_user_8.
Defined.

(** X4: after [delete_reminder] the reminder is in no result of
    [get_due_reminders], at any clock reading, and every other row is
    returned exactly as before. *)
Theorem get_due_reminders_after_delete (id now : Z) (d : db) (x : due_row) :
  x ∈ get_due_reminders now (delete_reminder id d)
  ↔ x ∈ get_due_reminders now d ∧ due_id x ≠ id.
Proof.
  rewrite !get_due_reminders_spec. unfold delete_reminder. simpl. split.
  - intros (id' & r & Hl & Hle & ->).
    destruct (decide (id' = id)) as [->|Hne].
    + by rewrite lookup_delete_eq in Hl.
    + rewrite lookup_delete_ne in Hl by done. split; [eauto|done].
  - intros [(id' & r & Hl & Hle & ->) Hne]. rewrite due_id_due_of in Hne.
    exists id', r. split_and!; [|done|done].
    by rewrite lookup_delete_ne.
Qed.

(** X5: what is due stays due: a row that [get_due_reminders] returns at
    one clock reading is returned at every later one, as long as it is
    in the table. *)
Theorem get_due_reminders_monotone (now now' : Z) (d : db) (x : due_row) :
  now ≤ now' → x ∈ get_due_reminders now d → x ∈ get_due_reminders now' d.
Proof.
  intros Hle. rewrite !get_due_reminders_spec.
  intros (id & r & Hl & Ht & ->). exists id, r. split_and!; [done|lia|done].
Qed.

Lemma get_due_reminders_monotone_witness :
  due_time ≤ due_time + 60
  ∧ reminder_B ∈ get_due_reminders due_time three_reminders
  ∧ reminder_B ∈ get_due_reminders (due_time + 60) three_reminders.
Proof.
  assert (reminder_B ∈ get_due_reminders due_time three_reminders) as Hin.
  { vm_compute. apply list_elem_of_further, list_elem_of_here. }
  split; [unfold due_time; lia|]. split; [exact Hin|].
  apply (get_due_reminders_monotone due_time (due_time + 60) three_reminders
           reminder_B); [unfold due_time; lia|exact Hin].
Defined.

End StoreFacts.

(* ===================================================================== *)
(** ** More on the reminder task                                          *)
(* ===================================================================== *)

Module TaskFacts.
Import Py Database Invariants Main Observed DatabaseFacts MainFacts StoreFacts.

(** A property of the database that registrations and deletions keep is
    kept by everything that the program does. *)
Section Preserved.

Context {World : Type}.
Variable env : Datetime.environ.
Variable fetch_user : World -> Z -> World * awaited user.
Variable user_send : World -> Z -> string -> World * awaited unit.
Variable pressed : World -> list press.
Variable P : db -> Prop.
Hypothesis P_add :
  ∀ env uid name url start lead d, P d → P (add_reminder env uid name url start lead d).2.
Hypothesis P_delete : ∀ id d, P d → P (delete_reminder id d).

Lemma preserved_registrations (d d' : db) : rtc registration d d' → P d → P d'.
Proof.
  induction 1 as [|d1 d2 d3 Hreg _ IH]; [done|].
  intros HP. apply IH. destruct Hreg. by apply P_add.
Qed.

Lemma preserved_iteration (r : due_row) (s : state) :
  P (store s) → P (store (iteration env fetch_user user_send pressed r s)).
Proof.
  intros HP.
  destruct (iteration_store env fetch_user user_send pressed r s)
    as (d1 & Hreg & ->).
  pose proof (preserved_registrations _ _ Hreg HP).
  destruct (sink_send fetch_user user_send r (world s)); auto.
Qed.

Lemma preserved_loop (l : list due_row) (s : state) :
  P (store s) →
  P (store (foldl (λ s r, iteration env fetch_user user_send pressed r s) s l)).
Proof.
  revert s. induction l as [|r l IH]; intros s HP; simpl; [done|].
  by apply IH, preserved_iteration.
Qed.

Lemma preserved_system_step (d d' : db) :
  system_step env fetch_user user_send pressed d d' → P d → P d'.
Proof.
  intros [? ? Hreg|now w ?] HP.
  - destruct Hreg. by apply P_add.
  - unfold check_reminders. by apply preserved_loop.
Qed.

Lemma preserved_system (d d' : db) :
  rtc (system_step env fetch_user user_send pressed) d d' → P d → P d'.
Proof.
  induction 1 as [|d1 d2 d3 Hstep _ IH]; [done|].
  intros HP. by eapply IH, preserved_system_step.
Qed.

End Preserved.

Lemma unique_keys_add_reminder env uid name url start lead d :
  unique_keys d → unique_keys (add_reminder env uid name url start lead d).2.
Proof.
  intros Hu. unfold add_reminder.
  destruct (reminder_time_unix env start lead) as [t|e]; [|done].
  destruct (fetchone (select_id_by_user_and_url uid url d)) as [id|] eqn:E;
    [done|].
  apply fetchone_None in E. simpl.
  assert (∀ id r, reminders d !! id = Some r →
                  ¬ (user_id r = uid ∧ contest_url r = url)) as Hno.
  { intros id r Hl H.
    assert (id ∈ select_id_by_user_and_url uid url d) as Hin
      by (apply select_id_spec; eauto).
    rewrite E in Hin. by apply not_elem_of_nil in Hin. }
  intros id1 id2 r1 r2 H1 H2 Hus Hur.
  rewrite lookup_insert_reminder in H1, H2.
  destruct (decide (id1 = next_id d)) as [->|N1],
           (decide (id2 = next_id d)) as [->|N2]; simplify_eq/=.
  - done.
  - exfalso. by eapply Hno.
  - exfalso. eapply Hno; [exact H1|]. done.
  - by eapply Hu.
Qed.

Lemma unique_keys_delete_reminder id d :
  unique_keys d → unique_keys (delete_reminder id d).
Proof.
  intros Hu id1 id2 r1 r2 H1 H2. simpl in *.
  apply lookup_delete_Some in H1 as [_ H1].
  apply lookup_delete_Some in H2 as [_ H2]. by eapply Hu.
Qed.

Lemma same_or_gone_add_reminder id x env uid name url start lead d :
  well_formed d ∧ same_or_gone id x d →
  well_formed (add_reminder env uid name url start lead d).2
  ∧ same_or_gone id x (add_reminder env uid name url start lead d).2.
Proof.
  intros [Hwf H]. split; [by apply well_formed_add_reminder|].
  destruct H as [H|H].
  - left. eapply registration_lookup; [constructor|done].
  - right. eapply registration_absent; [constructor|done].
Qed.

Lemma same_or_gone_delete_reminder id x id' d :
  well_formed d ∧ same_or_gone id x d →
  well_formed (delete_reminder id' d) ∧ same_or_gone id x (delete_reminder id' d).
Proof.
  intros [Hwf H]. split; [by apply well_formed_delete_reminder|].
  destruct H as [H|H].
  - destruct (decide (id = id')) as [->|Hne].
    + right. split; [simpl; by eapply Hwf|simpl; apply lookup_delete_eq].
    + left. simpl. by rewrite lookup_delete_ne.
  - right. by apply delete_absent.
Qed.

Section Task.

Context {World : Type}.
Variable env : Datetime.environ.
Variable fetch_user : World -> Z -> World * awaited user.
Variable user_send : World -> Z -> string -> World * awaited unit.
Variable pressed : World -> list press.

Local Abbreviation iteration := (iteration env fetch_user user_send pressed).
Local Abbreviation check_reminders :=
  (check_reminders env fetch_user user_send pressed).
Local Abbreviation reached := (reached env fetch_user user_send pressed).
Local Abbreviation sink_send := (sink_send fetch_user user_send).
Local Abbreviation system_step :=
  (system_step env fetch_user user_send pressed).
Local Abbreviation loop := (foldl (λ s r, iteration r s)).

(** X6: in every database that the program makes, from a new file on, by
    registrations and runs of the task in any order, no two rows are for
    the same user and contest URL. *)
Theorem reachable_unique_keys (d : db) :
  rtc system_step (initialize_db None) d → unique_keys d.
Proof.
  intros Hreach.
  eapply (preserved_system env fetch_user user_send pressed unique_keys);
    [| |exact Hreach|].
  - intros. by apply unique_keys_add_reminder.
  - intros. by apply unique_keys_delete_reminder.
  - intros id1 id2 r1 r2 H1. done.
Qed.

(** X7: no row is ever changed.  Whatever registrations and runs of the
    task follow, the [id] of a row has that very row (user, name, URL and
    time) or, once the row is deleted, no row at all, then and later. *)
Theorem row_never_changes (d d' : db) (id : Z) (x : row) :
  well_formed d → reminders d !! id = Some x →
  rtc system_step d d' →
  reminders d' !! id = Some x ∨ absent id d'.
Proof.
  intros Hwf Hx Hreach.
  enough (well_formed d' ∧ same_or_gone id x d') as [_ H] by exact H.
  eapply (preserved_system env fetch_user user_send pressed
            (λ d, well_formed d ∧ same_or_gone id x d)); [| |exact Hreach|].
  - intros. by apply same_or_gone_add_reminder.
  - intros. by apply same_or_gone_delete_reminder.
  - split; [done|by left].
Qed.

Ltac in_list :=
  repeat first [ apply list_elem_of_here | apply list_elem_of_further ].

(** What one iteration shows. *)
Lemma iteration_observed (r : due_row) (s : state) :
  ∃ evs, trace (iteration r s) = trace s ++ evs
    ∧ omap fetched evs = [due_user r]
    ∧ omap deleted evs
      = match sink_send r (world s) with
        | TransientFailure => []
        | _ => [due_id r]
        end
    ∧ omap sent evs `sublist_of` [message_of r]
    ∧ (sink_send r (world s) = Sent →
         Send (due_user r) (reminder_message (due_name r) (due_url r))
           (Returned ()) ∈ evs).
Proof.
  destruct r as [[[id uid] name] url].
  unfold Main.iteration, try_body, await, Main.sink_send, do_delete, emit,
    message_of, due_id, due_user, due_name, due_url; simpl.
  destruct (fetch_user (world s) uid) as [w1 [u|[|]]]; simpl.
  - destruct (truthy u) eqn:Hu; simpl.
    + destruct (user_send w1 uid (reminder_message name url))
        as [w2 [[]|[|]]]; simpl.
      * eexists [FetchUser uid (Returned u); Send uid _ (Returned ());
                 DeleteReminder id].
        split_and!; [by rewrite <- !app_assoc|done|done|done|].
        intros _. in_list.
      * eexists [FetchUser uid (Returned u); Send uid _ (Raised NotFound);
                 Print (CouldNotFindUser uid); DeleteReminder id].
        split_and!; [by rewrite <- !app_assoc|done|done|done|done].
      * eexists [FetchUser uid (Returned u); Send uid _ (Raised OtherException);
                 Print ErrorWhileSending].
        split_and!; [by rewrite <- !app_assoc|done|done|done|done].
    + eexists [FetchUser uid (Returned u); DeleteReminder id].
      split_and!; [by rewrite <- !app_assoc|done|done| |done].
      simpl. apply sublist_nil_l.
  - eexists [FetchUser uid (Raised NotFound); Print (CouldNotFindUser uid);
             DeleteReminder id].
    split_and!; [by rewrite <- !app_assoc|done|done| |done].
    simpl. apply sublist_nil_l.
  - eexists [FetchUser uid (Raised OtherException); Print ErrorWhileSending].
    split_and!; [by rewrite <- !app_assoc|done|done| |done].
    simpl. apply sublist_nil_l.
Qed.

Lemma loop_observed (l : list due_row) (s : state) :
  ∃ evs, trace (loop s l) = trace s ++ evs
    ∧ omap fetched evs = due_user <$> l
    ∧ omap deleted evs `sublist_of` (due_id <$> l)
    ∧ omap sent evs `sublist_of` (message_of <$> l).
Proof.
  revert s. induction l as [|r l IH]; intros s; simpl.
  - exists []. split_and!; [by rewrite app_nil_r|done|done|done].
  - destruct (IH (iteration r s)) as (evs' & Htr' & Hf' & Hd' & Hs').
    destruct (iteration_observed r s) as (evs & Htr & Hf & Hd & Hs & _).
    exists (evs ++ evs'). rewrite !omap_app.
    split_and!.
    + by rewrite Htr', Htr, app_assoc.
    + by rewrite Hf, Hf'.
    + apply (sublist_app _ [due_id r]); [|done].
      rewrite Hd. destruct (sink_send r (world s)); try done.
      apply sublist_nil_l.
    + by apply (sublist_app _ [message_of r]).
Qed.

(** X8: a run of the task calls [fetch_user] once for each due reminder,
    for its user, in the order of [get_due_reminders], and for no one
    else, whatever the calls answer and whatever is registered
    meanwhile. *)
Theorem check_reminders_fetches (now : Z) (w : World) (d : db) :
  omap fetched (trace (check_reminders now w d))
  = due_user <$> get_due_reminders now d.
Proof.
  unfold Main.check_reminders.
  destruct (loop_observed (get_due_reminders now d) (mk_state w d []))
    as (evs & -> & Hf & _). done.
Qed.

(** X9: in a run of the task, the direct messages sent or tried are
    messages of due reminders to their users, at most one for each, in
    the order of [get_due_reminders]; the deletions are of due reminders,
    in that order, none twice. *)
Theorem check_reminders_sends_and_deletes (now : Z) (w : World) (d : db) :
  let observed := trace (check_reminders now w d) in
  omap sent observed `sublist_of` (message_of <$> get_due_reminders now d)
  ∧ omap deleted observed `sublist_of` (due_id <$> get_due_reminders now d)
  ∧ NoDup (omap deleted observed).
Proof.
  unfold Main.check_reminders.
  destruct (loop_observed (get_due_reminders now d) (mk_state w d []))
    as (evs & -> & _ & Hd & Hs). simpl.
  split_and!; [done|done|].
  eapply sublist_NoDup; [|exact Hd]. apply due_ids_NoDup.
Qed.

(** X10: the task leaves alone what is not due: a row whose
    [reminder_time] is after the clock reading of the run is in the table
    after the run, unchanged. *)
Theorem check_reminders_keeps_undue
    (now : Z) (w : World) (d : db) (id : Z) (x : row) :
  reminders d !! id = Some x → now < reminder_time x →
  reminders (store (check_reminders now w d)) !! id = Some x.
Proof.
  intros Hx Hlt. unfold Main.check_reminders.
  apply loop_lookup_other; [|done].
  intros r Hr <-. apply due_lookup in Hr as (x' & Hx' & Hle & _).
  rewrite Hx in Hx'. injection Hx' as <-. lia.
Qed.

(** X11: what is still due when a run is over.  A row that
    [get_due_reminders] returns for the table after a run, at the clock
    reading of the run, was registered while the run was under way, or
    is a reminder of the run whose delivery failed with an exception
    other than [NotFound]. *)
Theorem still_due_after_run (now : Z) (w : World) (d : db) (x : due_row) :
  well_formed d →
  x ∈ get_due_reminders now (store (check_reminders now w d)) →
  sqlite_sequence d < due_id x
  ∨ ∃ before after,
      get_due_reminders now d = before ++ x :: after
      ∧ sink_send x (world (reached w d before)) = TransientFailure.
Proof.
  intros Hwf Hx.
  apply get_due_reminders_spec in Hx as (id & r' & Hl' & Hle' & ->).
  rewrite due_id_due_of.
  destruct (decide (sqlite_sequence d < id)) as [|Hseq]; [by left|right].
  destruct (reminders d !! id) as [r0|] eqn:Hl0.
  - destruct (decide (reminder_time r0 ≤ now)) as [Hdue|Hundue].
    + assert (due_of (id, r0) ∈ get_due_reminders now d) as Hin
        by (apply get_due_reminders_spec; eauto).
      apply list_elem_of_split in Hin as (before & after & Hsplit).
      pose proof (check_reminders_fate env fetch_user user_send pressed
                    now w d before (due_of (id, r0)) after r0 Hsplit Hl0) as Hfate.
      rewrite due_id_due_of in Hfate.
      destruct (sink_send (due_of (id, r0)) (world (reached w d before)))
        eqn:Hsink;
        try (destruct (Hfate Hwf) as [_ Hnone]; congruence).
      rewrite Hl' in Hfate. injection Hfate as ->.
      exists before, after. done.
    + assert (reminders (store (check_reminders now w d)) !! id = Some r0) as Hkept.
      { unfold Main.check_reminders. apply loop_lookup_other; [|done].
        intros r Hr <-. apply due_lookup in Hr as (x' & Hx' & Hle & _).
        rewrite Hl0 in Hx'. injection Hx' as <-. done. }
      rewrite Hl' in Hkept. injection Hkept as ->. done.
  - assert (absent id (store (check_reminders now w d))) as [_ Hnone].
    { unfold Main.check_reminders. apply loop_absent. split; [simpl; lia|done]. }
    congruence.
Qed.

(** X12: a run deletes only rows that were in the table when it began: a
    reminder registered while the run is under way gets an [id] above
    the counter of that moment, and no deletion of the run names such an
    [id]. *)
Theorem run_deletes_only_older_rows (now : Z) (w : World) (d : db) (id : Z) :
  well_formed d →
  DeleteReminder id ∈ trace (check_reminders now w d) →
  id ≤ sqlite_sequence d ∧ is_Some (reminders d !! id).
Proof.
  intros Hwf Hin. unfold Main.check_reminders in Hin.
  destruct (loop_observed (get_due_reminders now d) (mk_state w d []))
    as (evs & Htr & _ & Hd & _).
  rewrite Htr in Hin. simpl in Hin.
  assert (id ∈ omap deleted evs) as Hid
    by (apply list_elem_of_omap; by exists (DeleteReminder id)).
  eapply elem_of_sublist in Hid; [|exact Hd].
  apply list_elem_of_fmap in Hid as (r & -> & Hr).
  apply due_lookup in Hr as (x & Hx & _).
  split; [by eapply Hwf|by exists x].
Qed.

(** X13: from the press of the button to the direct message.  Take a
    reminder registered by [add_reminder], any registrations and runs of
    the task after it, and then a run at or after its [reminder_time].
    Either an earlier run has removed the reminder, for good, and this
    run does not see it; or it is one of the due reminders of this run:
    its user is fetched and, when the fetch and the sending succeed, the
    message names the contest and the URL registered, and the row is
    deleted for good. *)
Theorem registered_then_delivered
    (env0 : Datetime.environ) (uid : Z) (name url start : string) (lead t : Z)
    (now : Z) (w : World) (d d2 : db) :
  well_formed d →
  reminder_time_unix env0 start lead = Ok t →
  (∀ id r, reminders d !! id = Some r →
           ¬ (user_id r = uid ∧ contest_url r = url)) →
  t ≤ now →
  let d1 := (add_reminder env0 uid name url start lead d).2 in
  let r := (next_id d, uid, name, url) in
  rtc system_step d1 d2 →
  let run := check_reminders now w d2 in
  reminders d1 !! next_id d = Some (mk_row uid name url t)
  ∧ ((absent (next_id d) d2
      ∧ (r ∉ get_due_reminders now d2)
      ∧ absent (next_id d) (store run))
     ∨ (reminders d2 !! next_id d = Some (mk_row uid name url t)
        ∧ uid ∈ omap fetched (trace run)
        ∧ ∃ before after,
            get_due_reminders now d2 = before ++ r :: after
            ∧ (sink_send r (world (reached w d2 before)) = Sent →
                 Send uid (reminder_message name url) (Returned ())
                   ∈ trace run
                 ∧ absent (next_id d) (store run)))).
Proof.
  intros Hwf Ht Hno Hle d1 r Hreach run.
  assert (d1 = insert_reminder (mk_row uid name url t) d) as Hd1.
  { unfold d1. erewrite add_reminder_new; [done|done|by apply select_id_empty]. }
  assert (reminders d1 !! next_id d = Some (mk_row uid name url t)) as Hrow1.
  { rewrite Hd1, lookup_insert_reminder. by rewrite decide_True. }
  split; [exact Hrow1|].
  assert (well_formed d1) as Hwf1 by (by apply well_formed_add_reminder).
  assert (well_formed d2
          ∧ same_or_gone (next_id d) (mk_row uid name url t) d2) as [Hwf2 Hd2].
  { eapply (preserved_system env fetch_user user_send pressed
              (λ d', well_formed d'
                     ∧ same_or_gone (next_id d) (mk_row uid name url t) d'));
      [| |exact Hreach|].
    - intros. by apply same_or_gone_add_reminder.
    - intros. by apply same_or_gone_delete_reminder.
    - split; [done|by left]. }
  destruct Hd2 as [Hrow|Habs].
  - right. split; [exact Hrow|].
    assert (r ∈ get_due_reminders now d2) as Hin.
    { apply get_due_reminders_spec.
      exists (next_id d), (mk_row uid name url t). done. }
    split.
    + unfold run, Main.check_reminders.
      destruct (loop_observed (get_due_reminders now d2) (mk_state w d2 []))
        as (evs & -> & Hf & _).
      simpl. rewrite Hf. apply list_elem_of_fmap. exists r. done.
    + apply list_elem_of_split in Hin as (before & after & Hsplit).
      exists before, after. split; [done|]. intros Hsent. split.
      * unfold run. rewrite (check_reminders_split _ _ _ _ _ w _ _ _ _ Hsplit).
        destruct (iteration_observed r (reached w d2 before))
          as (evs & Htr & _ & _ & _ & Hsend).
        destruct (loop_observed after (iteration r (reached w d2 before)))
          as (evs' & -> & _).
        rewrite Htr. apply elem_of_app. left. apply elem_of_app. right.
        by apply Hsend.
      * pose proof (check_reminders_fate env fetch_user user_send pressed
                      now w d2 before r after _ Hsplit Hrow) as Hfate.
        rewrite Hsent in Hfate. by apply Hfate.
  - left. split; [exact Habs|]. split.
    + intros Hin. apply due_lookup in Hin as (x & Hx & _).
      destruct Habs as [_ Hnone]. unfold r, due_id in Hx. simpl in Hx.
      congruence.
    + unfold run, Main.check_reminders. by apply loop_absent.
Qed.

End Task.

Import Isoformat Scenario.

Lemma three_reminders_reachable :
  rtc (system_step utc_environ fetch_user user_send pressed)
    (initialize_db None) three_reminders.
Proof.
  unfold three_reminders, remind_me.
  eapply rtc_l; [apply step_registration; constructor|].
  eapply rtc_l; [apply step_registration; constructor|].
  eapply rtc_l; [apply step_registration; constructor|].
  apply rtc_refl.
Qed.

Lemma reachable_unique_keys_witness :
  rtc (system_step utc_environ fetch_user user_send pressed)
    (initialize_db None) three_reminders
  ∧ unique_keys three_reminders.
Proof.
  split; [exact three_reminders_reachable|].
  apply (reachable_unique_keys utc_environ fetch_user user_send pressed
           three_reminders three_reminders_reachable).
Defined.

Lemma row_never_changes_witness :
  let d' := store (check_reminders utc_environ fetch_user user_send pressed
                     due_time () three_reminders) in
  well_formed three_reminders
  ∧ reminders three_reminders !! 2 = Some (mk_row 9 "Round B" "https://x/2" 1893455100)
  ∧ rtc (system_step utc_environ fetch_user user_send pressed) three_reminders d'
  ∧ (reminders d' !! 2 = Some (mk_row 9 "Round B" "https://x/2" 1893455100)
     ∨ absent 2 d').
Proof.
  intros d'.
  assert (reminders three_reminders !! 2
          = Some (mk_row 9 "Round B" "https://x/2" 1893455100)) as Hl
    by (vm_compute; reflexivity).
  assert (rtc (system_step utc_environ fetch_user user_send pressed)
            three_reminders d') as Hstep
    by (apply rtc_once, step_check_reminders).
  split; [exact well_formed_three_reminders|].
  split; [exact Hl|]. split; [exact Hstep|].
  apply (row_never_changes utc_environ fetch_user user_send pressed
           three_reminders d' 2 _ well_formed_three_reminders Hl Hstep).
Defined.

Lemma check_reminders_keeps_undue_witness :
  reminders three_reminders !! 2 = Some (mk_row 9 "Round B" "https://x/2" 1893455100)
  ∧ due_time - 1 < 1893455100
  ∧ reminders
      (store (check_reminders utc_environ fetch_user user_send pressed
                (due_time - 1) () three_reminders)) !! 2
    = Some (mk_row 9 "Round B" "https://x/2" 1893455100).
Proof.
  assert (reminders three_reminders !! 2
          = Some (mk_row 9 "Round B" "https://x/2" 1893455100)) as Hl
    by (vm_compute; reflexivity).
  assert (due_time - 1 < reminder_time (mk_row 9 "Round B" "https://x/2" 1893455100))
    as Hlt by (unfold due_time; simpl; lia).
  split; [exact Hl|]. split; [exact Hlt|].
  apply (check_reminders_keeps_undue utc_environ fetch_user user_send pressed
           (due_time - 1) () three_reminders 2 _ Hl Hlt).
Defined.

Lemma still_due_after_run_witness :
  well_formed three_reminders
  ∧ reminder_B
      ∈ get_due_reminders due_time
          (store (check_reminders utc_environ fetch_user user_send pressed
                    due_time () three_reminders))
  ∧ (sqlite_sequence three_reminders < due_id reminder_B
     ∨ ∃ before after,
         get_due_reminders due_time three_reminders
         = before ++ reminder_B :: after
         ∧ sink_send fetch_user user_send reminder_B
             (world (reached utc_environ fetch_user user_send pressed ()
                       three_reminders before))
           = TransientFailure).
Proof.
  assert (reminder_B
            ∈ get_due_reminders due_time
                (store (check_reminders utc_environ fetch_user user_send pressed
                          due_time () three_reminders))) as Hin
    by (vm_compute; apply list_elem_of_here).
  split; [exact well_formed_three_reminders|]. split; [exact Hin|].
  apply (still_due_after_run utc_environ fetch_user user_send pressed
           due_time () three_reminders reminder_B
           well_formed_three_reminders Hin).
Defined.

Lemma run_deletes_only_older_rows_witness :
  well_formed three_reminders
  ∧ DeleteReminder 3
      ∈ trace (check_reminders utc_environ fetch_user user_send pressed
                 due_time () three_reminders)
  ∧ 3 ≤ sqlite_sequence three_reminders
  ∧ is_Some (reminders three_reminders !! 3).
Proof.
  assert (DeleteReminder 3
            ∈ trace (check_reminders utc_environ fetch_user user_send pressed
                       due_time () three_reminders)) as Hin.
  { vm_compute. do 2 apply list_elem_of_further. apply list_elem_of_here. }
  split; [exact well_formed_three_reminders|]. split; [exact Hin|].
  apply (run_deletes_only_older_rows utc_environ fetch_user user_send pressed
           due_time () three_reminders 3 well_formed_three_reminders Hin).
Defined.

Lemma registered_then_delivered_witness :
  let d1 := (add_reminder utc_environ 8 "Round D" "https://x/42"
               "2030-01-01T00:00:00Z" 15 three_reminders).2 in
  let d2 := (add_reminder utc_environ 12 "Round E" "https://x/5"
               "2030-03-01T00:00:00Z" 15
               (store (check_reminders utc_environ fetch_user user_send pressed
                         (due_time - 60) () d1))).2 in
  let r := (next_id three_reminders, 8, "Round D", "https://x/42")%string in
  let run := check_reminders utc_environ fetch_user user_send pressed
               (due_time + 60) () d2 in
  well_formed three_reminders
  ∧ reminder_time_unix utc_environ "2030-01-01T00:00:00Z" 15 = Ok 1893455100
  ∧ 1893455100 ≤ due_time + 60
  ∧ rtc (system_step utc_environ fetch_user user_send pressed) d1 d2
  ∧ reminders d1 !! next_id three_reminders
    = Some (mk_row 8 "Round D" "https://x/42" 1893455100)
  ∧ ((absent (next_id three_reminders) d2
      ∧ (r ∉ get_due_reminders (due_time + 60) d2)
      ∧ absent (next_id three_reminders) (store run))
     ∨ (reminders d2 !! next_id three_reminders
        = Some (mk_row 8 "Round D" "https://x/42" 1893455100)
        ∧ 8 ∈ omap fetched (trace run)
        ∧ ∃ before after,
            get_due_reminders (due_time + 60) d2 = before ++ r :: after
            ∧ (sink_send fetch_user user_send r
                 (world (reached utc_environ fetch_user user_send pressed ()
                           d2 before))
               = Sent →
                 Send 8 (reminder_message "Round D" "https://x/42")
                   (Returned ())
                   ∈ trace run
                 ∧ absent (next_id three_reminders) (store run)))).
Proof.
  intros d1 d2 r run.
  assert (reminder_time_unix utc_environ "2030-01-01T00:00:00Z" 15
          = Ok 1893455100) as Ht by (vm_compute; reflexivity).
  assert (1893455100 ≤ due_time + 60) as Hle by (unfold due_time; lia).
  assert (rtc (system_step utc_environ fetch_user user_send pressed) d1 d2)
    as Hreach.
  { eapply rtc_l; [apply step_check_reminders|].
    eapply rtc_l; [apply step_registration; constructor|].
    apply rtc_refl. }
  split; [exact well_formed_three_reminders|].
  split; [exact Ht|]. split; [exact Hle|]. split; [exact Hreach|].
  apply (registered_then_delivered utc_environ fetch_user user_send pressed
           utc_environ 8 "Round D" "https://x/42" "2030-01-01T00:00:00Z" 15
           1893455100 (due_time + 60) () three_reminders d2
           well_formed_three_reminders Ht
           (three_reminders_without_user_8 "https://x/42") Hle Hreach).
Defined.

End TaskFacts.

(* ===================================================================== *)
(** ** The contest list and the "Remind Me" button                        *)
(* ===================================================================== *)

Module ViewFacts.
Import Py Datetime Isoformat Database Main View Scenario.
Import DatetimeFacts DatabaseFacts StoreFacts.

(** *** [str] and [int] on integers *)

Local Abbreviation digits_of u := (of_string (NilEmpty.string_of_uint u)).
Local Abbreviation read n l :=
  (fold_left (λ acc c, 10 * acc + digit_val c) l n).

Lemma uint_chars_digits (u : Decimal.uint) : Forall isdig (digits_of u).
Proof. induction u; simpl; constructor; done. Qed.

Lemma uint_chars_acc (u : Decimal.uint) (acc : positive) :
  read (Z.pos acc) (digits_of u) = Z.pos (Pos.of_uint_acc u acc).
Proof.
  revert acc. induction u; intros acc; simpl; [done|..];
    match goal with
    | |- context [digit_val ?c] =>
        let v := eval vm_compute in (digit_val c) in change (digit_val c) with v
    end;
    rewrite <- IHu; f_equal; lia.
Qed.

Lemma uint_chars_value (u : Decimal.uint) :
  read 0 (digits_of u) = Z.of_uint u.
Proof.
  unfold Z.of_uint. induction u; simpl; [done|..];
    match goal with
    | |- context [digit_val ?c] =>
        let v := eval vm_compute in (digit_val c) in change (digit_val c) with v
    end; simpl; [exact IHu|..]; apply (uint_chars_acc u).
Qed.

Lemma nilzero_chars (u : Decimal.uint) :
  Forall isdig (of_string (NilZero.string_of_uint u))
  ∧ of_string (NilZero.string_of_uint u) ≠ []
  ∧ decimal (of_string (NilZero.string_of_uint u)) = Z.of_uint u.
Proof.
  unfold decimal. destruct u;
    try (split_and!; [apply (uint_chars_digits (_ u))|done|apply (uint_chars_value (_ u))]).
  split_and!; [repeat constructor; done|done|done].
Qed.

Lemma int_digits_signed (l : str) :
  l ≠ [] → Forall isdig l → int ("-"%char :: l) = Some (- decimal l).
Proof.
  intros Hne Hall. unfold int.
  assert (strip ("-"%char :: l) = "-"%char :: l) as ->.
  { unfold strip. change (lstrip ("-"%char :: l)) with ("-"%char :: l).
    destruct (rev ("-"%char :: l)) as [|c' l'] eqn:E.
    - apply (f_equal (@length _)) in E. rewrite length_rev in E. done.
    - assert (isdig c') as Hc'.
      { simpl in E. destruct (rev l) as [|c'' l''] eqn:E'.
        - apply (f_equal (@length _)) in E'. rewrite length_rev in E'.
          destruct l; done.
        - simpl in E. injection E as <- _.
          eapply Forall_forall; [exact Hall|]. apply list_elem_of_In, in_rev.
          rewrite E'. by left. }
      rewrite lstrip_isdig by done. rewrite <- E. apply rev_involutive. }
  change (chr_eqb "-" "+") with false. change (chr_eqb "-" "-") with true.
  cbv iota.
  destruct l as [|c l]; [done|].
  assert (isdig c) as Hc by (by inversion Hall).
  unfold isdig in Hc. rewrite Hc.
  rewrite digits_value_digits by done. unfold decimal. simpl.
  f_equal; lia.
Qed.

(** [int(str(n)) == n] *)
Lemma int_str_of_int (n : Z) : int (of_string (str_of_int n)) = Some n.
Proof.
  unfold str_of_int. rewrite <- (DecimalZ.of_to n) at 2.
  destruct (Z.to_int n) as [u|u]; simpl NilZero.string_of_int.
  - destruct (nilzero_chars u) as (Hd & Hne & Hv).
    rewrite int_digits by done. simpl. by rewrite Hv.
  - destruct (nilzero_chars u) as (Hd & Hne & Hv).
    change (of_string (String "-" ?s)) with ("-"%char :: of_string s).
    rewrite int_digits_signed by done. simpl. by rewrite Hv.
Qed.

Lemma str_of_int_inj (m n : Z) : str_of_int m = str_of_int n → m = n.
Proof.
  intros H. pose proof (int_str_of_int m) as Hm. rewrite H in Hm.
  rewrite int_str_of_int in Hm. congruence.
Qed.

Lemma str_of_int_not_empty (n : Z) : str_of_int n ≠ EmptyString.
Proof.
  intros H. pose proof (int_str_of_int n) as Hn. rewrite H in Hn. done.
Qed.

Lemma of_string_app (a b : string) :
  of_string (a +:+ b) = of_string a ++ of_string b.
Proof. induction a as [|c a IH]; simpl; [done|]. by rewrite <- IH. Qed.

Lemma shown_seconds_text (n : Z) :
  shown_seconds ("<t:" +:+ str_of_int n +:+ ":R>") = Some n.
Proof.
  unfold shown_seconds.
  change (of_string ("<t:" +:+ ?s))
    with ("<"%char :: "t"%char :: ":"%char :: of_string s).
  rewrite of_string_app, rev_app_distr. simpl.
  rewrite rev_involutive. apply int_str_of_int.
Qed.

Lemma format_time_start (env : environ) (time_str : string) :
  format_time env time_str
  = match start_time_unix env time_str with
    | Ok t => Ok ("<t:" +:+ str_of_int t +:+ ":R>")%string
    | Raise e => Raise e
    end.
Proof.
  unfold format_time, start_time_unix.
  destruct (fromisoformat (replace_Z time_str)) as [dt|e]; simpl; [|done].
  destruct (timestamp env dt) as [ts|e]; simpl; done.
Qed.

(** X14: the time that the list shows for a contest is the time that the
    reminder counts from.  [format_time] and [add_reminder] read the
    start time in the same way: when one raises, the other raises the
    same exception; otherwise the text is [<t:N:R>] for the start [N] in
    seconds since the epoch, and the reminder of the button is set to
    [N - 900]. *)
Theorem format_time_shows_start (env : environ) (time_str : string) :
  match format_time env time_str with
  | Ok text =>
      ∃ n, text = ("<t:" +:+ str_of_int n +:+ ":R>")%string
           ∧ shown_seconds text = Some n
           ∧ start_time_unix env time_str = Ok n
           ∧ reminder_time_unix env time_str 15 = Ok (n - 900)
  | Raise e =>
      start_time_unix env time_str = Raise e
      ∧ ∀ uid name url d,
          add_reminder env uid name url time_str 15 d = (Raise e, d)
  end.
Proof.
  rewrite format_time_start. unfold add_reminder, reminder_time_unix.
  destruct (start_time_unix env time_str) as [t|e]; simpl.
  - exists t. split_and!; [done|apply shown_seconds_text|done|done].
  - done.
Qed.

(** *** The dict of the view and its dropdown *)

Lemma dict_get_elem_of (key : string) (d : list (string * contest)) (c : contest) :
  dict_get key d = Some c → (key, c) ∈ d.
Proof.
  induction d as [|[k c'] d IH]; simpl; [done|].
  destruct (String.eqb_spec k key) as [->|Hne].
  - intros [= ->]. apply list_elem_of_here.
  - intros H. apply list_elem_of_further. by apply IH.
Qed.

Lemma elem_of_dict_get (key : string) (d : list (string * contest)) (c : contest) :
  NoDup d.*1 → (key, c) ∈ d → dict_get key d = Some c.
Proof.
  induction d as [|[k c'] d IH]; simpl; intros Hnd Hin.
  - by apply elem_of_nil in Hin.
  - apply NoDup_cons in Hnd as [Hk Hnd].
    apply elem_of_cons in Hin as [[= -> ->]|Hin].
    + by rewrite String.eqb_refl.
    + destruct (String.eqb_spec k key) as [->|Hne]; [|by apply IH].
      exfalso. apply Hk. apply list_elem_of_fmap. by exists (key, c).
Qed.

Lemma elem_of_enumerate_contests (cs : list contest) (key : string) (c : contest) :
  (key, c) ∈ enumerate_contests cs
  ↔ ∃ i : nat, (i < 25)%nat ∧ key = str_of_int (Z.of_nat i) ∧ cs !! i = Some c.
Proof.
  unfold enumerate_contests. rewrite elem_of_lookup_imap. split.
  - intros (i & c' & [= -> ->] & Hl).
    apply lookup_take_Some in Hl as [Hl Hi]. eauto.
  - intros (i & Hi & -> & Hl). exists i, c. split; [done|].
    by apply lookup_take_Some.
Qed.

Lemma enumerate_contests_keys (cs : list contest) :
  NoDup (enumerate_contests cs).*1.
Proof.
  apply NoDup_alt. intros i j key Hi Hj. unfold enumerate_contests in *.
  rewrite list_lookup_fmap, list_lookup_imap in Hi, Hj.
  destruct (take 25 cs !! i); [|done]. destruct (take 25 cs !! j); [|done].
  simpl in *. injection Hi as <-. injection Hj as Hj.
  apply str_of_int_inj in Hj. lia.
Qed.

Lemma dict_get_enumerate_contests (cs : list contest) (key : string) (c : contest) :
  dict_get key (enumerate_contests cs) = Some c
  ↔ ∃ i : nat, (i < 25)%nat ∧ key = str_of_int (Z.of_nat i) ∧ cs !! i = Some c.
Proof.
  rewrite <- elem_of_enumerate_contests. split.
  - apply dict_get_elem_of.
  - apply elem_of_dict_get, enumerate_contests_keys.
Qed.

(** The option that [create_dropdown] makes of an item, for the start
    [n] of its contest. *)
Local Abbreviation option_of kc n :=
  (mk_select_option (resource kc.2 +:+ ": " +:+ event kc.2) kc.1
     ("Starts " +:+ "<t:" +:+ str_of_int n +:+ ":R>")).

Lemma create_dropdown_Ok (env : environ) (items : list (string * contest))
    (options : list select_option) :
  create_dropdown env items = Ok options
  ↔ Forall2 (λ kc o, ∃ n, start_time_unix env (start kc.2) = Ok n
                          ∧ o = option_of kc n) items options.
Proof.
  revert options. induction items as [|[k c] items IH]; intros options; simpl.
  - split; [intros [= <-]; constructor|by intros ->%Forall2_nil_inv_l].
  - rewrite format_time_start.
    destruct (start_time_unix env (start c)) as [n|e] eqn:E; simpl.
    + destruct (create_dropdown env items) as [options'|e] eqn:E'; simpl.
      * split.
        -- intros [= <-]. constructor; [eauto|by apply IH].
        -- intros (o & options'' & (n' & Hn' & ->) & Hall & ->)%Forall2_cons_inv_l.
           simpl in Hn'. rewrite E in Hn'. injection Hn' as <-.
           apply IH in Hall. by injection Hall as <-.
      * split; [done|].
        intros (o & options'' & _ & Hall & ->)%Forall2_cons_inv_l.
        by apply IH in Hall.
    + split; [done|].
      intros (o & options'' & (n' & Hn' & _) & _)%Forall2_cons_inv_l.
      simpl in Hn'. congruence.
Qed.

Lemma create_dropdown_Ok_iff (env : environ) (items : list (string * contest)) :
  (∃ options, create_dropdown env items = Ok options)
  ↔ ∀ kc, kc ∈ items → ∃ n, start_time_unix env (start kc.2) = Ok n.
Proof.
  induction items as [|[k c] items IH]; simpl.
  - split; [intros _ kc Hin; by apply elem_of_nil in Hin|eauto].
  - rewrite format_time_start.
    destruct (start_time_unix env (start c)) as [n|e] eqn:E; simpl.
    + destruct (create_dropdown env items) as [options'|e] eqn:E'; simpl.
      * split; [|eauto]. intros _ kc [->|Hin]%elem_of_cons; [eauto|].
        apply IH; eauto.
      * split; [by intros [? ?]|]. intros H. exfalso.
        destruct (proj2 IH) as [? ?]; [|done].
        intros kc Hin. apply H. by apply list_elem_of_further.
    + split; [by intros [? ?]|]. intros H. exfalso.
      destruct (H (k, c)) as [n Hn]; [apply list_elem_of_here|].
      simpl in Hn. congruence.
Qed.

Lemma new_view_Ok (env : environ) (cs : list contest) (v : contest_view) :
  new_view env cs = Ok v →
  contests_data v = enumerate_contests cs
  ∧ selected_contest_key v = None
  ∧ create_dropdown env (enumerate_contests cs) = Ok (dropdown v).
Proof.
  unfold new_view.
  destruct (create_dropdown env (enumerate_contests cs)) as [options|e];
    simpl; [|done].
  by intros [= <-].
Qed.

Lemma dropdown_values (env : environ) (items : list (string * contest))
    (options : list select_option) :
  create_dropdown env items = Ok options → value <$> options = items.*1.
Proof.
  intros H%create_dropdown_Ok.
  induction H as [|kc o items options Ho _ IH]; [done|].
  destruct Ho as (n & _ & ->). rewrite !fmap_cons. by rewrite IH.
Qed.

Lemma dropdown_option (env : environ) (cs : list contest) (v : contest_view)
    (o : select_option) :
  new_view env cs = Ok v → o ∈ dropdown v →
  ∃ (i : nat) c n,
    (i < 25)%nat ∧ cs !! i = Some c
    ∧ start_time_unix env (start c) = Ok n
    ∧ o = option_of (str_of_int (Z.of_nat i), c) n
    ∧ dict_get (value o) (contests_data v) = Some c.
Proof.
  intros (Hdata & _ & Hdrop)%new_view_Ok Ho.
  apply create_dropdown_Ok in Hdrop.
  apply list_elem_of_lookup in Ho as [j Hj].
  destruct (Forall2_lookup_r _ _ _ _ _ Hdrop Hj)
    as ([k c] & Hkc & n & Hn & ->).
  apply list_elem_of_lookup_2 in Hkc.
  pose proof Hkc as (i & Hi & -> & Hl)%elem_of_enumerate_contests.
  exists i, c, n. split_and!; [done|done|done|done|].
  simpl. rewrite Hdata. apply dict_get_enumerate_contests. eauto.
Qed.

Lemma dropdown_length (env : environ) (cs : list contest) (v : contest_view) :
  new_view env cs = Ok v → length (dropdown v) = Nat.min 25 (length cs).
Proof.
  intros (_ & _ & Hdrop)%new_view_Ok.
  rewrite <- (length_fmap value), (dropdown_values _ _ _ Hdrop), length_fmap.
  unfold enumerate_contests. by rewrite length_imap, length_take.
Qed.

(** X15: the view of a list of contests holds its first 25 and no more:
    the key [str(i)] stands for the contest at index [i < 25], no other
    key is in the dict; the dropdown has one option for each key, in
    order, with values that are pairwise different and none of them
    false for [not]; nothing is selected. *)
Theorem view_holds_first_25 (env : environ) (cs : list contest) (v : contest_view) :
  new_view env cs = Ok v →
  selected_contest_key v = None
  ∧ length (dropdown v) = Nat.min 25 (length cs)
  ∧ (∀ key c, dict_get key (contests_data v) = Some c
              ↔ ∃ i : nat, (i < 25)%nat ∧ key = str_of_int (Z.of_nat i)
                           ∧ cs !! i = Some c)
  ∧ value <$> dropdown v = (contests_data v).*1
  ∧ NoDup (value <$> dropdown v)
  ∧ ∀ o, o ∈ dropdown v → not_key (Some (value o)) = false.
Proof.
  intros Hv. pose proof Hv as (Hdata & Hsel & Hdrop)%new_view_Ok.
  pose proof (dropdown_values _ _ _ Hdrop) as Hvalues.
  split_and!.
  - done.
  - by eapply dropdown_length.
  - intros key c. rewrite Hdata. apply dict_get_enumerate_contests.
  - by rewrite Hdata.
  - rewrite Hvalues. apply enumerate_contests_keys.
  - intros o Ho.
    destruct (dropdown_option _ _ _ _ Hv Ho) as (i & c & n & _ & _ & _ & -> & _).
    simpl. destruct (str_of_int (Z.of_nat i)) eqn:E; [|done].
    by apply str_of_int_not_empty in E.
Qed.

(** X16: the view is made exactly when the start time of every one of the
    first 25 contests can be read; one that cannot makes [ContestView]
    raise, and a contest after the 25th makes no difference. *)
Theorem new_view_needs_first_25_starts (env : environ) (cs : list contest) :
  (∃ v, new_view env cs = Ok v)
  ↔ ∀ i c, (i < 25)%nat → cs !! i = Some c →
           ∃ n, start_time_unix env (start c) = Ok n.
Proof.
  split.
  - intros [v (_ & _ & Hdrop)%new_view_Ok] i c Hi Hl.
    assert (∃ options, create_dropdown env (enumerate_contests cs) = Ok options)
      as Hex by eauto.
    apply create_dropdown_Ok_iff with (kc := (str_of_int (Z.of_nat i), c)) in Hex;
      [done|].
    apply elem_of_enumerate_contests. eauto.
  - intros H. unfold new_view.
    destruct (proj2 (create_dropdown_Ok_iff env (enumerate_contests cs)))
      as [options ->]; [|simpl; eauto].
    intros [k c] (i & Hi & -> & Hl)%elem_of_enumerate_contests. simpl. eauto.
Qed.

Lemma view_holds_first_25_witness :
  new_view utc_environ Listing.two_contests = Ok Listing.two_contests_view
  ∧ length (dropdown Listing.two_contests_view) = 2%nat
  ∧ dict_get "1" (contests_data Listing.two_contests_view) = Some Listing.round_B
  ∧ NoDup (value <$> dropdown Listing.two_contests_view).
Proof.
  assert (new_view utc_environ Listing.two_contests = Ok Listing.two_contests_view)
    as Hv by (vm_compute; reflexivity).
  destruct (view_holds_first_25 utc_environ Listing.two_contests
              Listing.two_contests_view Hv)
    as (_ & Hlen & Hget & _ & Hnd & _).
  split; [exact Hv|]. split; [exact Hlen|]. split; [|exact Hnd].
  apply Hget. exists 1%nat. split; [lia|]. split; reflexivity.
Defined.

(** *** Selecting a contest and pressing the button *)

Lemma not_key_Some (key : string) : key ≠ EmptyString → not_key (Some key) = false.
Proof. by destruct key. Qed.

Lemma remind_button_selected (env : environ) (uid : Z) (v : contest_view)
    (key : string) (c : contest) (d : db) :
  selected_contest_key v = Some key → key ≠ EmptyString →
  dict_get key (contests_data v) = Some c →
  remind_button env uid v d
  = match Main.remind_button env (press_of uid c) d with
    | (Raise e, d') => (Failed (Escaped e), d')
    | (Ok true, d') => (Done (WillRemind (event c)), d')
    | (Ok false, d') => (Done AlreadySubscribed, d')
    end.
Proof.
  intros Hsel Hkey Hget. unfold remind_button.
  rewrite Hsel, not_key_Some by done. simpl. by rewrite Hget.
Qed.

Lemma press_new (env : environ) (uid : Z) (c : contest) (n : Z) (d : db) :
  start_time_unix env (start c) = Ok n →
  (∀ id r, reminders d !! id = Some r →
           ¬ (user_id r = uid ∧ contest_url r = href c)) →
  Main.remind_button env (press_of uid c) d
  = (Ok true, insert_reminder (mk_row uid (event c) (href c) (n - 900)) d).
Proof.
  intros Hn Hno. unfold Main.remind_button, press_of. simpl.
  apply add_reminder_new; [|by apply select_id_empty].
  unfold reminder_time_unix. rewrite Hn. done.
Qed.

Lemma press_again (env : environ) (uid : Z) (c : contest) (n : Z) (d : db) :
  start_time_unix env (start c) = Ok n →
  (∃ id r, reminders d !! id = Some r ∧ user_id r = uid ∧ contest_url r = href c) →
  Main.remind_button env (press_of uid c) d = (Ok false, d).
Proof.
  intros Hn (id & r & Hr). unfold Main.remind_button, press_of. simpl.
  eapply (add_reminder_exists _ _ _ _ _ _ _ (n - 900) id).
  - unfold reminder_time_unix. rewrite Hn. done.
  - apply select_id_spec. eauto.
Qed.

(** X17: selecting an option of the dropdown of a view never fails: the
    value is a key of the dict, the start time was read when the view
    was made.  The selection is recorded and the message shows the
    contest of that option: same title as the label, its link, the same
    start as the option, its duration in whole hours. *)
Theorem selection_shows_contest
    (env : environ) (cs : list contest) (v : contest_view) (o : select_option) :
  new_view env cs = Ok v → o ∈ dropdown v →
  ∃ (i : nat) c n,
    (i < 25)%nat ∧ cs !! i = Some c
    ∧ value o = str_of_int (Z.of_nat i)
    ∧ description o = ("Starts <t:" +:+ str_of_int n +:+ ":R>")%string
    ∧ start_time_unix env (start c) = Ok n
    ∧ dropdown_callback env (value o) v
      = (mk_contest_view (contests_data v) (Some (value o)) (dropdown v),
         Done
           (mk_embed (label o) (href c)
              ("This contest is scheduled to start "
               +:+ ("<t:" +:+ str_of_int n +:+ ":R>") +:+ ".")
              [("Duration", str_of_int (duration c / 3600) +:+ " hours");
               ("Platform", resource c)]
              "Click the button below to be reminded 15 minutes before it starts."))%string.
Proof.
  intros Hv Ho.
  destruct (dropdown_option _ _ _ _ Hv Ho) as (i & c & n & Hi & Hl & Hn & -> & Hget).
  exists i, c, n. split_and!; [done|done|done|done|done|].
  unfold dropdown_callback. simpl in *. rewrite Hget.
  rewrite format_time_start, Hn. done.
Qed.

Lemma selection_shows_contest_witness :
  new_view utc_environ Listing.two_contests = Ok Listing.two_contests_view
  ∧ mk_select_option "atcoder.jp: Round B" "1" "Starts <t:1893587400:R>"
      ∈ dropdown Listing.two_contests_view
  ∧ ∃ (i : nat) c n,
      (i < 25)%nat ∧ Listing.two_contests !! i = Some c
      ∧ "1"%string = str_of_int (Z.of_nat i)
      ∧ "Starts <t:1893587400:R>"%string
        = ("Starts <t:" +:+ str_of_int n +:+ ":R>")%string
      ∧ start_time_unix utc_environ (start c) = Ok n
      ∧ dropdown_callback utc_environ "1" Listing.two_contests_view
        = (mk_contest_view (contests_data Listing.two_contests_view) (Some "1")
             (dropdown Listing.two_contests_view),
           Done
             (mk_embed "atcoder.jp: Round B" (href c)
                ("This contest is scheduled to start "
                 +:+ ("<t:" +:+ str_of_int n +:+ ":R>") +:+ ".")
                [("Duration", str_of_int (duration c / 3600) +:+ " hours");
                 ("Platform", resource c)]
                "Click the button below to be reminded 15 minutes before it starts."))%string.
Proof.
  assert (new_view utc_environ Listing.two_contests = Ok Listing.two_contests_view)
    as Hv by (vm_compute; reflexivity).
  assert (mk_select_option "atcoder.jp: Round B" "1" "Starts <t:1893587400:R>"
            ∈ dropdown Listing.two_contests_view) as Ho
    by (apply list_elem_of_further, list_elem_of_here).
  split; [exact Hv|]. split; [exact Ho|].
  apply (selection_shows_contest utc_environ Listing.two_contests
           Listing.two_contests_view _ Hv Ho).
Defined.

(** X18: the button on a view.  Before any selection it answers "Please
    select" and writes nothing.  After the selection of an option it
    never raises: for a user without a reminder for the link of the
    contest it registers one, for the start that the option shows less
    900 seconds, and confirms with the name of the contest; for a user
    who has one it answers "already subscribed" and writes nothing. *)
Theorem press_registers_selected
    (env : environ) (cs : list contest) (v : contest_view) (o : select_option)
    (uid : Z) (d : db) :
  new_view env cs = Ok v → o ∈ dropdown v →
  let selected := (dropdown_callback env (value o) v).1 in
  remind_button env uid v d = (Done PleaseSelect, d)
  ∧ ∃ c n,
      dict_get (value o) (contests_data v) = Some c
      ∧ description o = ("Starts <t:" +:+ str_of_int n +:+ ":R>")%string
      ∧ ((∀ id r, reminders d !! id = Some r →
                  ¬ (user_id r = uid ∧ contest_url r = href c)) →
           remind_button env uid selected d
           = (Done (WillRemind (event c)),
              insert_reminder (mk_row uid (event c) (href c) (n - 900)) d))
      ∧ ((∃ id r, reminders d !! id = Some r ∧ user_id r = uid
                  ∧ contest_url r = href c) →
           remind_button env uid selected d = (Done AlreadySubscribed, d)).
Proof.
  intros Hv Ho selected.
  pose proof Hv as (_ & Hsel & _)%new_view_Ok.
  split; [unfold remind_button; by rewrite Hsel|].
  destruct (dropdown_option _ _ _ _ Hv Ho) as (i & c & n & Hi & Hl & Hn & Heq & Hget).
  exists c, n. split; [done|]. split; [by rewrite Heq|].
  assert (value o ≠ EmptyString) as Hkey.
  { rewrite Heq. simpl. apply str_of_int_not_empty. }
  assert (∀ d, remind_button env uid selected d
               = match Main.remind_button env (press_of uid c) d with
                 | (Raise e, d') => (Failed (Escaped e), d')
                 | (Ok true, d') => (Done (WillRemind (event c)), d')
                 | (Ok false, d') => (Done AlreadySubscribed, d')
                 end) as Hpress.
  { assert (selected
            = mk_contest_view (contests_data v) (Some (value o)) (dropdown v))
      as ->.
    { unfold selected, dropdown_callback. simpl. rewrite Hget.
      by destruct (format_time env (start c)). }
    intros d0. by apply (remind_button_selected _ _ _ (value o)). }
  split.
  - intros Hno. by rewrite Hpress, (press_new _ _ _ n).
  - intros Hyes. by rewrite Hpress, (press_again _ _ _ n).
Qed.

Lemma press_registers_selected_witness :
  let o := mk_select_option "atcoder.jp: Round B" "1" "Starts <t:1893587400:R>" in
  let selected := (dropdown_callback utc_environ "1" Listing.two_contests_view).1 in
  new_view utc_environ Listing.two_contests = Ok Listing.two_contests_view
  ∧ o ∈ dropdown Listing.two_contests_view
  ∧ remind_button utc_environ 8 Listing.two_contests_view three_reminders
    = (Done PleaseSelect, three_reminders)
  ∧ ∃ c n,
      dict_get "1" (contests_data Listing.two_contests_view) = Some c
      ∧ "Starts <t:1893587400:R>"%string
        = ("Starts <t:" +:+ str_of_int n +:+ ":R>")%string
      ∧ ((∀ id r, reminders three_reminders !! id = Some r →
                  ¬ (user_id r = 8 ∧ contest_url r = href c)) →
           remind_button utc_environ 8 selected three_reminders
           = (Done (WillRemind (event c)),
              insert_reminder (mk_row 8 (event c) (href c) (n - 900))
                three_reminders))
      ∧ ((∃ id r, reminders three_reminders !! id = Some r ∧ user_id r = 8
                  ∧ contest_url r = href c) →
           remind_button utc_environ 8 selected three_reminders
           = (Done AlreadySubscribed, three_reminders)).
Proof.
  intros o selected.
  assert (new_view utc_environ Listing.two_contests = Ok Listing.two_contests_view)
    as Hv by (vm_compute; reflexivity).
  assert (o ∈ dropdown Listing.two_contests_view) as Ho
    by (apply list_elem_of_further, list_elem_of_here).
  split; [exact Hv|]. split; [exact Ho|].
  apply (press_registers_selected utc_environ Listing.two_contests
           Listing.two_contests_view o 8 three_reminders Hv Ho).
Defined.

(** X19: one reminder for a user and a link, whatever list it is pressed
    from.  When a user has registered a contest, a press for a contest
    with the same link (the same entry of a later list, or another entry,
    with another name or start time) answers "already subscribed" and
    leaves the row as it is, with the name and the time of the first
    press. *)
Theorem same_link_one_reminder
    (env1 env2 : environ) (uid : Z) (v1 v2 : contest_view)
    (key1 key2 : string) (c1 c2 : contest) (n1 n2 : Z) (d : db) :
  selected_contest_key v1 = Some key1 → key1 ≠ EmptyString →
  dict_get key1 (contests_data v1) = Some c1 →
  selected_contest_key v2 = Some key2 → key2 ≠ EmptyString →
  dict_get key2 (contests_data v2) = Some c2 →
  href c1 = href c2 →
  start_time_unix env1 (start c1) = Ok n1 →
  start_time_unix env2 (start c2) = Ok n2 →
  (∀ id r, reminders d !! id = Some r →
           ¬ (user_id r = uid ∧ contest_url r = href c1)) →
  ∃ d1,
    remind_button env1 uid v1 d = (Done (WillRemind (event c1)), d1)
    ∧ remind_button env2 uid v2 d1 = (Done AlreadySubscribed, d1)
    ∧ ∀ id, reminders d1 !! id
            = if decide (id = next_id d)
              then Some (mk_row uid (event c1) (href c1) (n1 - 900))
              else reminders d !! id.
Proof.
  intros Hs1 Hk1 Hg1 Hs2 Hk2 Hg2 Hhref Hn1 Hn2 Hno.
  exists (insert_reminder (mk_row uid (event c1) (href c1) (n1 - 900)) d).
  split_and!.
  - by rewrite (remind_button_selected _ _ _ key1 c1), (press_new _ _ _ n1).
  - rewrite (remind_button_selected _ _ _ key2 c2) by done.
    rewrite (press_again _ _ _ n2); [done|done|].
    exists (next_id d), (mk_row uid (event c1) (href c1) (n1 - 900)).
    split; [|done]. rewrite lookup_insert_reminder. by rewrite decide_True.
  - intros id. apply lookup_insert_reminder.
Qed.

Lemma same_link_one_reminder_witness :
  let v1 := (dropdown_callback utc_environ "1" Listing.two_contests_view).1 in
  let later := mk_contest "atcoder.jp" "Round B (moved)" "https://x/2"
                 "2030-01-03T12:30:00+09:00" 6000 in
  let v2 := mk_contest_view [("0", later)]%string (Some "0"%string) [] in
  start_time_unix utc_environ (start Listing.round_B) = Ok 1893587400
  ∧ start_time_unix kolkata_environ (start later) = Ok 1893641400
  ∧ ∃ d1,
      remind_button utc_environ 8 v1 three_reminders
      = (Done (WillRemind "Round B"), d1)
      ∧ remind_button kolkata_environ 8 v2 d1 = (Done AlreadySubscribed, d1)
      ∧ ∀ id, reminders d1 !! id
              = if decide (id = next_id three_reminders)
                then Some (mk_row 8 "Round B" "https://x/2" (1893587400 - 900))
                else reminders three_reminders !! id.
Proof.
  intros v1 later v2.
  assert (start_time_unix utc_environ (start Listing.round_B) = Ok 1893587400)
    as Hn1 by (vm_compute; reflexivity).
  assert (start_time_unix kolkata_environ (start later) = Ok 1893641400)
    as Hn2 by (vm_compute; reflexivity).
  assert (selected_contest_key v1 = Some "1"%string) as Hs1
    by (vm_compute; reflexivity).
  assert (dict_get "1" (contests_data v1) = Some Listing.round_B) as Hg1
    by (vm_compute; reflexivity).
  split; [exact Hn1|]. split; [exact Hn2|].
  apply (same_link_one_reminder utc_environ kolkata_environ 8 v1 v2 "1" "0"
           Listing.round_B later 1893587400 1893641400 three_reminders
           Hs1 ltac:(discriminate) Hg1 eq_refl ltac:(discriminate) eq_refl
           eq_refl Hn1 Hn2 (three_reminders_without_user_8 "https://x/2")).
Defined.

(** *** The [/upcoming] command *)

(** X20: what [/upcoming] answers, from the response of the API: "could
    not fetch" for a status other than 200 and for a [null] under
    ["objects"]; "no upcoming contests" for an empty list and for a body
    without ["objects"]; otherwise the view of the list, with between 1
    and 25 options, or the exception that making the view raises. *)
Theorem upcoming_replies (env : environ) (r : response) :
  (upcoming env r = Ok CouldNotFetch
   ↔ status r ≠ 200 ∨ body_objects r = Null)
  ∧ (upcoming env r = Ok NoneUpcoming
     ↔ status r = 200
       ∧ (body_objects r = Missing ∨ body_objects r = Objects []))
  ∧ (∀ v, upcoming env r = Ok (Offered v)
          ↔ ∃ cs, status r = 200 ∧ body_objects r = Objects cs ∧ cs ≠ []
                  ∧ new_view env cs = Ok v)
  ∧ (∀ e, upcoming env r = Raise e
          ↔ ∃ cs, status r = 200 ∧ body_objects r = Objects cs ∧ cs ≠ []
                  ∧ new_view env cs = Raise e)
  ∧ (∀ v, upcoming env r = Ok (Offered v) →
          (1 ≤ length (dropdown v) ≤ 25)%nat).
Proof.
  assert (∀ v, upcoming env r = Ok (Offered v)
          ↔ ∃ cs, status r = 200 ∧ body_objects r = Objects cs ∧ cs ≠ []
                  ∧ new_view env cs = Ok v) as Hoffered.
  { intros v. unfold upcoming, fetch_contests.
    destruct (Z.eqb_spec (status r) 200) as [Hs|Hs];
      [|split; [done|by intros (? & ? & _)]].
    destruct (body_objects r) as [| |[|c cs]].
    - split; [done|by intros (? & _ & ? & _)].
    - split; [done|by intros (? & _ & ? & _)].
    - split; [done|]. by intros (? & _ & [= <-] & ? & _).
    - destruct (new_view env (c :: cs)) as [v'|e] eqn:E; simpl.
      + split; [intros [= <-]; by exists (c :: cs)|].
        intros (? & _ & [= <-] & _ & Hv). rewrite E in Hv. by injection Hv as <-.
      + split; [done|]. intros (? & _ & [= <-] & _ & Hv). congruence. }
  split_and!.
  - unfold upcoming, fetch_contests.
    destruct (Z.eqb_spec (status r) 200) as [Hs|Hs]; [|split; eauto].
    destruct (body_objects r) as [| |[|c cs]]; simpl.
    + split; [done|intros [?|?]; done].
    + split; eauto.
    + split; [done|intros [?|?]; done].
    + destruct (new_view env (c :: cs)); simpl; (split; [done|intros [?|?]; done]).
  - unfold upcoming, fetch_contests.
    destruct (Z.eqb_spec (status r) 200) as [Hs|Hs]; [|split; [done|by intros [? _]]].
    destruct (body_objects r) as [| |[|c cs]]; simpl.
    + split; eauto.
    + split; [done|intros [_ [?|?]]; done].
    + split; eauto.
    + destruct (new_view env (c :: cs)); simpl;
        (split; [done|intros [_ [?|?]]; done]).
  - exact Hoffered.
  - intros e. unfold upcoming, fetch_contests.
    destruct (Z.eqb_spec (status r) 200) as [Hs|Hs];
      [|split; [done|by intros (? & ? & _)]].
    destruct (body_objects r) as [| |[|c cs]].
    + split; [done|by intros (? & _ & ? & _)].
    + split; [done|by intros (? & _ & ? & _)].
    + split; [done|]. by intros (? & _ & [= <-] & ? & _).
    + destruct (new_view env (c :: cs)) as [v'|e'] eqn:E; simpl.
      * split; [done|]. intros (? & _ & [= <-] & _ & Hv). congruence.
      * split; [intros [= <-]; by exists (c :: cs)|].
        intros (? & _ & [= <-] & _ & Hv). rewrite E in Hv. by injection Hv as <-.
  - intros v (cs & _ & _ & Hne & Hv)%Hoffered.
    rewrite (dropdown_length _ _ _ Hv).
    destruct cs as [|c cs]; [done|]. rewrite length_cons. lia.
Qed.

End ViewFacts.
